(** * terraform-provider-redpanda: operation polling, cluster conversion
      and provider configuration

    A shallow embedding of the Go code of the provider:
    - [utils] (package utils): [IsNotFound], [CheckOpsState], [AreWeDoneYet],
      [TypeListToStringSlice], the enum printers, [TopicConfigurationToSlice]
      and [ConfigSynonymsToSlice];
    - [cluster] (redpanda/resources/cluster/cluster.go): the nil tests on
      optional blocks, [generateClusterUpdate], [generateUpdateRequest] and
      [generateModel];
    - [redpanda] (the provider): [Configure].

    Conventions.  A Go string is a [string] (a sequence of bytes).  A Go slice
    is [Go.slice]: nil, or a backing sequence that may be empty.  A pointer
    that the code compares with nil is an [option]; a pointer that the code
    dereferences without a test is the record it points to.  A Go [error]
    result is an [option Go.error], [None] being nil.  Definitions come first,
    the theorems about them follow. *)

From Stdlib Require Import String Ascii List ZArith Bool Lia.
Import ListNotations.
Open Scope string_scope.
Open Scope list_scope.

(* ================================================================= *)
(** ** Go values *)

Module Go.

Definition slice (A : Type) : Type := option (list A).

Definition elems {A : Type} (s : slice A) : list A :=
  match s with
  | None => []
  | Some l => l
  end.

Definition len {A : Type} (s : slice A) : nat := length (elems s).

(** [append(s, x)]: the result is never nil. *)
Definition append {A : Type} (s : slice A) (x : A) : slice A :=
  Some (elems s ++ [x]).

(** [make([]T, n)]: [n] zero values. *)
Definition make {A : Type} (zero : A) (n : nat) : slice A :=
  Some (repeat zero n).

(** [for _, v := range s { acc = body(acc, v) }]. *)
Definition range {A B : Type} (s : slice A) (body : B -> A -> B) (acc : B) : B :=
  fold_left body (elems s) acc.

(** An error value: its dynamic kind and the text that [Error()] returns.
    [errorString] is what [errors.New] and [fmt.Errorf] build; [clientError]
    is an error that a service client hands back. *)
Inductive error : Type :=
| errorString (msg : string)
| clientError (msg : string).

Definition Error (e : error) : string :=
  match e with
  | errorString msg => msg
  | clientError msg => msg
  end.

Definition errors_New (msg : string) : error := errorString msg.

(** A call either comes back with its results or panics (here: on a nil
    pointer that it dereferences). *)
Inductive outcome (A : Type) : Type :=
| Done (a : A)
| Panic.

Arguments Done {A} a.
Arguments Panic {A}.

(** [switch x { case k1: v1 ... default: d }] on a string, the cases tried
    in order. *)
Fixpoint switch {A : Type} (x : string) (cases : list (string * A)) (default : A) : A :=
  match cases with
  | [] => default
  | (k, v) :: rest => if String.eqb x k then v else switch x rest default
  end.

End Go.

(* ================================================================= *)
(** ** Package strings *)

Module strings.

Fixpoint HasPrefix (s prefix : string) {struct prefix} : bool :=
  match prefix with
  | EmptyString => true
  | String p prefix' =>
      match s with
      | EmptyString => false
      | String c s' => Ascii.eqb c p && HasPrefix s' prefix'
      end
  end.

(** [strings.Contains(s, substr)]: [substr] starts at some offset of [s]. *)
Fixpoint Contains (s substr : string) : bool :=
  HasPrefix s substr ||
  match s with
  | EmptyString => false
  | String _ s' => Contains s' substr
  end.

Fixpoint ContainsByte (cutset : string) (c : ascii) : bool :=
  match cutset with
  | EmptyString => false
  | String d cutset' => Ascii.eqb c d || ContainsByte cutset' c
  end.

Fixpoint TrimLeft (s cutset : string) : string :=
  match s with
  | EmptyString => EmptyString
  | String c s' => if ContainsByte cutset c then TrimLeft s' cutset else s
  end.

Fixpoint TrimRight (s cutset : string) : string :=
  match s with
  | EmptyString => EmptyString
  | String c s' =>
      match TrimRight s' cutset with
      | EmptyString => if ContainsByte cutset c then EmptyString else String c EmptyString
      | rest => String c rest
      end
  end.

(** [strings.Trim(s, cutset)] for a cutset of one-byte characters. *)
Definition Trim (s cutset : string) : string :=
  TrimRight (TrimLeft s cutset) cutset.

(** [unicode.ToLower] and [unicode.ToUpper] mapped over a string that has
    a byte outside ASCII: the case tables of the Go library. *)
Class Unicode : Type := {
  Map_unicode_ToLower : string -> string;
  Map_unicode_ToUpper : string -> string
}.

Definition byteIn (lo hi : nat) (c : ascii) : bool :=
  (lo <=? nat_of_ascii c)%nat && (nat_of_ascii c <=? hi)%nat.

(** No byte of [s] reaches [utf8.RuneSelf]. *)
Fixpoint isASCII (s : string) : bool :=
  match s with
  | EmptyString => true
  | String c s' => (nat_of_ascii c <? 128)%nat && isASCII s'
  end.

Fixpoint hasByteIn (lo hi : nat) (s : string) : bool :=
  match s with
  | EmptyString => false
  | String c s' => byteIn lo hi c || hasByteIn lo hi s'
  end.

Fixpoint mapBytes (f : ascii -> ascii) (s : string) : string :=
  match s with
  | EmptyString => EmptyString
  | String c s' => String (f c) (mapBytes f s')
  end.

Definition lowerByte (c : ascii) : ascii :=
  if byteIn 65 90 c then ascii_of_nat (nat_of_ascii c + 32) else c.

Definition upperByte (c : ascii) : ascii :=
  if byteIn 97 122 c then ascii_of_nat (nat_of_ascii c - 32) else c.

(** [strings.ToLower]: an ASCII string is mapped byte by byte (and returned
    as it is when it has no upper-case letter); any other string goes
    through the Unicode tables. *)
Definition ToLower `{Unicode} (s : string) : string :=
  if isASCII s then
    if negb (hasByteIn 65 90 s) then s else mapBytes lowerByte s
  else Map_unicode_ToLower s.

(** [strings.ToUpper], likewise. *)
Definition ToUpper `{Unicode} (s : string) : string :=
  if isASCII s then
    if negb (hasByteIn 97 122 s) then s else mapBytes upperByte s
  else Map_unicode_ToUpper s.

End strings.

(* ================================================================= *)
(** ** terraform-plugin-framework values (package types) *)

Module types.

Inductive Bool : Type :=
| BoolNull
| BoolUnknown
| BoolValue (b : bool).

Inductive String : Type :=
| StringNull
| StringUnknown
| StringValue (s : string).

(** A list whose element type is [types.StringType]. *)
Inductive List : Type :=
| ListNull
| ListUnknown
| ListValue (elements : list String).

(** A map whose element type is [types.StringType]. *)
Inductive Map : Type :=
| MapNull
| MapUnknown
| MapValue (elements : list (string * String)).

(** The part of the [attr.Value] interface that the provider calls. *)
Class Value (A : Type) : Type := {
  IsNull : A -> bool;
  IsUnknown : A -> bool
}.

#[global] Instance Value_Bool : Value Bool := {|
  IsNull v := match v with BoolNull => true | _ => false end;
  IsUnknown v := match v with BoolUnknown => true | _ => false end
|}.

#[global] Instance Value_String : Value String := {|
  IsNull v := match v with StringNull => true | _ => false end;
  IsUnknown v := match v with StringUnknown => true | _ => false end
|}.

#[global] Instance Value_List : Value List := {|
  IsNull v := match v with ListNull => true | _ => false end;
  IsUnknown v := match v with ListUnknown => true | _ => false end
|}.

#[global] Instance Value_Map : Value Map := {|
  IsNull v := match v with MapNull => true | _ => false end;
  IsUnknown v := match v with MapUnknown => true | _ => false end
|}.

(** [ValueBool] is false for a null or unknown value. *)
Definition ValueBool (v : Bool) : bool :=
  match v with
  | BoolValue b => b
  | _ => false
  end.

(** [ValueString] is the empty string for a null or unknown value. *)
Definition ValueString (v : String) : string :=
  match v with
  | StringValue s => s
  | _ => EmptyString
  end.

(** [Elements] is empty for a null or unknown list. *)
Definition Elements (v : List) : list String :=
  match v with
  | ListValue elements => elements
  | _ => []
  end.

End types.

(** Functions that the modelled code calls and whose source is not among the
    modelled files: [strconv_Quote] is the [%q] rendering that
    [StringValue.String()] applies to a known string, and
    [StringSliceToTypeList] is the helper of package utils that cluster.go
    calls to turn a [[]string] into a [types.List]. *)
Class Collaborators : Type := {
  strconv_Quote : string -> string;
  StringSliceToTypeList : Go.slice string -> types.List
}.

(** [String()] of a [types.String]. *)
Definition String_String `{Collaborators} (v : types.String) : string :=
  match v with
  | types.StringNull => "<null>"
  | types.StringUnknown => "<unknown>"
  | types.StringValue s => strconv_Quote s
  end.

(* ================================================================= *)
(** ** Control-plane messages read by package utils (cloudv1beta1) *)

Module cloudv1beta1.

(** The enumerations of the generated code are int32 values: beside the
    values that the code names, [_other n] is a value that has none of these
    names and that a [switch] sends to its [default] branch. *)
Inductive CloudProvider : Type :=
| CloudProvider_CLOUD_PROVIDER_UNSPECIFIED
| CloudProvider_CLOUD_PROVIDER_AWS
| CloudProvider_CLOUD_PROVIDER_GCP
| CloudProvider_other (n : Z).

Inductive Cluster_Type : Type :=
| Cluster_TYPE_UNSPECIFIED
| Cluster_TYPE_DEDICATED
| Cluster_TYPE_BYOC
| Cluster_TYPE_other (n : Z).

Inductive Cluster_ConnectionType : Type :=
| Cluster_CONNECTION_TYPE_UNSPECIFIED
| Cluster_CONNECTION_TYPE_PUBLIC
| Cluster_CONNECTION_TYPE_PRIVATE
| Cluster_CONNECTION_TYPE_other (n : Z).

Inductive Operation_State : Type :=
| Operation_STATE_UNSPECIFIED
| Operation_STATE_IN_PROGRESS
| Operation_STATE_COMPLETED
| Operation_STATE_FAILED
| Operation_STATE_other (n : Z).

(** The error payload of an operation. *)
Module Status.
Record t : Type := { Code : Z; Message : string }.
End Status.

Module Operation.
Record t : Type := {
  Id : string;
  State : Operation_State;
  Error : option Status.t
}.
End Operation.

Module GetOperationRequest.
Record t : Type := { Id : string }.
End GetOperationRequest.

(** Generated getters accept a nil receiver and then return the zero value. *)
Definition GetId (op : option Operation.t) : string :=
  match op with
  | None => EmptyString
  | Some o => Operation.Id o
  end.

Definition GetState (op : option Operation.t) : Operation_State :=
  match op with
  | None => Operation_STATE_UNSPECIFIED
  | Some o => Operation.State o
  end.

Definition GetError (op : option Operation.t) : option Status.t :=
  match op with
  | None => None
  | Some o => Operation.Error o
  end.

Definition GetMessage (st : option Status.t) : string :=
  match st with
  | None => EmptyString
  | Some s => Status.Message s
  end.

(** The messages that the lookups by name of package utils read. *)
Module Namespace.
Record t : Type := { Id : string; Name : string }.
End Namespace.

Module Network.
Record t : Type := {
  Id : string;
  Name : string;
  CidrBlock : string;
  Region : string;
  NamespaceId : string;
  CloudProvider_ : CloudProvider;
  ClusterType : Cluster_Type
}.
End Network.

Module Cluster.
Record t : Type := { Id : string; Name : string }.
End Cluster.

(** The [Filter] of a list request. *)
Module Filter.
Record t : Type := { Name : string }.
End Filter.

Module ListNamespacesRequest.
Record t : Type := { Filter_ : option Filter.t }.
End ListNamespacesRequest.

Module ListNamespacesResponse.
Record t : Type := { Namespaces : Go.slice (option Namespace.t) }.
End ListNamespacesResponse.

Module ListNetworksRequest.
Record t : Type := { Filter_ : option Filter.t }.
End ListNetworksRequest.

Module ListNetworksResponse.
Record t : Type := { Networks : Go.slice (option Network.t) }.
End ListNetworksResponse.

Module ListClustersRequest.
Record t : Type := { Filter_ : option Filter.t }.
End ListClustersRequest.

Module ListClustersResponse.
Record t : Type := { Clusters : Go.slice (option Cluster.t) }.
End ListClustersResponse.

Definition GetNamespaces (r : option ListNamespacesResponse.t) : Go.slice (option Namespace.t) :=
  match r with
  | None => None
  | Some r' => ListNamespacesResponse.Namespaces r'
  end.

Definition GetNetworks (r : option ListNetworksResponse.t) : Go.slice (option Network.t) :=
  match r with
  | None => None
  | Some r' => ListNetworksResponse.Networks r'
  end.

Definition GetClusters (r : option ListClustersResponse.t) : Go.slice (option Cluster.t) :=
  match r with
  | None => None
  | Some r' => ListClustersResponse.Clusters r'
  end.

Definition Namespace_GetName (v : option Namespace.t) : string :=
  match v with
  | None => EmptyString
  | Some v' => Namespace.Name v'
  end.

Definition Network_GetName (v : option Network.t) : string :=
  match v with
  | None => EmptyString
  | Some v' => Network.Name v'
  end.

Definition Cluster_GetName (v : option Cluster.t) : string :=
  match v with
  | None => EmptyString
  | Some v' => Cluster.Name v'
  end.

End cloudv1beta1.

(* ================================================================= *)
(** ** The effects of a wait: wall clock, sleeping, the operation client *)

Module runtime.

Local Open Scope Z_scope.

(** What a wait does to the outside: a [GetOperation] call for [id] that
    is over at time [finished], and a [time.Sleep] of [d]. *)
Inductive event : Type :=
| EvFetch (id : string) (finished : Z)
| EvSleep (d : Z).

(** [clock] is the wall clock in nanoseconds.  [lag n] is how much longer
    than asked the [n]-th call of [time.Sleep] pauses.  [history] lists the
    fetches and sleeps performed so far, oldest first. *)
Record World : Type := {
  clock : Z;
  fetches : nat;
  sleeps : nat;
  lag : nat -> Z;
  history : list event
}.

Definition M (A : Type) : Type := World -> A * World.

Definition ret {A : Type} (a : A) : M A := fun w => (a, w).

Definition bind {A B : Type} (m : M A) (k : A -> M B) : M B :=
  fun w => let (a, w') := m w in k a w'.

(** [context.Context], as far as the provider is concerned: something it
    hands on to the client. *)
Record Context : Type := { Err : option Go.error }.

(** [time.Duration] and [time.Time] count nanoseconds. *)
Definition Second : Z := 1000000000.
Definition Minute : Z := 60 * Second.

Definition time_Now : M Z := fun w => (clock w, w).

Definition time_Since (t : Z) : M Z := fun w => (clock w - t, w).

Definition time_Sleep (d : Z) : M unit := fun w =>
  (tt, {| clock := clock w + d + lag w (sleeps w);
          fetches := fetches w;
          sleeps := S (sleeps w);
          lag := lag w;
          history := history w ++ [EvSleep d] |}).

(** An [OperationServiceClient]: what its [n]-th [GetOperation] call answers
    (an operation and, when the call fails, the message of its error) and
    how long that call takes. *)
Record OperationServiceClient : Type := {
  answer : nat -> Context -> cloudv1beta1.GetOperationRequest.t ->
           option cloudv1beta1.Operation.t * option string;
  latency : nat -> Z
}.

Definition GetOperation (client : OperationServiceClient) (ctx : Context)
    (req : cloudv1beta1.GetOperationRequest.t)
    : M (option cloudv1beta1.Operation.t * option Go.error) := fun w =>
  let (o, failure) := answer client (fetches w) ctx req in
  let finished := clock w + latency client (fetches w) in
  ((o, option_map Go.clientError failure),
   {| clock := finished;
      fetches := S (fetches w);
      sleeps := sleeps w;
      lag := lag w;
      history := history w
                 ++ [EvFetch (cloudv1beta1.GetOperationRequest.Id req) finished] |}).

End runtime.

Declare Scope go_scope.
Delimit Scope go_scope with go.
Notation "x <- m ;; k" := (runtime.bind m (fun x => k))
  (at level 61, m at next level, right associativity) : go_scope.
Notation "m ;;; k" := (runtime.bind m (fun _ => k))
  (at level 61, right associativity) : go_scope.

(* ================================================================= *)
(** ** Messages of the dataplane API read by package utils *)

Module dataplanev1alpha1.

Inductive Topic_Configuration_Source : Type :=
| Topic_Configuration_SOURCE_UNSPECIFIED
| Topic_Configuration_SOURCE_DYNAMIC_TOPIC_CONFIG
| Topic_Configuration_SOURCE_DYNAMIC_BROKER_CONFIG
| Topic_Configuration_SOURCE_DYNAMIC_DEFAULT_BROKER_CONFIG
| Topic_Configuration_SOURCE_STATIC_BROKER_CONFIG
| Topic_Configuration_SOURCE_DEFAULT_CONFIG
| Topic_Configuration_SOURCE_DYNAMIC_BROKER_LOGGER_CONFIG
| Topic_Configuration_SOURCE_other (n : Z).

Module Topic_Configuration_ConfigSynonym.
Record t : Type := {
  Name : string;
  Value : string;
  Source : Topic_Configuration_Source
}.
End Topic_Configuration_ConfigSynonym.

Module Topic_Configuration.
Record t : Type := {
  Name : string;
  Type_ : string;
  Value : string;
  Source : Topic_Configuration_Source;
  IsReadOnly : bool;
  IsSensitive : bool;
  ConfigSynonyms : Go.slice Topic_Configuration_ConfigSynonym.t;
  Documentation : string
}.
End Topic_Configuration.

Inductive SASLMechanism : Type :=
| SASLMechanism_SASL_MECHANISM_UNSPECIFIED
| SASLMechanism_SASL_MECHANISM_SCRAM_SHA_256
| SASLMechanism_SASL_MECHANISM_SCRAM_SHA_512
| SASLMechanism_SASL_MECHANISM_other (n : Z).

(** In the four ACL enumerations, [_other n] is a value that has none of
    the names of the enumeration; the parsers return [_other (-1)] with
    their error. *)
Inductive ACL_ResourceType : Type :=
| ACL_RESOURCE_TYPE_UNSPECIFIED
| ACL_RESOURCE_TYPE_ANY
| ACL_RESOURCE_TYPE_TOPIC
| ACL_RESOURCE_TYPE_GROUP
| ACL_RESOURCE_TYPE_CLUSTER
| ACL_RESOURCE_TYPE_TRANSACTIONAL_ID
| ACL_RESOURCE_TYPE_DELEGATION_TOKEN
| ACL_RESOURCE_TYPE_USER
| ACL_RESOURCE_TYPE_other (n : Z).

Inductive ACL_ResourcePatternType : Type :=
| ACL_RESOURCE_PATTERN_TYPE_UNSPECIFIED
| ACL_RESOURCE_PATTERN_TYPE_ANY
| ACL_RESOURCE_PATTERN_TYPE_MATCH
| ACL_RESOURCE_PATTERN_TYPE_LITERAL
| ACL_RESOURCE_PATTERN_TYPE_PREFIXED
| ACL_RESOURCE_PATTERN_TYPE_other (n : Z).

Inductive ACL_Operation : Type :=
| ACL_OPERATION_UNSPECIFIED
| ACL_OPERATION_ANY
| ACL_OPERATION_ALL
| ACL_OPERATION_READ
| ACL_OPERATION_WRITE
| ACL_OPERATION_CREATE
| ACL_OPERATION_DELETE
| ACL_OPERATION_ALTER
| ACL_OPERATION_DESCRIBE
| ACL_OPERATION_CLUSTER_ACTION
| ACL_OPERATION_DESCRIBE_CONFIGS
| ACL_OPERATION_ALTER_CONFIGS
| ACL_OPERATION_IDEMPOTENT_WRITE
| ACL_OPERATION_CREATE_TOKENS
| ACL_OPERATION_DESCRIBE_TOKENS
| ACL_OPERATION_other (n : Z).

Inductive ACL_PermissionType : Type :=
| ACL_PERMISSION_TYPE_UNSPECIFIED
| ACL_PERMISSION_TYPE_ANY
| ACL_PERMISSION_TYPE_DENY
| ACL_PERMISSION_TYPE_ALLOW
| ACL_PERMISSION_TYPE_other (n : Z).

Module ListUsersResponse_User.
Record t : Type := { Name : string }.
End ListUsersResponse_User.

Module ListUsersRequest.
Record t : Type := { Name : option string }.
End ListUsersRequest.

Module ListUsersResponse.
Record t : Type := { Users : Go.slice (option ListUsersResponse_User.t) }.
End ListUsersResponse.

Module Topic.
Record t : Type := { Name : string }.
End Topic.

Module ListTopicsRequest_Filter.
Record t : Type := { Name : string }.
End ListTopicsRequest_Filter.

Module ListTopicsRequest.
Record t : Type := { Filter_ : option ListTopicsRequest_Filter.t }.
End ListTopicsRequest.

Module ListTopicsResponse.
Record t : Type := { Topics : Go.slice (option Topic.t) }.
End ListTopicsResponse.

Definition GetUsers (r : option ListUsersResponse.t)
    : Go.slice (option ListUsersResponse_User.t) :=
  match r with
  | None => None
  | Some r' => ListUsersResponse.Users r'
  end.

Definition GetTopics (r : option ListTopicsResponse.t) : Go.slice (option Topic.t) :=
  match r with
  | None => None
  | Some r' => ListTopicsResponse.Topics r'
  end.

Definition User_GetName (v : option ListUsersResponse_User.t) : string :=
  match v with
  | None => EmptyString
  | Some v' => ListUsersResponse_User.Name v'
  end.

Definition Topic_GetName (v : option Topic.t) : string :=
  match v with
  | None => EmptyString
  | Some v' => Topic.Name v'
  end.

End dataplanev1alpha1.

(* ================================================================= *)
(** ** The list calls of the service clients *)

Module services.

(** Each client is what its list call answers to a request: a response and
    an error, either of which may be nil. *)
Record NamespaceServiceClient : Type := {
  ListNamespaces : runtime.Context -> cloudv1beta1.ListNamespacesRequest.t ->
                   option cloudv1beta1.ListNamespacesResponse.t * option Go.error
}.

Record NetworkServiceClient : Type := {
  ListNetworks : runtime.Context -> cloudv1beta1.ListNetworksRequest.t ->
                 option cloudv1beta1.ListNetworksResponse.t * option Go.error
}.

Record ClusterServiceClient : Type := {
  ListClusters : runtime.Context -> cloudv1beta1.ListClustersRequest.t ->
                 option cloudv1beta1.ListClustersResponse.t * option Go.error
}.

Record UserServiceClient : Type := {
  ListUsers : runtime.Context -> dataplanev1alpha1.ListUsersRequest.t ->
              option dataplanev1alpha1.ListUsersResponse.t * option Go.error
}.

Record TopicServiceClient : Type := {
  ListTopics : runtime.Context -> dataplanev1alpha1.ListTopicsRequest.t ->
               option dataplanev1alpha1.ListTopicsResponse.t * option Go.error
}.

End services.

(* ================================================================= *)
(** ** Control-plane messages read and built by cluster.go
       (controlplanev1beta2) *)

Module controlplanev1beta2.

Module AWSPrivateLinkSpec.
Record t : Type := {
  Enabled : bool;
  AllowedPrincipals : Go.slice string;
  ConnectConsole : bool
}.
End AWSPrivateLinkSpec.

Module AWSPrivateLinkStatus.
Record t : Type := {
  Enabled : bool;
  AllowedPrincipals : Go.slice string;
  ConnectConsole : bool
}.
End AWSPrivateLinkStatus.

Module AzurePrivateLinkSpec.
Record t : Type := {
  Enabled : bool;
  AllowedSubscriptions : Go.slice string;
  ConnectConsole : bool
}.
End AzurePrivateLinkSpec.

Module AzurePrivateLinkStatus.
Record t : Type := {
  Enabled : bool;
  AllowedSubscriptions : Go.slice string;
  ConnectConsole : bool
}.
End AzurePrivateLinkStatus.

Module GCPPrivateServiceConnectConsumer.
Record t : Type := { Source : string }.
End GCPPrivateServiceConnectConsumer.

Module GCPPrivateServiceConnectSpec.
Record t : Type := {
  Enabled : bool;
  GlobalAccessEnabled : bool;
  ConsumerAcceptList : Go.slice GCPPrivateServiceConnectConsumer.t
}.
End GCPPrivateServiceConnectSpec.

Module GCPPrivateServiceConnectStatus.
Record t : Type := {
  Enabled : bool;
  GlobalAccessEnabled : bool;
  ConsumerAcceptList : Go.slice GCPPrivateServiceConnectConsumer.t
}.
End GCPPrivateServiceConnectStatus.

Module MTLSSpec.
Record t : Type := {
  Enabled : bool;
  CaCertificatesPem : Go.slice string;
  PrincipalMappingRules : Go.slice string
}.
End MTLSSpec.

Module KafkaAPISpec.
Record t : Type := { Mtls : option MTLSSpec.t }.
End KafkaAPISpec.

Module HTTPProxySpec.
Record t : Type := { Mtls : option MTLSSpec.t }.
End HTTPProxySpec.

Module SchemaRegistrySpec.
Record t : Type := { Mtls : option MTLSSpec.t }.
End SchemaRegistrySpec.

(** The endpoint blocks of a cluster as the backend reports them. *)
Module KafkaAPI.
Record t : Type := { Mtls : option MTLSSpec.t }.
End KafkaAPI.

Module HTTPProxyStatus.
Record t : Type := { Mtls : option MTLSSpec.t }.
End HTTPProxyStatus.

Module SchemaRegistryStatus.
Record t : Type := { Mtls : option MTLSSpec.t }.
End SchemaRegistryStatus.

Module DataplaneAPI.
Record t : Type := { Url : string }.
End DataplaneAPI.

Module ClusterUpdate.
Record t : Type := {
  Id : string;
  Name : string;
  ReadReplicaClusterIds : Go.slice string;
  AwsPrivateLink : option AWSPrivateLinkSpec.t;
  AzurePrivateLink : option AzurePrivateLinkSpec.t;
  GcpPrivateServiceConnect : option GCPPrivateServiceConnectSpec.t;
  KafkaApi : option KafkaAPISpec.t;
  HttpProxy : option HTTPProxySpec.t;
  SchemaRegistry : option SchemaRegistrySpec.t
}.

(** [update.Id = id]. *)
Definition set_Id (id : string) (u : t) : t :=
  {| Id := id;
     Name := Name u;
     ReadReplicaClusterIds := ReadReplicaClusterIds u;
     AwsPrivateLink := AwsPrivateLink u;
     AzurePrivateLink := AzurePrivateLink u;
     GcpPrivateServiceConnect := GcpPrivateServiceConnect u;
     KafkaApi := KafkaApi u;
     HttpProxy := HttpProxy u;
     SchemaRegistry := SchemaRegistry u |}.
End ClusterUpdate.

Module FieldMask.
Record t : Type := { Paths : list string }.
End FieldMask.

Module UpdateClusterRequest.
Record t : Type := {
  Cluster : option ClusterUpdate.t;
  UpdateMask : option FieldMask.t
}.
End UpdateClusterRequest.

Module Cluster.
Record t : Type := {
  Id : string;
  Name : string;
  ConnectionType : cloudv1beta1.Cluster_ConnectionType;
  CloudProvider : cloudv1beta1.CloudProvider;
  Type_ : cloudv1beta1.Cluster_Type;
  ThroughputTier : string;
  Region : string;
  Zones : Go.slice string;
  ResourceGroupId : string;
  NetworkId : string;
  ReadReplicaClusterIds : Go.slice string;
  DataplaneApi : option DataplaneAPI.t;
  AwsPrivateLink : option AWSPrivateLinkStatus.t;
  GcpPrivateServiceConnect : option GCPPrivateServiceConnectStatus.t;
  AzurePrivateLink : option AzurePrivateLinkStatus.t;
  KafkaApi : option KafkaAPI.t;
  HttpProxy : option HTTPProxyStatus.t;
  SchemaRegistry : option SchemaRegistryStatus.t
}.

(** The same cluster with another [aws_private_link] block. *)
Definition with_AwsPrivateLink (b : option AWSPrivateLinkStatus.t) (c : t) : t :=
  {| Id := Id c;
     Name := Name c;
     ConnectionType := ConnectionType c;
     CloudProvider := CloudProvider c;
     Type_ := Type_ c;
     ThroughputTier := ThroughputTier c;
     Region := Region c;
     Zones := Zones c;
     ResourceGroupId := ResourceGroupId c;
     NetworkId := NetworkId c;
     ReadReplicaClusterIds := ReadReplicaClusterIds c;
     DataplaneApi := DataplaneApi c;
     AwsPrivateLink := b;
     GcpPrivateServiceConnect := GcpPrivateServiceConnect c;
     AzurePrivateLink := AzurePrivateLink c;
     KafkaApi := KafkaApi c;
     HttpProxy := HttpProxy c;
     SchemaRegistry := SchemaRegistry c |}.
End Cluster.

(** Nil-safe getters of the generated code. *)
Definition KafkaApi_GetMtls (k : option KafkaAPI.t) : option MTLSSpec.t :=
  match k with
  | None => None
  | Some k' => KafkaAPI.Mtls k'
  end.

Definition HttpProxy_GetMtls (k : option HTTPProxyStatus.t) : option MTLSSpec.t :=
  match k with
  | None => None
  | Some k' => HTTPProxyStatus.Mtls k'
  end.

Definition SchemaRegistry_GetMtls (k : option SchemaRegistryStatus.t) : option MTLSSpec.t :=
  match k with
  | None => None
  | Some k' => SchemaRegistryStatus.Mtls k'
  end.

Module ClusterCreate.
Record t : Type := {
  Name : string;
  ConnectionType : cloudv1beta1.Cluster_ConnectionType;
  CloudProvider : cloudv1beta1.CloudProvider;
  RedpandaVersion : option string;
  ThroughputTier : string;
  Region : string;
  Zones : Go.slice string;
  ResourceGroupId : string;
  NetworkId : string;
  Type_ : cloudv1beta1.Cluster_Type;
  CloudProviderTags : list (string * string);
  AwsPrivateLink : option AWSPrivateLinkSpec.t;
  GcpPrivateServiceConnect : option GCPPrivateServiceConnectSpec.t;
  AzurePrivateLink : option AzurePrivateLinkSpec.t;
  KafkaApi : option KafkaAPISpec.t;
  HttpProxy : option HTTPProxySpec.t;
  SchemaRegistry : option SchemaRegistrySpec.t;
  ReadReplicaClusterIds : Go.slice string
}.
End ClusterCreate.

End controlplanev1beta2.

(* ================================================================= *)
(** ** Terraform models (package models) *)

Module models.

Module AwsPrivateLink.
Record t : Type := {
  Enabled : types.Bool;
  ConnectConsole : types.Bool;
  AllowedPrincipals : types.List
}.
End AwsPrivateLink.

Module AzurePrivateLink.
Record t : Type := {
  Enabled : types.Bool;
  ConnectConsole : types.Bool;
  AllowedSubscriptions : types.List
}.
End AzurePrivateLink.

Module GcpPrivateServiceConnectConsumer.
Record t : Type := { Source : string }.
End GcpPrivateServiceConnectConsumer.

Module GcpPrivateServiceConnect.
Record t : Type := {
  Enabled : types.Bool;
  GlobalAccessEnabled : types.Bool;
  ConsumerAcceptList : Go.slice GcpPrivateServiceConnectConsumer.t
}.
End GcpPrivateServiceConnect.

Module Mtls.
Record t : Type := {
  Enabled : types.Bool;
  CaCertificatesPem : types.List;
  PrincipalMappingRules : types.List
}.
End Mtls.

Module KafkaAPI.
Record t : Type := { Mtls : option Mtls.t }.
End KafkaAPI.

Module HTTPProxy.
Record t : Type := { Mtls : option Mtls.t }.
End HTTPProxy.

Module SchemaRegistry.
Record t : Type := { Mtls : option Mtls.t }.
End SchemaRegistry.

Module Cluster.
Record t : Type := {
  Name : types.String;
  ID : types.String;
  ConnectionType : types.String;
  CloudProvider : types.String;
  ClusterType : types.String;
  RedpandaVersion : types.String;
  ThroughputTier : types.String;
  Region : types.String;
  Zones : types.List;
  AllowDeletion : types.Bool;
  Tags : types.Map;
  ResourceGroupID : types.String;
  NetworkID : types.String;
  ClusterAPIURL : types.String;
  AwsPrivateLink : option AwsPrivateLink.t;
  GcpPrivateServiceConnect : option GcpPrivateServiceConnect.t;
  AzurePrivateLink : option AzurePrivateLink.t;
  KafkaAPI : option KafkaAPI.t;
  HTTPProxy : option HTTPProxy.t;
  SchemaRegistry : option SchemaRegistry.t;
  ReadReplicaClusterIDs : types.List
}.
End Cluster.

Module TopicConfigSynonym.
Record t : Type := {
  Name : types.String;
  Value : types.String;
  Source : types.String
}.
End TopicConfigSynonym.

Module TopicConfiguration.
Record t : Type := {
  Name : types.String;
  Type_ : types.String;
  Value : types.String;
  Source : types.String;
  IsReadOnly : types.Bool;
  IsSensitive : types.Bool;
  ConfigSynonyms : Go.slice (option TopicConfigSynonym.t);
  Documentation : types.String
}.
End TopicConfiguration.

(** The provider block. *)
Module Redpanda.
Record t : Type := {
  ClientID : types.String;
  ClientSecret : types.String;
  CloudProvider : types.String;
  Region : types.String;
  Zones : types.List
}.
End Redpanda.

End models.

(* ================================================================= *)
(** ** Package utils *)

Module utils.

Import runtime.
Local Open Scope go_scope.

Definition providerUnspecified : string := "unspecified".

(** [IsNotFound] checks if the passed error is a Not Found error or if it
    has a 404 code in the error message. *)
Definition IsNotFound (err : Go.error) : bool :=
  if strings.Contains (Go.Error err) "not found"
     || strings.Contains (Go.Error err) "NotFound"
     || strings.Contains (Go.Error err) "404"
  then true
  else false.

Definition CloudProviderToString (provider : cloudv1beta1.CloudProvider) : string :=
  match provider with
  | cloudv1beta1.CloudProvider_CLOUD_PROVIDER_AWS => "aws"
  | cloudv1beta1.CloudProvider_CLOUD_PROVIDER_GCP => "gcp"
  | _ => providerUnspecified
  end.

Definition ClusterTypeToString (provider : cloudv1beta1.Cluster_Type) : string :=
  match provider with
  | cloudv1beta1.Cluster_TYPE_DEDICATED => "dedicated"
  | cloudv1beta1.Cluster_TYPE_BYOC => "cloud"
  | _ => providerUnspecified
  end.

Definition ConnectionTypeToString (t : cloudv1beta1.Cluster_ConnectionType) : string :=
  match t with
  | cloudv1beta1.Cluster_CONNECTION_TYPE_PUBLIC => "public"
  | cloudv1beta1.Cluster_CONNECTION_TYPE_PRIVATE => "private"
  | _ => providerUnspecified
  end.

(** [CheckOpsState] checks if the op.State is either complete or failed,
    otherwise it returns false. *)
Definition CheckOpsState (op : option cloudv1beta1.Operation.t) : bool :=
  match cloudv1beta1.GetState op with
  | cloudv1beta1.Operation_STATE_COMPLETED => true
  | cloudv1beta1.Operation_STATE_FAILED => true
  | _ => false
  end.

(** What a call of [AreWeDoneYet] comes to: it returns an error value
    (nil or not), or the loop is still running when the budget of
    iterations granted to the model is used up. *)
Inductive outcome : Type :=
| Returned (err : option Go.error)
| StillPolling.

Definition operation_failed (msg : string) : Go.error :=
  Go.errorString ("operation failed: " ++ msg)%string.

Definition timeout_reached : Go.error := Go.errorString "timeout reached".

Definition pollInterval : Z := 10 * Second.

(** The [for] loop of [AreWeDoneYet]; [fuel] bounds its iterations. *)
Fixpoint pollLoop (fuel : nat) (ctx : Context) (op : option cloudv1beta1.Operation.t)
    (timeout : Z) (client : OperationServiceClient) (startTime : Z) : M outcome :=
  match fuel with
  | O => ret StillPolling
  | S fuel' =>
      r <- GetOperation client ctx
             {| cloudv1beta1.GetOperationRequest.Id := cloudv1beta1.GetId op |} ;;
      match r with
      | (_, Some err) => ret (Returned (Some err))
      | (o, None) =>
          if CheckOpsState o then
            match cloudv1beta1.GetError o with
            | Some _ =>
                if negb (IsNotFound (Go.errors_New
                           (cloudv1beta1.GetMessage (cloudv1beta1.GetError o))))
                then ret (Returned None)
                else ret (Returned (Some (operation_failed
                           (cloudv1beta1.GetMessage (cloudv1beta1.GetError o)))))
            | None => ret (Returned None)
            end
          else
            elapsed <- time_Since startTime ;;
            if (timeout <? elapsed)%Z
            then ret (Returned (Some timeout_reached))
            else time_Sleep pollInterval ;;;
                 pollLoop fuel' ctx op timeout client startTime
      end
  end.

(** [AreWeDoneYet] checks the status of a given operation until it either
    completes successfully, encounters an error, or reaches a timeout. *)
Definition AreWeDoneYet (fuel : nat) (ctx : Context) (op : option cloudv1beta1.Operation.t)
    (timeout : Z) (client : OperationServiceClient) : M outcome :=
  if CheckOpsState op then
    match cloudv1beta1.GetError op with
    | Some _ =>
        ret (Returned (Some (operation_failed
               (cloudv1beta1.GetMessage (cloudv1beta1.GetError op)))))
    | None => ret (Returned None)
    end
  else
    startTime <- time_Now ;;
    pollLoop fuel ctx op timeout client startTime.

Definition dquote : string := String (Ascii.ascii_of_nat 34) EmptyString.

(** [TypeListToStringSlice] converts a types.List to a []string, stripping
    surrounding quotes for each element. *)
Definition TypeListToStringSlice `{Collaborators} (t : types.List) : Go.slice string :=
  fold_left (fun s v => Go.append s (strings.Trim (String_String v) dquote))
            (types.Elements t) None.

Definition TopicConfigurationSourceToString
    (e : dataplanev1alpha1.Topic_Configuration_Source) : string :=
  match e with
  | dataplanev1alpha1.Topic_Configuration_SOURCE_UNSPECIFIED => "SOURCE_UNSPECIFIED"
  | dataplanev1alpha1.Topic_Configuration_SOURCE_DYNAMIC_TOPIC_CONFIG => "DYNAMIC_TOPIC_CONFIG"
  | dataplanev1alpha1.Topic_Configuration_SOURCE_DYNAMIC_BROKER_CONFIG => "DYNAMIC_BROKER_CONFIG"
  | dataplanev1alpha1.Topic_Configuration_SOURCE_DYNAMIC_DEFAULT_BROKER_CONFIG =>
      "DYNAMIC_DEFAULT_BROKER_CONFIG"
  | dataplanev1alpha1.Topic_Configuration_SOURCE_STATIC_BROKER_CONFIG => "STATIC_BROKER_CONFIG"
  | dataplanev1alpha1.Topic_Configuration_SOURCE_DEFAULT_CONFIG => "DEFAULT_CONFIG"
  | dataplanev1alpha1.Topic_Configuration_SOURCE_DYNAMIC_BROKER_LOGGER_CONFIG =>
      "DYNAMIC_BROKER_LOGGER_CONFIG"
  | dataplanev1alpha1.Topic_Configuration_SOURCE_other _ => "UNKNOWN"
  end.

Definition toTopicConfigSynonym (v : dataplanev1alpha1.Topic_Configuration_ConfigSynonym.t)
    : models.TopicConfigSynonym.t :=
  {| models.TopicConfigSynonym.Name :=
       types.StringValue (dataplanev1alpha1.Topic_Configuration_ConfigSynonym.Name v);
     models.TopicConfigSynonym.Value :=
       types.StringValue (dataplanev1alpha1.Topic_Configuration_ConfigSynonym.Value v);
     models.TopicConfigSynonym.Source :=
       types.StringValue (TopicConfigurationSourceToString
         (dataplanev1alpha1.Topic_Configuration_ConfigSynonym.Source v)) |}.

(** The output starts as [make([]*T, len(synonyms))], that is [len(synonyms)]
    nil pointers, and every converted entry is appended to it. *)
Definition ConfigSynonymsToSlice
    (synonyms : Go.slice dataplanev1alpha1.Topic_Configuration_ConfigSynonym.t)
    : Go.slice (option models.TopicConfigSynonym.t) :=
  let output := Go.make None (Go.len synonyms) in
  Go.range synonyms
    (fun output v => Go.append output (Some (toTopicConfigSynonym v)))
    output.

Definition toTopicConfiguration (v : dataplanev1alpha1.Topic_Configuration.t)
    : models.TopicConfiguration.t :=
  {| models.TopicConfiguration.Name :=
       types.StringValue (dataplanev1alpha1.Topic_Configuration.Name v);
     models.TopicConfiguration.Type_ :=
       types.StringValue (dataplanev1alpha1.Topic_Configuration.Type_ v);
     models.TopicConfiguration.Value :=
       types.StringValue (dataplanev1alpha1.Topic_Configuration.Value v);
     models.TopicConfiguration.Source :=
       types.StringValue (TopicConfigurationSourceToString
         (dataplanev1alpha1.Topic_Configuration.Source v));
     models.TopicConfiguration.IsReadOnly :=
       types.BoolValue (dataplanev1alpha1.Topic_Configuration.IsReadOnly v);
     models.TopicConfiguration.IsSensitive :=
       types.BoolValue (dataplanev1alpha1.Topic_Configuration.IsSensitive v);
     models.TopicConfiguration.ConfigSynonyms :=
       ConfigSynonymsToSlice (dataplanev1alpha1.Topic_Configuration.ConfigSynonyms v);
     models.TopicConfiguration.Documentation :=
       types.StringValue (dataplanev1alpha1.Topic_Configuration.Documentation v) |}.

Definition TopicConfigurationToSlice (cfg : Go.slice dataplanev1alpha1.Topic_Configuration.t)
    : Go.slice (option models.TopicConfiguration.t) :=
  let output := Go.make None (Go.len cfg) in
  Go.range cfg
    (fun output v => Go.append output (Some (toTopicConfiguration v)))
    output.

(** Value equality of the fields of a [ClusterUpdate]. *)
Fixpoint list_eqb {A : Type} (eqb : A -> A -> bool) (l1 l2 : list A) : bool :=
  match l1, l2 with
  | [], [] => true
  | x :: l1', y :: l2' => eqb x y && list_eqb eqb l1' l2'
  | _, _ => false
  end.

Definition slice_eqb {A : Type} (eqb : A -> A -> bool) (s1 s2 : Go.slice A) : bool :=
  list_eqb eqb (Go.elems s1) (Go.elems s2).

Definition option_eqb {A : Type} (eqb : A -> A -> bool) (o1 o2 : option A) : bool :=
  match o1, o2 with
  | None, None => true
  | Some x, Some y => eqb x y
  | _, _ => false
  end.

Definition AWSPrivateLinkSpec_eqb (x y : controlplanev1beta2.AWSPrivateLinkSpec.t) : bool :=
  Bool.eqb (controlplanev1beta2.AWSPrivateLinkSpec.Enabled x)
           (controlplanev1beta2.AWSPrivateLinkSpec.Enabled y)
  && slice_eqb String.eqb (controlplanev1beta2.AWSPrivateLinkSpec.AllowedPrincipals x)
                          (controlplanev1beta2.AWSPrivateLinkSpec.AllowedPrincipals y)
  && Bool.eqb (controlplanev1beta2.AWSPrivateLinkSpec.ConnectConsole x)
              (controlplanev1beta2.AWSPrivateLinkSpec.ConnectConsole y).

Definition AzurePrivateLinkSpec_eqb (x y : controlplanev1beta2.AzurePrivateLinkSpec.t) : bool :=
  Bool.eqb (controlplanev1beta2.AzurePrivateLinkSpec.Enabled x)
           (controlplanev1beta2.AzurePrivateLinkSpec.Enabled y)
  && slice_eqb String.eqb (controlplanev1beta2.AzurePrivateLinkSpec.AllowedSubscriptions x)
                          (controlplanev1beta2.AzurePrivateLinkSpec.AllowedSubscriptions y)
  && Bool.eqb (controlplanev1beta2.AzurePrivateLinkSpec.ConnectConsole x)
              (controlplanev1beta2.AzurePrivateLinkSpec.ConnectConsole y).

Definition GCPPrivateServiceConnectConsumer_eqb
    (x y : controlplanev1beta2.GCPPrivateServiceConnectConsumer.t) : bool :=
  String.eqb (controlplanev1beta2.GCPPrivateServiceConnectConsumer.Source x)
             (controlplanev1beta2.GCPPrivateServiceConnectConsumer.Source y).

Definition GCPPrivateServiceConnectSpec_eqb
    (x y : controlplanev1beta2.GCPPrivateServiceConnectSpec.t) : bool :=
  Bool.eqb (controlplanev1beta2.GCPPrivateServiceConnectSpec.Enabled x)
           (controlplanev1beta2.GCPPrivateServiceConnectSpec.Enabled y)
  && Bool.eqb (controlplanev1beta2.GCPPrivateServiceConnectSpec.GlobalAccessEnabled x)
              (controlplanev1beta2.GCPPrivateServiceConnectSpec.GlobalAccessEnabled y)
  && slice_eqb GCPPrivateServiceConnectConsumer_eqb
       (controlplanev1beta2.GCPPrivateServiceConnectSpec.ConsumerAcceptList x)
       (controlplanev1beta2.GCPPrivateServiceConnectSpec.ConsumerAcceptList y).

Definition MTLSSpec_eqb (x y : controlplanev1beta2.MTLSSpec.t) : bool :=
  Bool.eqb (controlplanev1beta2.MTLSSpec.Enabled x) (controlplanev1beta2.MTLSSpec.Enabled y)
  && slice_eqb String.eqb (controlplanev1beta2.MTLSSpec.CaCertificatesPem x)
                          (controlplanev1beta2.MTLSSpec.CaCertificatesPem y)
  && slice_eqb String.eqb (controlplanev1beta2.MTLSSpec.PrincipalMappingRules x)
                          (controlplanev1beta2.MTLSSpec.PrincipalMappingRules y).

Definition KafkaAPISpec_eqb (x y : controlplanev1beta2.KafkaAPISpec.t) : bool :=
  option_eqb MTLSSpec_eqb (controlplanev1beta2.KafkaAPISpec.Mtls x)
                          (controlplanev1beta2.KafkaAPISpec.Mtls y).

Definition HTTPProxySpec_eqb (x y : controlplanev1beta2.HTTPProxySpec.t) : bool :=
  option_eqb MTLSSpec_eqb (controlplanev1beta2.HTTPProxySpec.Mtls x)
                          (controlplanev1beta2.HTTPProxySpec.Mtls y).

Definition SchemaRegistrySpec_eqb (x y : controlplanev1beta2.SchemaRegistrySpec.t) : bool :=
  option_eqb MTLSSpec_eqb (controlplanev1beta2.SchemaRegistrySpec.Mtls x)
                          (controlplanev1beta2.SchemaRegistrySpec.Mtls y).

(** One step of the walk over the fields: a field whose new value differs
    from the old one goes into the payload and its path into the mask; an
    unchanged field stays at its zero value and adds no path. *)
Definition diffField {A : Type} (eqb : A -> A -> bool) (path : string) (zero : A)
    (newValue oldValue : A) : A * list string :=
  if eqb newValue oldValue then (zero, []) else (newValue, [path]).

(** Modelled from the spec: [GenerateProtobufDiffAndUpdateMask] of package
    utils, which cluster.go calls and whose source is not among the modelled
    files.  The spec (4.2) has it walk the fields of both records in a fixed
    order; a top-level scalar or sequence field whose new value differs from
    the old one (value equality) is added to the mask and the new value is
    copied into the payload; a nested optional block whose presence or whose
    leaves differ is added under the root path of the block and the new block
    is copied whole; the identifier field is always copied into the payload
    and never added to the mask.  The order of the walk is the order in which
    [generateClusterUpdate] fills the fields. *)
Definition GenerateProtobufDiffAndUpdateMask
    (newMessage oldMessage : controlplanev1beta2.ClusterUpdate.t)
    : controlplanev1beta2.ClusterUpdate.t * controlplanev1beta2.FieldMask.t :=
  let name := diffField String.eqb "name" EmptyString
      (controlplanev1beta2.ClusterUpdate.Name newMessage)
      (controlplanev1beta2.ClusterUpdate.Name oldMessage) in
  let replicas := diffField (slice_eqb String.eqb) "read_replica_cluster_ids" None
      (controlplanev1beta2.ClusterUpdate.ReadReplicaClusterIds newMessage)
      (controlplanev1beta2.ClusterUpdate.ReadReplicaClusterIds oldMessage) in
  let aws := diffField (option_eqb AWSPrivateLinkSpec_eqb) "aws_private_link" None
      (controlplanev1beta2.ClusterUpdate.AwsPrivateLink newMessage)
      (controlplanev1beta2.ClusterUpdate.AwsPrivateLink oldMessage) in
  let azure := diffField (option_eqb AzurePrivateLinkSpec_eqb) "azure_private_link" None
      (controlplanev1beta2.ClusterUpdate.AzurePrivateLink newMessage)
      (controlplanev1beta2.ClusterUpdate.AzurePrivateLink oldMessage) in
  let gcp := diffField (option_eqb GCPPrivateServiceConnectSpec_eqb)
      "gcp_private_service_connect" None
      (controlplanev1beta2.ClusterUpdate.GcpPrivateServiceConnect newMessage)
      (controlplanev1beta2.ClusterUpdate.GcpPrivateServiceConnect oldMessage) in
  let kafka := diffField (option_eqb KafkaAPISpec_eqb) "kafka_api" None
      (controlplanev1beta2.ClusterUpdate.KafkaApi newMessage)
      (controlplanev1beta2.ClusterUpdate.KafkaApi oldMessage) in
  let http := diffField (option_eqb HTTPProxySpec_eqb) "http_proxy" None
      (controlplanev1beta2.ClusterUpdate.HttpProxy newMessage)
      (controlplanev1beta2.ClusterUpdate.HttpProxy oldMessage) in
  let registry := diffField (option_eqb SchemaRegistrySpec_eqb) "schema_registry" None
      (controlplanev1beta2.ClusterUpdate.SchemaRegistry newMessage)
      (controlplanev1beta2.ClusterUpdate.SchemaRegistry oldMessage) in
  ({| controlplanev1beta2.ClusterUpdate.Id :=
        controlplanev1beta2.ClusterUpdate.Id newMessage;
      controlplanev1beta2.ClusterUpdate.Name := fst name;
      controlplanev1beta2.ClusterUpdate.ReadReplicaClusterIds := fst replicas;
      controlplanev1beta2.ClusterUpdate.AwsPrivateLink := fst aws;
      controlplanev1beta2.ClusterUpdate.AzurePrivateLink := fst azure;
      controlplanev1beta2.ClusterUpdate.GcpPrivateServiceConnect := fst gcp;
      controlplanev1beta2.ClusterUpdate.KafkaApi := fst kafka;
      controlplanev1beta2.ClusterUpdate.HttpProxy := fst http;
      controlplanev1beta2.ClusterUpdate.SchemaRegistry := fst registry |},
   {| controlplanev1beta2.FieldMask.Paths :=
        snd name ++ snd replicas ++ snd aws ++ snd azure ++ snd gcp
        ++ snd kafka ++ snd http ++ snd registry |}).

(** [StringToCloudProvider] returns the CloudProvider code based on the
    input string. *)
Definition StringToCloudProvider `{strings.Unicode} (p : string) : cloudv1beta1.CloudProvider :=
  Go.switch (strings.ToLower p)
    [("aws", cloudv1beta1.CloudProvider_CLOUD_PROVIDER_AWS);
     ("gcp", cloudv1beta1.CloudProvider_CLOUD_PROVIDER_GCP)]
    cloudv1beta1.CloudProvider_CLOUD_PROVIDER_UNSPECIFIED.

Definition StringToClusterType `{strings.Unicode} (p : string) : cloudv1beta1.Cluster_Type :=
  Go.switch (strings.ToLower p)
    [("dedicated", cloudv1beta1.Cluster_TYPE_DEDICATED);
     ("cloud", cloudv1beta1.Cluster_TYPE_BYOC)]
    cloudv1beta1.Cluster_TYPE_UNSPECIFIED.

Definition StringToConnectionType `{strings.Unicode} (s : string)
    : cloudv1beta1.Cluster_ConnectionType :=
  Go.switch (strings.ToLower s)
    [("public", cloudv1beta1.Cluster_CONNECTION_TYPE_PUBLIC);
     ("private", cloudv1beta1.Cluster_CONNECTION_TYPE_PRIVATE)]
    cloudv1beta1.Cluster_CONNECTION_TYPE_UNSPECIFIED.

(** [TrimmedStringValue] returns the string value of a types.String with
    the quotes removed. *)
Definition TrimmedStringValue (s : string) : types.String :=
  types.StringValue (strings.Trim s dquote).

Definition TrimmedString `{Collaborators} (s : types.String) : string :=
  strings.Trim (String_String s) dquote.

(** [for _, v := range l { if v.GetName() == n { return v, nil } }]: the
    first entry named [n], if there is one. *)
Fixpoint firstNamed {A : Type} (GetName : option A -> string) (n : string)
    (l : list (option A)) : option (option A) :=
  match l with
  | [] => None
  | v :: rest => if String.eqb (GetName v) n then Some v else firstNamed GetName n rest
  end.

(** [FindNamespaceByName] searches for a namespace by name using the
    provided client.  It queries the namespaces and returns the first match
    by name or an error if not found. *)
Definition FindNamespaceByName (ctx : Context) (n : string)
    (client : services.NamespaceServiceClient)
    : option cloudv1beta1.Namespace.t * option Go.error :=
  let (ns, err) :=
    services.ListNamespaces client ctx
      {| cloudv1beta1.ListNamespacesRequest.Filter_ :=
           Some {| cloudv1beta1.Filter.Name := n |} |} in
  match err with
  | Some e => (None, Some e)
  | None =>
      match firstNamed cloudv1beta1.Namespace_GetName n
              (Go.elems (cloudv1beta1.GetNamespaces ns)) with
      | Some v => (v, None)
      | None => (None, Some (Go.errorString ("namespace " ++ n ++ " not found")%string))
      end
  end.

Definition FindNetworkByName (ctx : Context) (n : string)
    (client : services.NetworkServiceClient)
    : option cloudv1beta1.Network.t * option Go.error :=
  let (ns, err) :=
    services.ListNetworks client ctx
      {| cloudv1beta1.ListNetworksRequest.Filter_ :=
           Some {| cloudv1beta1.Filter.Name := n |} |} in
  match err with
  | Some e => (None, Some e)
  | None =>
      match firstNamed cloudv1beta1.Network_GetName n
              (Go.elems (cloudv1beta1.GetNetworks ns)) with
      | Some v => (v, None)
      | None => (None, Some (Go.errorString "network not found"))
      end
  end.

Definition FindClusterByName (ctx : Context) (n : string)
    (client : services.ClusterServiceClient)
    : option cloudv1beta1.Cluster.t * option Go.error :=
  let (ns, err) :=
    services.ListClusters client ctx
      {| cloudv1beta1.ListClustersRequest.Filter_ :=
           Some {| cloudv1beta1.Filter.Name := n |} |} in
  match err with
  | Some e => (None, Some e)
  | None =>
      match firstNamed cloudv1beta1.Cluster_GetName n
              (Go.elems (cloudv1beta1.GetClusters ns)) with
      | Some v => (v, None)
      | None => (None, Some (Go.errorString "cluster not found"))
      end
  end.

Definition StringToStringPointer (s : string) : option string := Some s.

Definition FindUserByName (ctx : Context) (name : string)
    (client : services.UserServiceClient)
    : option dataplanev1alpha1.ListUsersResponse_User.t * option Go.error :=
  let (usrs, err) :=
    services.ListUsers client ctx
      {| dataplanev1alpha1.ListUsersRequest.Name := StringToStringPointer name |} in
  match err with
  | Some e => (None, Some e)
  | None =>
      match firstNamed dataplanev1alpha1.User_GetName name
              (Go.elems (dataplanev1alpha1.GetUsers usrs)) with
      | Some v => (v, None)
      | None => (None, Some (Go.errorString "user not found"))
      end
  end.

Definition FindTopicByName (ctx : Context) (topicName : string)
    (client : services.TopicServiceClient)
    : option dataplanev1alpha1.Topic.t * option Go.error :=
  let (topics, err) :=
    services.ListTopics client ctx
      {| dataplanev1alpha1.ListTopicsRequest.Filter_ :=
           Some {| dataplanev1alpha1.ListTopicsRequest_Filter.Name := topicName |} |} in
  match err with
  | Some e => (None, Some e)
  | None =>
      match firstNamed dataplanev1alpha1.Topic_GetName topicName
              (Go.elems (dataplanev1alpha1.GetTopics topics)) with
      | Some v => (v, None)
      | None => (None, Some (Go.errorString ("topic " ++ topicName ++ " not found")%string))
      end
  end.

Definition StringToUserMechanism `{strings.Unicode} (s : string)
    : dataplanev1alpha1.SASLMechanism :=
  Go.switch (strings.ToLower s)
    [("scram-sha-256", dataplanev1alpha1.SASLMechanism_SASL_MECHANISM_SCRAM_SHA_256);
     ("scram-sha-512", dataplanev1alpha1.SASLMechanism_SASL_MECHANISM_SCRAM_SHA_512)]
    dataplanev1alpha1.SASLMechanism_SASL_MECHANISM_UNSPECIFIED.

(** [UserMechanismToString] reads [*m] without a nil test. *)
Definition UserMechanismToString (m : option dataplanev1alpha1.SASLMechanism)
    : Go.outcome string :=
  match m with
  | None => Go.Panic
  | Some dataplanev1alpha1.SASLMechanism_SASL_MECHANISM_SCRAM_SHA_256 => Go.Done "scram-sha-256"
  | Some dataplanev1alpha1.SASLMechanism_SASL_MECHANISM_SCRAM_SHA_512 => Go.Done "scram-sha-512"
  | Some _ => Go.Done "unspecified"
  end.

Definition unknownError (kind s : string) : Go.error :=
  Go.errorString ("unknown " ++ kind ++ ": " ++ s)%string.

Definition StringToACLResourceType `{strings.Unicode} (s : string)
    : dataplanev1alpha1.ACL_ResourceType * option Go.error :=
  Go.switch (strings.ToUpper s)
    [("UNSPECIFIED", (dataplanev1alpha1.ACL_RESOURCE_TYPE_UNSPECIFIED, None));
     ("ANY", (dataplanev1alpha1.ACL_RESOURCE_TYPE_ANY, None));
     ("TOPIC", (dataplanev1alpha1.ACL_RESOURCE_TYPE_TOPIC, None));
     ("GROUP", (dataplanev1alpha1.ACL_RESOURCE_TYPE_GROUP, None));
     ("CLUSTER", (dataplanev1alpha1.ACL_RESOURCE_TYPE_CLUSTER, None));
     ("TRANSACTIONAL_ID", (dataplanev1alpha1.ACL_RESOURCE_TYPE_TRANSACTIONAL_ID, None));
     ("DELEGATION_TOKEN", (dataplanev1alpha1.ACL_RESOURCE_TYPE_DELEGATION_TOKEN, None));
     ("USER", (dataplanev1alpha1.ACL_RESOURCE_TYPE_USER, None))]
    (dataplanev1alpha1.ACL_RESOURCE_TYPE_other (-1),
     Some (unknownError "ACL_ResourceType" s)).

Definition ACLResourceTypeToString (e : dataplanev1alpha1.ACL_ResourceType) : string :=
  match e with
  | dataplanev1alpha1.ACL_RESOURCE_TYPE_UNSPECIFIED => "UNSPECIFIED"
  | dataplanev1alpha1.ACL_RESOURCE_TYPE_ANY => "ANY"
  | dataplanev1alpha1.ACL_RESOURCE_TYPE_TOPIC => "TOPIC"
  | dataplanev1alpha1.ACL_RESOURCE_TYPE_GROUP => "GROUP"
  | dataplanev1alpha1.ACL_RESOURCE_TYPE_CLUSTER => "CLUSTER"
  | dataplanev1alpha1.ACL_RESOURCE_TYPE_TRANSACTIONAL_ID => "TRANSACTIONAL_ID"
  | dataplanev1alpha1.ACL_RESOURCE_TYPE_DELEGATION_TOKEN => "DELEGATION_TOKEN"
  | dataplanev1alpha1.ACL_RESOURCE_TYPE_USER => "USER"
  | dataplanev1alpha1.ACL_RESOURCE_TYPE_other _ => "UNKNOWN"
  end.

Definition StringToACLResourcePatternType `{strings.Unicode} (s : string)
    : dataplanev1alpha1.ACL_ResourcePatternType * option Go.error :=
  Go.switch (strings.ToUpper s)
    [("UNSPECIFIED", (dataplanev1alpha1.ACL_RESOURCE_PATTERN_TYPE_UNSPECIFIED, None));
     ("ANY", (dataplanev1alpha1.ACL_RESOURCE_PATTERN_TYPE_ANY, None));
     ("MATCH", (dataplanev1alpha1.ACL_RESOURCE_PATTERN_TYPE_MATCH, None));
     ("LITERAL", (dataplanev1alpha1.ACL_RESOURCE_PATTERN_TYPE_LITERAL, None));
     ("PREFIXED", (dataplanev1alpha1.ACL_RESOURCE_PATTERN_TYPE_PREFIXED, None))]
    (dataplanev1alpha1.ACL_RESOURCE_PATTERN_TYPE_other (-1),
     Some (unknownError "ACL_ResourcePatternType" s)).

Definition ACLResourcePatternTypeToString (e : dataplanev1alpha1.ACL_ResourcePatternType)
    : string :=
  match e with
  | dataplanev1alpha1.ACL_RESOURCE_PATTERN_TYPE_UNSPECIFIED => "UNSPECIFIED"
  | dataplanev1alpha1.ACL_RESOURCE_PATTERN_TYPE_ANY => "ANY"
  | dataplanev1alpha1.ACL_RESOURCE_PATTERN_TYPE_MATCH => "MATCH"
  | dataplanev1alpha1.ACL_RESOURCE_PATTERN_TYPE_LITERAL => "LITERAL"
  | dataplanev1alpha1.ACL_RESOURCE_PATTERN_TYPE_PREFIXED => "PREFIXED"
  | dataplanev1alpha1.ACL_RESOURCE_PATTERN_TYPE_other _ => "UNKNOWN"
  end.

Definition StringToACLOperation `{strings.Unicode} (s : string)
    : dataplanev1alpha1.ACL_Operation * option Go.error :=
  Go.switch (strings.ToUpper s)
    [("UNSPECIFIED", (dataplanev1alpha1.ACL_OPERATION_UNSPECIFIED, None));
     ("ANY", (dataplanev1alpha1.ACL_OPERATION_ANY, None));
     ("ALL", (dataplanev1alpha1.ACL_OPERATION_ALL, None));
     ("READ", (dataplanev1alpha1.ACL_OPERATION_READ, None));
     ("WRITE", (dataplanev1alpha1.ACL_OPERATION_WRITE, None));
     ("CREATE", (dataplanev1alpha1.ACL_OPERATION_CREATE, None));
     ("DELETE", (dataplanev1alpha1.ACL_OPERATION_DELETE, None));
     ("ALTER", (dataplanev1alpha1.ACL_OPERATION_ALTER, None));
     ("DESCRIBE", (dataplanev1alpha1.ACL_OPERATION_DESCRIBE, None));
     ("CLUSTER_ACTION", (dataplanev1alpha1.ACL_OPERATION_CLUSTER_ACTION, None));
     ("DESCRIBE_CONFIGS", (dataplanev1alpha1.ACL_OPERATION_DESCRIBE_CONFIGS, None));
     ("ALTER_CONFIGS", (dataplanev1alpha1.ACL_OPERATION_ALTER_CONFIGS, None));
     ("IDEMPOTENT_WRITE", (dataplanev1alpha1.ACL_OPERATION_IDEMPOTENT_WRITE, None));
     ("CREATE_TOKENS", (dataplanev1alpha1.ACL_OPERATION_CREATE_TOKENS, None));
     ("DESCRIBE_TOKENS", (dataplanev1alpha1.ACL_OPERATION_DESCRIBE_TOKENS, None))]
    (dataplanev1alpha1.ACL_OPERATION_other (-1), Some (unknownError "ACL_Operation" s)).

Definition ACLOperationToString (e : dataplanev1alpha1.ACL_Operation) : string :=
  match e with
  | dataplanev1alpha1.ACL_OPERATION_UNSPECIFIED => "UNSPECIFIED"
  | dataplanev1alpha1.ACL_OPERATION_ANY => "ANY"
  | dataplanev1alpha1.ACL_OPERATION_ALL => "ALL"
  | dataplanev1alpha1.ACL_OPERATION_READ => "READ"
  | dataplanev1alpha1.ACL_OPERATION_WRITE => "WRITE"
  | dataplanev1alpha1.ACL_OPERATION_CREATE => "CREATE"
  | dataplanev1alpha1.ACL_OPERATION_DELETE => "DELETE"
  | dataplanev1alpha1.ACL_OPERATION_ALTER => "ALTER"
  | dataplanev1alpha1.ACL_OPERATION_DESCRIBE => "DESCRIBE"
  | dataplanev1alpha1.ACL_OPERATION_CLUSTER_ACTION => "CLUSTER_ACTION"
  | dataplanev1alpha1.ACL_OPERATION_DESCRIBE_CONFIGS => "DESCRIBE_CONFIGS"
  | dataplanev1alpha1.ACL_OPERATION_ALTER_CONFIGS => "ALTER_CONFIGS"
  | dataplanev1alpha1.ACL_OPERATION_IDEMPOTENT_WRITE => "IDEMPOTENT_WRITE"
  | dataplanev1alpha1.ACL_OPERATION_CREATE_TOKENS => "CREATE_TOKENS"
  | dataplanev1alpha1.ACL_OPERATION_DESCRIBE_TOKENS => "DESCRIBE_TOKENS"
  | dataplanev1alpha1.ACL_OPERATION_other _ => "UNKNOWN"
  end.

Definition StringToACLPermissionType `{strings.Unicode} (s : string)
    : dataplanev1alpha1.ACL_PermissionType * option Go.error :=
  Go.switch (strings.ToUpper s)
    [("UNSPECIFIED", (dataplanev1alpha1.ACL_PERMISSION_TYPE_UNSPECIFIED, None));
     ("ANY", (dataplanev1alpha1.ACL_PERMISSION_TYPE_ANY, None));
     ("DENY", (dataplanev1alpha1.ACL_PERMISSION_TYPE_DENY, None));
     ("ALLOW", (dataplanev1alpha1.ACL_PERMISSION_TYPE_ALLOW, None))]
    (dataplanev1alpha1.ACL_PERMISSION_TYPE_other (-1),
     Some (unknownError "ACL_PermissionType" s)).

Definition ACLPermissionTypeToString (e : dataplanev1alpha1.ACL_PermissionType) : string :=
  match e with
  | dataplanev1alpha1.ACL_PERMISSION_TYPE_UNSPECIFIED => "UNSPECIFIED"
  | dataplanev1alpha1.ACL_PERMISSION_TYPE_ANY => "ANY"
  | dataplanev1alpha1.ACL_PERMISSION_TYPE_DENY => "DENY"
  | dataplanev1alpha1.ACL_PERMISSION_TYPE_ALLOW => "ALLOW"
  | dataplanev1alpha1.ACL_PERMISSION_TYPE_other _ => "UNKNOWN"
  end.

Definition StringToTopicConfigurationSource `{strings.Unicode} (s : string)
    : dataplanev1alpha1.Topic_Configuration_Source * option Go.error :=
  Go.switch (strings.ToUpper s)
    [("SOURCE_UNSPECIFIED", (dataplanev1alpha1.Topic_Configuration_SOURCE_UNSPECIFIED, None));
     ("DYNAMIC_TOPIC_CONFIG",
      (dataplanev1alpha1.Topic_Configuration_SOURCE_DYNAMIC_TOPIC_CONFIG, None));
     ("DYNAMIC_BROKER_CONFIG",
      (dataplanev1alpha1.Topic_Configuration_SOURCE_DYNAMIC_BROKER_CONFIG, None));
     ("DYNAMIC_DEFAULT_BROKER_CONFIG",
      (dataplanev1alpha1.Topic_Configuration_SOURCE_DYNAMIC_DEFAULT_BROKER_CONFIG, None));
     ("STATIC_BROKER_CONFIG",
      (dataplanev1alpha1.Topic_Configuration_SOURCE_STATIC_BROKER_CONFIG, None));
     ("DEFAULT_CONFIG", (dataplanev1alpha1.Topic_Configuration_SOURCE_DEFAULT_CONFIG, None));
     ("DYNAMIC_BROKER_LOGGER_CONFIG",
      (dataplanev1alpha1.Topic_Configuration_SOURCE_DYNAMIC_BROKER_LOGGER_CONFIG, None))]
    (dataplanev1alpha1.Topic_Configuration_SOURCE_other (-1),
     Some (unknownError "Topic_Configuration_Source" s)).

(** The loop of [SliceToConfigSynonyms]: a nil entry makes [v.Source]
    panic; a source that does not parse ends the call with its error. *)
Fixpoint appendConfigSynonyms `{strings.Unicode}
    (synonyms : list (option models.TopicConfigSynonym.t))
    (output : Go.slice (option dataplanev1alpha1.Topic_Configuration_ConfigSynonym.t))
    : Go.outcome
        (Go.slice (option dataplanev1alpha1.Topic_Configuration_ConfigSynonym.t)
         * option Go.error) :=
  match synonyms with
  | [] => Go.Done (output, None)
  | None :: _ => Go.Panic
  | Some v :: rest =>
      match StringToTopicConfigurationSource
              (types.ValueString (models.TopicConfigSynonym.Source v)) with
      | (_, Some err) => Go.Done (None, Some err)
      | (src, None) =>
          appendConfigSynonyms rest
            (Go.append output
               (Some {| dataplanev1alpha1.Topic_Configuration_ConfigSynonym.Name :=
                          types.ValueString (models.TopicConfigSynonym.Name v);
                        dataplanev1alpha1.Topic_Configuration_ConfigSynonym.Value :=
                          types.ValueString (models.TopicConfigSynonym.Value v);
                        dataplanev1alpha1.Topic_Configuration_ConfigSynonym.Source := src |}))
      end
  end.

Definition SliceToConfigSynonyms `{strings.Unicode}
    (synonyms : Go.slice (option models.TopicConfigSynonym.t))
    : Go.outcome
        (Go.slice (option dataplanev1alpha1.Topic_Configuration_ConfigSynonym.t)
         * option Go.error) :=
  appendConfigSynonyms (Go.elems synonyms) (Go.make None (Go.len synonyms)).

(** What [Configure] of the provider hands to resources and data sources. *)
Module ResourceData.
Record t : Type := { ClientID : string; ClientSecret : string; Version : string }.
End ResourceData.

Module DatasourceData.
Record t : Type := { ClientID : string; ClientSecret : string; Version : string }.
End DatasourceData.

End utils.

(* ================================================================= *)
(** ** redpanda/resources/cluster/cluster.go *)

Module cluster.

Definition gcpConnectConsumerModelToStruct
    (accept : Go.slice models.GcpPrivateServiceConnectConsumer.t)
    : Go.slice controlplanev1beta2.GCPPrivateServiceConnectConsumer.t :=
  Go.range accept
    (fun output a => Go.append output
       {| controlplanev1beta2.GCPPrivateServiceConnectConsumer.Source :=
            models.GcpPrivateServiceConnectConsumer.Source a |})
    None.

(** The output must be non-null to match the user's plan, so it starts as
    an empty slice and not as nil. *)
Definition gcpConnectConsumerStructToModel
    (accept : Go.slice controlplanev1beta2.GCPPrivateServiceConnectConsumer.t)
    : Go.slice models.GcpPrivateServiceConnectConsumer.t :=
  Go.range accept
    (fun output a => Go.append output
       {| models.GcpPrivateServiceConnectConsumer.Source :=
            controlplanev1beta2.GCPPrivateServiceConnectConsumer.Source a |})
    (Some []).

Definition isMtlsStructNil (m : option models.Mtls.t) : bool :=
  match m with
  | None => true
  | Some m' =>
      types.IsNull (models.Mtls.Enabled m')
      && types.IsNull (models.Mtls.CaCertificatesPem m')
      && types.IsNull (models.Mtls.PrincipalMappingRules m')
  end.

Definition isMtlsSpecNil (m : option controlplanev1beta2.MTLSSpec.t) : bool :=
  match m with
  | None => true
  | Some m' =>
      negb (controlplanev1beta2.MTLSSpec.Enabled m')
      && (Go.len (controlplanev1beta2.MTLSSpec.CaCertificatesPem m') =? 0)%nat
      && (Go.len (controlplanev1beta2.MTLSSpec.PrincipalMappingRules m') =? 0)%nat
  end.

Definition toMtlsModel `{Collaborators} (mtls : option controlplanev1beta2.MTLSSpec.t)
    : option models.Mtls.t :=
  if isMtlsSpecNil mtls then None
  else
    match mtls with
    | None => None
    | Some m =>
        Some {| models.Mtls.Enabled :=
                  types.BoolValue (controlplanev1beta2.MTLSSpec.Enabled m);
                models.Mtls.CaCertificatesPem :=
                  StringSliceToTypeList (controlplanev1beta2.MTLSSpec.CaCertificatesPem m);
                models.Mtls.PrincipalMappingRules :=
                  StringSliceToTypeList (controlplanev1beta2.MTLSSpec.PrincipalMappingRules m) |}
    end.

Definition toMtlsSpec `{Collaborators} (mtls : option models.Mtls.t)
    : option controlplanev1beta2.MTLSSpec.t :=
  if isMtlsStructNil mtls then
    Some {| controlplanev1beta2.MTLSSpec.Enabled := false;
            controlplanev1beta2.MTLSSpec.CaCertificatesPem := Go.make EmptyString 0;
            controlplanev1beta2.MTLSSpec.PrincipalMappingRules := Go.make EmptyString 0 |}
  else
    match mtls with
    | None => None
    | Some m =>
        Some {| controlplanev1beta2.MTLSSpec.Enabled :=
                  types.ValueBool (models.Mtls.Enabled m);
                controlplanev1beta2.MTLSSpec.CaCertificatesPem :=
                  utils.TypeListToStringSlice (models.Mtls.CaCertificatesPem m);
                controlplanev1beta2.MTLSSpec.PrincipalMappingRules :=
                  utils.TypeListToStringSlice (models.Mtls.PrincipalMappingRules m) |}
    end.

(** The structs in which [isMtlsNil] finds a field named [Mtls] by
    reflection. *)
Class MtlsContainer (A : Type) : Type := { FieldByName_Mtls : A -> option models.Mtls.t }.

#[global] Instance MtlsContainer_KafkaAPI : MtlsContainer models.KafkaAPI.t :=
  {| FieldByName_Mtls := models.KafkaAPI.Mtls |}.

#[global] Instance MtlsContainer_HTTPProxy : MtlsContainer models.HTTPProxy.t :=
  {| FieldByName_Mtls := models.HTTPProxy.Mtls |}.

#[global] Instance MtlsContainer_SchemaRegistry : MtlsContainer models.SchemaRegistry.t :=
  {| FieldByName_Mtls := models.SchemaRegistry.Mtls |}.

(** [isMtlsNil] on a pointer to one of these structs: true for a nil
    pointer, for a nil [Mtls] field, and for an [Mtls] that
    [isMtlsStructNil] accepts. *)
Definition isMtlsNil {A : Type} `{MtlsContainer A} (container : option A) : bool :=
  match container with
  | None => true
  | Some v =>
      match FieldByName_Mtls v with
      | None => true
      | Some m => isMtlsStructNil (Some m)
      end
  end.

Definition isAwsPrivateLinkStructNil (m : option models.AwsPrivateLink.t) : bool :=
  match m with
  | None => true
  | Some m' =>
      types.IsNull (models.AwsPrivateLink.Enabled m')
      && types.IsNull (models.AwsPrivateLink.ConnectConsole m')
      && types.IsNull (models.AwsPrivateLink.AllowedPrincipals m')
  end.

Definition isAwsPrivateLinkSpecNil (m : option controlplanev1beta2.AWSPrivateLinkStatus.t)
    : bool :=
  match m with
  | None => true
  | Some m' =>
      negb (controlplanev1beta2.AWSPrivateLinkStatus.Enabled m')
      && negb (controlplanev1beta2.AWSPrivateLinkStatus.ConnectConsole m')
      && (Go.len (controlplanev1beta2.AWSPrivateLinkStatus.AllowedPrincipals m') =? 0)%nat
  end.

Definition isAzurePrivateLinkStructNil (m : option models.AzurePrivateLink.t) : bool :=
  match m with
  | None => true
  | Some m' =>
      types.IsNull (models.AzurePrivateLink.Enabled m')
      && types.IsNull (models.AzurePrivateLink.AllowedSubscriptions m')
      && types.IsNull (models.AzurePrivateLink.ConnectConsole m')
  end.

Definition isAzurePrivateLinkSpecNil (m : option controlplanev1beta2.AzurePrivateLinkStatus.t)
    : bool :=
  match m with
  | None => true
  | Some m' =>
      negb (controlplanev1beta2.AzurePrivateLinkStatus.Enabled m')
      && (Go.len (controlplanev1beta2.AzurePrivateLinkStatus.AllowedSubscriptions m') =? 0)%nat
      && negb (controlplanev1beta2.AzurePrivateLinkStatus.ConnectConsole m')
  end.

Definition isGcpPrivateServiceConnectStructNil
    (m : option models.GcpPrivateServiceConnect.t) : bool :=
  match m with
  | None => true
  | Some m' =>
      types.IsNull (models.GcpPrivateServiceConnect.Enabled m')
      && types.IsNull (models.GcpPrivateServiceConnect.GlobalAccessEnabled m')
      && (Go.len (models.GcpPrivateServiceConnect.ConsumerAcceptList m') =? 0)%nat
  end.

Definition isGcpPrivateServiceConnectSpecNil
    (m : option controlplanev1beta2.GCPPrivateServiceConnectStatus.t) : bool :=
  match m with
  | None => true
  | Some m' =>
      negb (controlplanev1beta2.GCPPrivateServiceConnectStatus.Enabled m')
      && negb (controlplanev1beta2.GCPPrivateServiceConnectStatus.GlobalAccessEnabled m')
      && (Go.len (controlplanev1beta2.GCPPrivateServiceConnectStatus.ConsumerAcceptList m') =? 0)%nat
  end.

(** [if !isNil(block) { field = &T{... block.leaf ...} }]: the field built
    from a block that passed the nil test, nil otherwise. *)
Definition unlessNil {A B : Type} (isNil : option A -> bool) (block : option A)
    (build : A -> B) : option B :=
  if negb (isNil block) then
    match block with
    | Some b => Some (build b)
    | None => None
    end
  else None.

(** [generateClusterUpdate] generates a ClusterUpdate for a given cluster
    model, which is then used by [generateUpdateRequest] to compare
    ClusterUpdates for plan and state. *)
Definition generateClusterUpdate `{Collaborators} (cluster : models.Cluster.t)
    : controlplanev1beta2.ClusterUpdate.t :=
  {| controlplanev1beta2.ClusterUpdate.Id := types.ValueString (models.Cluster.ID cluster);
     controlplanev1beta2.ClusterUpdate.Name := types.ValueString (models.Cluster.Name cluster);
     controlplanev1beta2.ClusterUpdate.ReadReplicaClusterIds :=
       utils.TypeListToStringSlice (models.Cluster.ReadReplicaClusterIDs cluster);
     controlplanev1beta2.ClusterUpdate.AwsPrivateLink :=
       unlessNil isAwsPrivateLinkStructNil (models.Cluster.AwsPrivateLink cluster)
         (fun b =>
            {| controlplanev1beta2.AWSPrivateLinkSpec.Enabled :=
                 types.ValueBool (models.AwsPrivateLink.Enabled b);
               controlplanev1beta2.AWSPrivateLinkSpec.AllowedPrincipals :=
                 utils.TypeListToStringSlice (models.AwsPrivateLink.AllowedPrincipals b);
               controlplanev1beta2.AWSPrivateLinkSpec.ConnectConsole :=
                 types.ValueBool (models.AwsPrivateLink.ConnectConsole b) |});
     controlplanev1beta2.ClusterUpdate.AzurePrivateLink :=
       unlessNil isAzurePrivateLinkStructNil (models.Cluster.AzurePrivateLink cluster)
         (fun b =>
            {| controlplanev1beta2.AzurePrivateLinkSpec.Enabled :=
                 types.ValueBool (models.AzurePrivateLink.Enabled b);
               controlplanev1beta2.AzurePrivateLinkSpec.AllowedSubscriptions :=
                 utils.TypeListToStringSlice (models.AzurePrivateLink.AllowedSubscriptions b);
               controlplanev1beta2.AzurePrivateLinkSpec.ConnectConsole :=
                 types.ValueBool (models.AzurePrivateLink.ConnectConsole b) |});
     controlplanev1beta2.ClusterUpdate.GcpPrivateServiceConnect :=
       unlessNil isGcpPrivateServiceConnectStructNil
         (models.Cluster.GcpPrivateServiceConnect cluster)
         (fun b =>
            {| controlplanev1beta2.GCPPrivateServiceConnectSpec.Enabled :=
                 types.ValueBool (models.GcpPrivateServiceConnect.Enabled b);
               controlplanev1beta2.GCPPrivateServiceConnectSpec.GlobalAccessEnabled :=
                 types.ValueBool (models.GcpPrivateServiceConnect.GlobalAccessEnabled b);
               controlplanev1beta2.GCPPrivateServiceConnectSpec.ConsumerAcceptList :=
                 gcpConnectConsumerModelToStruct
                   (models.GcpPrivateServiceConnect.ConsumerAcceptList b) |});
     controlplanev1beta2.ClusterUpdate.KafkaApi :=
       unlessNil isMtlsNil (models.Cluster.KafkaAPI cluster)
         (fun b => {| controlplanev1beta2.KafkaAPISpec.Mtls :=
                        toMtlsSpec (models.KafkaAPI.Mtls b) |});
     controlplanev1beta2.ClusterUpdate.HttpProxy :=
       unlessNil isMtlsNil (models.Cluster.HTTPProxy cluster)
         (fun b => {| controlplanev1beta2.HTTPProxySpec.Mtls :=
                        toMtlsSpec (models.HTTPProxy.Mtls b) |});
     controlplanev1beta2.ClusterUpdate.SchemaRegistry :=
       unlessNil isMtlsNil (models.Cluster.SchemaRegistry cluster)
         (fun b => {| controlplanev1beta2.SchemaRegistrySpec.Mtls :=
                        toMtlsSpec (models.SchemaRegistry.Mtls b) |}) |}.

(** [generateUpdateRequest] populates an UpdateClusterRequest that will
    update a cluster from the current state to a new state matching the
    plan. *)
Definition generateUpdateRequest `{Collaborators} (plan state : models.Cluster.t)
    : controlplanev1beta2.UpdateClusterRequest.t :=
  let planUpdate := generateClusterUpdate plan in
  let stateUpdate := generateClusterUpdate state in
  let (update, fieldmask) :=
    utils.GenerateProtobufDiffAndUpdateMask planUpdate stateUpdate in
  let update :=
    controlplanev1beta2.ClusterUpdate.set_Id
      (controlplanev1beta2.ClusterUpdate.Id planUpdate) update in
  {| controlplanev1beta2.UpdateClusterRequest.Cluster := Some update;
     controlplanev1beta2.UpdateClusterRequest.UpdateMask := Some fieldmask |}.

(** A list that [StringSliceToTypeList] returns null is replaced by the
    empty list: it must match the user's plan, which is required to be
    non-null. *)
Definition nonNullList `{Collaborators} (s : Go.slice string) : types.List :=
  let l := StringSliceToTypeList s in
  if types.IsNull l then types.ListValue [] else l.

Definition wrapMtls {A : Type} (wrap : option models.Mtls.t -> A)
    (m : option models.Mtls.t) : option A :=
  match m with
  | None => None
  | Some _ => Some (wrap m)
  end.

(** [generateModel] populates the Cluster model to be persisted to state for
    Create, Read and Update operations. *)
Definition generateModel `{Collaborators} (cfg : models.Cluster.t)
    (cluster : controlplanev1beta2.Cluster.t) : models.Cluster.t * option Go.error :=
  let output :=
    {| models.Cluster.Name := types.StringValue (controlplanev1beta2.Cluster.Name cluster);
       models.Cluster.ConnectionType :=
         types.StringValue (utils.ConnectionTypeToString
                              (controlplanev1beta2.Cluster.ConnectionType cluster));
       models.Cluster.CloudProvider :=
         types.StringValue (utils.CloudProviderToString
                              (controlplanev1beta2.Cluster.CloudProvider cluster));
       models.Cluster.ClusterType :=
         types.StringValue (utils.ClusterTypeToString
                              (controlplanev1beta2.Cluster.Type_ cluster));
       models.Cluster.RedpandaVersion := models.Cluster.RedpandaVersion cfg;
       models.Cluster.ThroughputTier :=
         types.StringValue (controlplanev1beta2.Cluster.ThroughputTier cluster);
       models.Cluster.Region := types.StringValue (controlplanev1beta2.Cluster.Region cluster);
       models.Cluster.AllowDeletion := models.Cluster.AllowDeletion cfg;
       models.Cluster.Tags := models.Cluster.Tags cfg;
       models.Cluster.ResourceGroupID :=
         types.StringValue (controlplanev1beta2.Cluster.ResourceGroupId cluster);
       models.Cluster.NetworkID :=
         types.StringValue (controlplanev1beta2.Cluster.NetworkId cluster);
       models.Cluster.ID := types.StringValue (controlplanev1beta2.Cluster.Id cluster);
       models.Cluster.ReadReplicaClusterIDs :=
         StringSliceToTypeList (controlplanev1beta2.Cluster.ReadReplicaClusterIds cluster);
       models.Cluster.Zones :=
         StringSliceToTypeList (controlplanev1beta2.Cluster.Zones cluster);
       models.Cluster.ClusterAPIURL :=
         match controlplanev1beta2.Cluster.DataplaneApi cluster with
         | Some api => types.StringValue (controlplanev1beta2.DataplaneAPI.Url api)
         | None => types.StringNull
         end;
       models.Cluster.AwsPrivateLink :=
         unlessNil isAwsPrivateLinkSpecNil (controlplanev1beta2.Cluster.AwsPrivateLink cluster)
           (fun b =>
              let ap := nonNullList (controlplanev1beta2.AWSPrivateLinkStatus.AllowedPrincipals b) in
              {| models.AwsPrivateLink.Enabled :=
                   types.BoolValue (controlplanev1beta2.AWSPrivateLinkStatus.Enabled b);
                 models.AwsPrivateLink.ConnectConsole :=
                   types.BoolValue (controlplanev1beta2.AWSPrivateLinkStatus.ConnectConsole b);
                 models.AwsPrivateLink.AllowedPrincipals := ap |});
       models.Cluster.GcpPrivateServiceConnect :=
         unlessNil isGcpPrivateServiceConnectSpecNil
           (controlplanev1beta2.Cluster.GcpPrivateServiceConnect cluster)
           (fun b =>
              {| models.GcpPrivateServiceConnect.Enabled :=
                   types.BoolValue (controlplanev1beta2.GCPPrivateServiceConnectStatus.Enabled b);
                 models.GcpPrivateServiceConnect.GlobalAccessEnabled :=
                   types.BoolValue
                     (controlplanev1beta2.GCPPrivateServiceConnectStatus.GlobalAccessEnabled b);
                 models.GcpPrivateServiceConnect.ConsumerAcceptList :=
                   gcpConnectConsumerStructToModel
                     (controlplanev1beta2.GCPPrivateServiceConnectStatus.ConsumerAcceptList b) |});
       models.Cluster.AzurePrivateLink :=
         unlessNil isAzurePrivateLinkSpecNil
           (controlplanev1beta2.Cluster.AzurePrivateLink cluster)
           (fun b =>
              let as_ := nonNullList
                           (controlplanev1beta2.AzurePrivateLinkStatus.AllowedSubscriptions b) in
              {| models.AzurePrivateLink.Enabled :=
                   types.BoolValue (controlplanev1beta2.AzurePrivateLinkStatus.Enabled b);
                 models.AzurePrivateLink.ConnectConsole :=
                   types.BoolValue (controlplanev1beta2.AzurePrivateLinkStatus.ConnectConsole b);
                 models.AzurePrivateLink.AllowedSubscriptions := as_ |});
       models.Cluster.KafkaAPI :=
         wrapMtls (fun m => {| models.KafkaAPI.Mtls := m |})
           (toMtlsModel (controlplanev1beta2.KafkaApi_GetMtls
                           (controlplanev1beta2.Cluster.KafkaApi cluster)));
       models.Cluster.HTTPProxy :=
         wrapMtls (fun m => {| models.HTTPProxy.Mtls := m |})
           (toMtlsModel (controlplanev1beta2.HttpProxy_GetMtls
                           (controlplanev1beta2.Cluster.HttpProxy cluster)));
       models.Cluster.SchemaRegistry :=
         wrapMtls (fun m => {| models.SchemaRegistry.Mtls := m |})
           (toMtlsModel (controlplanev1beta2.SchemaRegistry_GetMtls
                           (controlplanev1beta2.Cluster.SchemaRegistry cluster))) |} in
  (output, None).

(** The helpers of package utils that [generateClusterRequest] calls and
    whose source is not among the modelled files: the two parsers that
    return an error beside the code, and the conversion of a [types.Map]
    into a Go map, given here by its key and value pairs. *)
Class RequestHelpers : Type := {
  StringToCloudProviderOrError : string -> cloudv1beta1.CloudProvider * option Go.error;
  StringToClusterTypeOrError : string -> cloudv1beta1.Cluster_Type * option Go.error;
  TypeMapToStringMap : types.Map -> list (string * string)
}.

(** [fmt.Errorf(format + "%v", err)]. *)
Definition wrapError (prefix : string) (err : Go.error) : Go.error :=
  Go.errorString (prefix ++ Go.Error err)%string.

(** [generateClusterRequest] was pulled out to enable unit testing. *)
Definition generateClusterRequest `{Collaborators} `{strings.Unicode} `{RequestHelpers}
    (model : models.Cluster.t)
    : option controlplanev1beta2.ClusterCreate.t * option Go.error :=
  match StringToCloudProviderOrError (types.ValueString (models.Cluster.CloudProvider model)) with
  | (_, Some err) => (None, Some (wrapError "unable to parse cloud provider: " err))
  | (provider, None) =>
      match StringToClusterTypeOrError
              (types.ValueString (models.Cluster.ClusterType model)) with
      | (_, Some err) => (None, Some (wrapError "unable to parse cluster type: " err))
      | (clusterType, None) =>
          let rpVersion := types.ValueString (models.Cluster.RedpandaVersion model) in
          (Some
             {| controlplanev1beta2.ClusterCreate.Name :=
                  types.ValueString (models.Cluster.Name model);
                controlplanev1beta2.ClusterCreate.ConnectionType :=
                  utils.StringToConnectionType
                    (types.ValueString (models.Cluster.ConnectionType model));
                controlplanev1beta2.ClusterCreate.CloudProvider := provider;
                controlplanev1beta2.ClusterCreate.RedpandaVersion := Some rpVersion;
                controlplanev1beta2.ClusterCreate.ThroughputTier :=
                  types.ValueString (models.Cluster.ThroughputTier model);
                controlplanev1beta2.ClusterCreate.Region :=
                  types.ValueString (models.Cluster.Region model);
                controlplanev1beta2.ClusterCreate.Zones :=
                  utils.TypeListToStringSlice (models.Cluster.Zones model);
                controlplanev1beta2.ClusterCreate.ResourceGroupId :=
                  types.ValueString (models.Cluster.ResourceGroupID model);
                controlplanev1beta2.ClusterCreate.NetworkId :=
                  types.ValueString (models.Cluster.NetworkID model);
                controlplanev1beta2.ClusterCreate.Type_ := clusterType;
                controlplanev1beta2.ClusterCreate.CloudProviderTags :=
                  TypeMapToStringMap (models.Cluster.Tags model);
                controlplanev1beta2.ClusterCreate.AwsPrivateLink :=
                  unlessNil isAwsPrivateLinkStructNil (models.Cluster.AwsPrivateLink model)
                    (fun b =>
                       {| controlplanev1beta2.AWSPrivateLinkSpec.Enabled :=
                            types.ValueBool (models.AwsPrivateLink.Enabled b);
                          controlplanev1beta2.AWSPrivateLinkSpec.AllowedPrincipals :=
                            utils.TypeListToStringSlice (models.AwsPrivateLink.AllowedPrincipals b);
                          controlplanev1beta2.AWSPrivateLinkSpec.ConnectConsole :=
                            types.ValueBool (models.AwsPrivateLink.ConnectConsole b) |});
                controlplanev1beta2.ClusterCreate.GcpPrivateServiceConnect :=
                  unlessNil isGcpPrivateServiceConnectStructNil
                    (models.Cluster.GcpPrivateServiceConnect model)
                    (fun b =>
                       {| controlplanev1beta2.GCPPrivateServiceConnectSpec.Enabled :=
                            types.ValueBool (models.GcpPrivateServiceConnect.Enabled b);
                          controlplanev1beta2.GCPPrivateServiceConnectSpec.GlobalAccessEnabled :=
                            types.ValueBool (models.GcpPrivateServiceConnect.GlobalAccessEnabled b);
                          controlplanev1beta2.GCPPrivateServiceConnectSpec.ConsumerAcceptList :=
                            gcpConnectConsumerModelToStruct
                              (models.GcpPrivateServiceConnect.ConsumerAcceptList b) |});
                controlplanev1beta2.ClusterCreate.AzurePrivateLink :=
                  unlessNil isAzurePrivateLinkStructNil (models.Cluster.AzurePrivateLink model)
                    (fun b =>
                       {| controlplanev1beta2.AzurePrivateLinkSpec.Enabled :=
                            types.ValueBool (models.AzurePrivateLink.Enabled b);
                          controlplanev1beta2.AzurePrivateLinkSpec.AllowedSubscriptions :=
                            utils.TypeListToStringSlice
                              (models.AzurePrivateLink.AllowedSubscriptions b);
                          controlplanev1beta2.AzurePrivateLinkSpec.ConnectConsole :=
                            types.ValueBool (models.AzurePrivateLink.ConnectConsole b) |});
                controlplanev1beta2.ClusterCreate.KafkaApi :=
                  match models.Cluster.KafkaAPI model with
                  | Some k => Some {| controlplanev1beta2.KafkaAPISpec.Mtls :=
                                        toMtlsSpec (models.KafkaAPI.Mtls k) |}
                  | None => None
                  end;
                controlplanev1beta2.ClusterCreate.HttpProxy :=
                  match models.Cluster.HTTPProxy model with
                  | Some k => Some {| controlplanev1beta2.HTTPProxySpec.Mtls :=
                                        toMtlsSpec (models.HTTPProxy.Mtls k) |}
                  | None => None
                  end;
                controlplanev1beta2.ClusterCreate.SchemaRegistry :=
                  match models.Cluster.SchemaRegistry model with
                  | Some k => Some {| controlplanev1beta2.SchemaRegistrySpec.Mtls :=
                                        toMtlsSpec (models.SchemaRegistry.Mtls k) |}
                  | None => None
                  end;
                controlplanev1beta2.ClusterCreate.ReadReplicaClusterIds :=
                  if negb (types.IsNull (models.Cluster.ReadReplicaClusterIDs model))
                  then utils.TypeListToStringSlice (models.Cluster.ReadReplicaClusterIDs model)
                  else None |},
           None)
      end
  end.

(** [generateMinimalModel] populates a Cluster model with only enough state
    for Terraform to track an existing cluster and to delete it, if
    necessary.  The fields that it does not name keep their zero value. *)
Definition generateMinimalModel (clusterID : string) : models.Cluster.t :=
  {| models.Cluster.Name := types.StringNull;
     models.Cluster.ID := types.StringValue clusterID;
     models.Cluster.ConnectionType := types.StringNull;
     models.Cluster.CloudProvider := types.StringNull;
     models.Cluster.ClusterType := types.StringNull;
     models.Cluster.RedpandaVersion := types.StringNull;
     models.Cluster.ThroughputTier := types.StringNull;
     models.Cluster.Region := types.StringNull;
     models.Cluster.Zones := types.ListNull;
     models.Cluster.AllowDeletion := types.BoolValue true;
     models.Cluster.Tags := types.MapNull;
     models.Cluster.ResourceGroupID := types.StringNull;
     models.Cluster.NetworkID := types.StringNull;
     models.Cluster.ClusterAPIURL := types.StringNull;
     models.Cluster.AwsPrivateLink := None;
     models.Cluster.GcpPrivateServiceConnect := None;
     models.Cluster.AzurePrivateLink := None;
     models.Cluster.KafkaAPI := None;
     models.Cluster.HTTPProxy := None;
     models.Cluster.SchemaRegistry := None;
     models.Cluster.ReadReplicaClusterIDs := types.ListNull |}.

End cluster.

(* ================================================================= *)
(** ** The provider (package redpanda) *)

Module redpanda.

Inductive Severity : Type :=
| SeverityError
| SeverityWarning.

Module Diagnostic.
Record t : Type := { severity : Severity; Summary : string; Detail : string }.

Definition eqb (x y : t) : bool :=
  match severity x, severity y with
  | SeverityError, SeverityError => true
  | SeverityWarning, SeverityWarning => true
  | _, _ => false
  end
  && String.eqb (Summary x) (Summary y)
  && String.eqb (Detail x) (Detail y).
End Diagnostic.

Definition Diagnostics : Type := list Diagnostic.t.

Definition Contains (diags : Diagnostics) (d : Diagnostic.t) : bool :=
  existsb (Diagnostic.eqb d) diags.

(** [Append] skips a diagnostic that the collection already holds. *)
Definition Append (diags : Diagnostics) (more : list Diagnostic.t) : Diagnostics :=
  fold_left (fun acc d => if Contains acc d then acc else acc ++ [d]) more diags.

Definition NewErrorDiagnostic (summary detail : string) : Diagnostic.t :=
  {| Diagnostic.severity := SeverityError;
     Diagnostic.Summary := summary;
     Diagnostic.Detail := detail |}.

Definition AddError (diags : Diagnostics) (summary detail : string) : Diagnostics :=
  Append diags [NewErrorDiagnostic summary detail].

Definition HasError (diags : Diagnostics) : bool :=
  existsb (fun d => match Diagnostic.severity d with
                    | SeverityError => true
                    | SeverityWarning => false
                    end) diags.

(** The environment of the process, as [name, value] pairs. *)
Definition Environ : Type := list (string * string).

(** [os.Getenv]: the value of the variable, empty if it is not set. *)
Fixpoint os_Getenv (env : Environ) (key : string) : string :=
  match env with
  | [] => EmptyString
  | (k, v) :: env' => if String.eqb k key then v else os_Getenv env' key
  end.

Record Redpanda : Type := { version : string }.

(** [Config_Get] is what [request.Config.Get(ctx, &conf)] yields: the
    diagnostics of decoding the provider block, and the decoded block. *)
Module ConfigureRequest.
Record t : Type := { Config_Get : Diagnostics * models.Redpanda.t }.
End ConfigureRequest.

Module ConfigureResponse.
Record t : Type := {
  Diagnostics_ : Diagnostics;
  ResourceData : option utils.ResourceData.t;
  DataSourceData : option utils.DatasourceData.t
}.
End ConfigureResponse.

(** One of the two [switch] statements of [Configure]: the credential that
    is chosen and the diagnostics afterwards. *)
Definition pickCredential (cfg env : string) (summary detail : string)
    (diags : Diagnostics) : string * Diagnostics :=
  if String.eqb cfg EmptyString && negb (String.eqb env EmptyString) then (env, diags)
  else if negb (String.eqb cfg EmptyString) && String.eqb env EmptyString then (cfg, diags)
  else if negb (String.eqb cfg EmptyString) && negb (String.eqb env EmptyString) then (cfg, diags)
  else (EmptyString, AddError diags summary detail).

(** [Configure] is the primary entrypoint for terraform and properly
    initializes the client. *)
Definition Configure (r : Redpanda) (env : Environ) (request : ConfigureRequest.t)
    (response : ConfigureResponse.t) : ConfigureResponse.t :=
  let (getDiags, conf) := ConfigureRequest.Config_Get request in
  let diags := Append (ConfigureResponse.Diagnostics_ response) getDiags in
  if HasError diags then
    {| ConfigureResponse.Diagnostics_ := diags;
       ConfigureResponse.ResourceData := ConfigureResponse.ResourceData response;
       ConfigureResponse.DataSourceData := ConfigureResponse.DataSourceData response |}
  else
    let cfgID := types.ValueString (models.Redpanda.ClientID conf) in
    let envID := os_Getenv env "CLIENT_ID" in
    let (id, diags) := pickCredential cfgID envID "no client id" "no client id found" diags in
    let cfgSec := types.ValueString (models.Redpanda.ClientSecret conf) in
    let envSec := os_Getenv env "CLIENT_SECRET" in
    let (sec, diags) :=
      pickCredential cfgSec envSec "no client secret" "no client secret found" diags in
    {| ConfigureResponse.Diagnostics_ := diags;
       ConfigureResponse.ResourceData :=
         Some {| utils.ResourceData.ClientID := id;
                 utils.ResourceData.ClientSecret := sec;
                 utils.ResourceData.Version := version r |};
       ConfigureResponse.DataSourceData :=
         Some {| utils.DatasourceData.ClientID :=
                   types.ValueString (models.Redpanda.ClientID conf);
                 utils.DatasourceData.ClientSecret :=
                   types.ValueString (models.Redpanda.ClientSecret conf);
                 utils.DatasourceData.Version := version r |} |}.

End redpanda.

(* ================================================================= *)
(** ** Vocabulary of the statements *)

(** [sub] occurs in [s] as a run of consecutive bytes. *)
Definition Substring (sub s : string) : Prop :=
  exists before after : string, s = (before ++ sub ++ after)%string.

(** The states in which an operation has settled. *)
Definition terminal (st : cloudv1beta1.Operation_State) : Prop :=
  st = cloudv1beta1.Operation_STATE_COMPLETED \/ st = cloudv1beta1.Operation_STATE_FAILED.

(** The requests of one wait on operation [id], oldest first: fetches of
    [id], each followed by one sleep of ten seconds and then the next fetch;
    the last request is a fetch. *)
Fixpoint paced (id : string) (evs : list runtime.event) : Prop :=
  match evs with
  | [runtime.EvFetch i _] => i = id
  | runtime.EvFetch i _ :: runtime.EvSleep d :: rest =>
      i = id /\ d = (10 * runtime.Second)%Z /\ paced id rest
  | _ => False
  end.

(** The times at which the fetches of a history were over. *)
Fixpoint fetch_times (evs : list runtime.event) : list Z :=
  match evs with
  | [] => []
  | runtime.EvFetch _ finished :: rest => finished :: fetch_times rest
  | runtime.EvSleep _ :: rest => fetch_times rest
  end.

(** Every byte of [s] is one of the bytes of [cutset]. *)
Fixpoint allBytesIn (cutset s : string) : Prop :=
  match s with
  | EmptyString => True
  | String c s' => strings.ContainsByte cutset c = true /\ allBytesIn cutset s'
  end.

Definition firstByte (s : string) : option ascii :=
  match s with
  | EmptyString => None
  | String c _ => Some c
  end.

Fixpoint lastByte (s : string) : option ascii :=
  match s with
  | EmptyString => None
  | String c EmptyString => Some c
  | String _ s' => lastByte s'
  end.

(** [t] neither begins nor ends with a byte of [cutset]. *)
Definition edgesOutside (cutset t : string) : Prop :=
  (forall c, firstByte t = Some c -> strings.ContainsByte cutset c = false)
  /\ (forall c, lastByte t = Some c -> strings.ContainsByte cutset c = false).

(** A parser and a printer of an enumeration agree: a named value prints
    to a text that parses back to it; a value without a name prints to
    "UNKNOWN", which the parser refuses; a text that parses does so to a
    named value that prints to the upper-case form of the text; and a text
    that does not parse yields [other (-1)] and the error that quotes it. *)
Definition printParse {E : Type} `{strings.Unicode}
    (parse : string -> E * option Go.error) (print : E -> string)
    (other : Z -> E) (kind : string) : Prop :=
  (forall e, (forall n, e <> other n) -> parse (print e) = (e, None))
  /\ (forall n, parse (print (other n))
                = (other (-1)%Z, Some (utils.unknownError kind "UNKNOWN")))
  /\ (forall s e, parse s = (e, None) ->
       print e = strings.ToUpper s /\ forall n, e <> other n)
  /\ (forall s e err, parse s = (e, Some err) ->
       e = other (-1)%Z /\ err = utils.unknownError kind s).

(** The source of a synonym of the model is one that
    [StringToTopicConfigurationSource] knows. *)
Definition sourceParses `{strings.Unicode} (v : models.TopicConfigSynonym.t) : Prop :=
  snd (utils.StringToTopicConfigurationSource
         (types.ValueString (models.TopicConfigSynonym.Source v))) = None.

(** The message that [SliceToConfigSynonyms] builds from a synonym of the
    model. *)
Definition toConfigSynonym `{strings.Unicode} (v : models.TopicConfigSynonym.t)
    : dataplanev1alpha1.Topic_Configuration_ConfigSynonym.t :=
  {| dataplanev1alpha1.Topic_Configuration_ConfigSynonym.Name :=
       types.ValueString (models.TopicConfigSynonym.Name v);
     dataplanev1alpha1.Topic_Configuration_ConfigSynonym.Value :=
       types.ValueString (models.TopicConfigSynonym.Value v);
     dataplanev1alpha1.Topic_Configuration_ConfigSynonym.Source :=
       fst (utils.StringToTopicConfigurationSource
              (types.ValueString (models.TopicConfigSynonym.Source v))) |}.

(** What [AreWeDoneYet] returns from its loop on an answer of the client
    that ends the wait: the error of the client; for a settled operation,
    success or the operation-failed error; for any other operation, the
    timeout error. *)
Definition verdict (a : option cloudv1beta1.Operation.t * option string) : option Go.error :=
  match a with
  | (_, Some msg) => Some (Go.clientError msg)
  | (o, None) =>
      if utils.CheckOpsState o then
        match cloudv1beta1.GetError o with
        | Some st =>
            if utils.IsNotFound (Go.errors_New (cloudv1beta1.Status.Message st))
            then Some (utils.operation_failed (cloudv1beta1.Status.Message st))
            else None
        | None => None
        end
      else Some utils.timeout_reached
  end.

(** An answer of the client that ends the wait whatever the time gone by:
    an error, or an operation that has settled. *)
Definition decisive (a : option cloudv1beta1.Operation.t * option string) : bool :=
  match a with
  | (_, Some _) => true
  | (o, None) => utils.CheckOpsState o
  end.

(* ================================================================= *)
(** ** Sample inputs *)

Module sample.

Definition ctx : runtime.Context := {| runtime.Err := None |}.

(** A machine at time zero that has done nothing yet and never oversleeps. *)
Definition idle : runtime.World :=
  {| runtime.clock := 0;
     runtime.fetches := 0;
     runtime.sleeps := 0;
     runtime.lag := fun _ => 0%Z;
     runtime.history := [] |}.

Definition operation (st : cloudv1beta1.Operation_State) (failure : option string)
    : option cloudv1beta1.Operation.t :=
  Some {| cloudv1beta1.Operation.Id := "op-1";
          cloudv1beta1.Operation.State := st;
          cloudv1beta1.Operation.Error :=
            option_map (fun msg => {| cloudv1beta1.Status.Code := 13;
                                      cloudv1beta1.Status.Message := msg |}) failure |}.

Definition running : option cloudv1beta1.Operation.t :=
  operation cloudv1beta1.Operation_STATE_IN_PROGRESS None.

(** A client that answers every fetch with [o], one second after the call. *)
Definition answering (o : option cloudv1beta1.Operation.t) : runtime.OperationServiceClient :=
  {| runtime.answer := fun _ _ _ => (o, None);
     runtime.latency := fun _ => runtime.Second |}.

(** Stand-ins for the two collaborators: a known string is rendered between
    double quotes, and a slice without elements becomes the null list. *)
Definition collaborators : Collaborators :=
  {| strconv_Quote := fun s => (utils.dquote ++ s ++ utils.dquote)%string;
     StringSliceToTypeList := fun s =>
       match Go.elems s with
       | [] => types.ListNull
       | l => types.ListValue (map types.StringValue l)
       end |}.

(** A cluster model named c1 in which only the [aws_private_link] block
    varies. *)
Definition model (aws : option models.AwsPrivateLink.t) : models.Cluster.t :=
  {| models.Cluster.Name := types.StringValue "c1";
     models.Cluster.ID := types.StringValue "cluster-1";
     models.Cluster.ConnectionType := types.StringValue "private";
     models.Cluster.CloudProvider := types.StringValue "aws";
     models.Cluster.ClusterType := types.StringValue "dedicated";
     models.Cluster.RedpandaVersion := types.StringNull;
     models.Cluster.ThroughputTier := types.StringValue "tier-1-aws";
     models.Cluster.Region := types.StringValue "us-east-1";
     models.Cluster.Zones := types.ListNull;
     models.Cluster.AllowDeletion := types.BoolValue true;
     models.Cluster.Tags := types.MapNull;
     models.Cluster.ResourceGroupID := types.StringValue "rg-1";
     models.Cluster.NetworkID := types.StringValue "net-1";
     models.Cluster.ClusterAPIURL := types.StringNull;
     models.Cluster.AwsPrivateLink := aws;
     models.Cluster.GcpPrivateServiceConnect := None;
     models.Cluster.AzurePrivateLink := None;
     models.Cluster.KafkaAPI := None;
     models.Cluster.HTTPProxy := None;
     models.Cluster.SchemaRegistry := None;
     models.Cluster.ReadReplicaClusterIDs := types.ListNull |}.

(** An [aws_private_link] block with every leaf set to its default. *)
Definition defaultAwsPrivateLink : models.AwsPrivateLink.t :=
  {| models.AwsPrivateLink.Enabled := types.BoolValue false;
     models.AwsPrivateLink.ConnectConsole := types.BoolValue false;
     models.AwsPrivateLink.AllowedPrincipals := types.ListValue [] |}.

(** An [aws_private_link] block with no leaf set. *)
Definition nullAwsPrivateLink : models.AwsPrivateLink.t :=
  {| models.AwsPrivateLink.Enabled := types.BoolNull;
     models.AwsPrivateLink.ConnectConsole := types.BoolNull;
     models.AwsPrivateLink.AllowedPrincipals := types.ListNull |}.

(** A cluster as the backend reports it, in which only the two private-link
    blocks vary. *)
Definition backend (aws : option controlplanev1beta2.AWSPrivateLinkStatus.t)
    (azure : option controlplanev1beta2.AzurePrivateLinkStatus.t)
    : controlplanev1beta2.Cluster.t :=
  {| controlplanev1beta2.Cluster.Id := "cluster-1";
     controlplanev1beta2.Cluster.Name := "c1";
     controlplanev1beta2.Cluster.ConnectionType :=
       cloudv1beta1.Cluster_CONNECTION_TYPE_PRIVATE;
     controlplanev1beta2.Cluster.CloudProvider := cloudv1beta1.CloudProvider_CLOUD_PROVIDER_AWS;
     controlplanev1beta2.Cluster.Type_ := cloudv1beta1.Cluster_TYPE_DEDICATED;
     controlplanev1beta2.Cluster.ThroughputTier := "tier-1-aws";
     controlplanev1beta2.Cluster.Region := "us-east-1";
     controlplanev1beta2.Cluster.Zones := None;
     controlplanev1beta2.Cluster.ResourceGroupId := "rg-1";
     controlplanev1beta2.Cluster.NetworkId := "net-1";
     controlplanev1beta2.Cluster.ReadReplicaClusterIds := None;
     controlplanev1beta2.Cluster.DataplaneApi := None;
     controlplanev1beta2.Cluster.AwsPrivateLink := aws;
     controlplanev1beta2.Cluster.GcpPrivateServiceConnect := None;
     controlplanev1beta2.Cluster.AzurePrivateLink := azure;
     controlplanev1beta2.Cluster.KafkaApi := None;
     controlplanev1beta2.Cluster.HttpProxy := None;
     controlplanev1beta2.Cluster.SchemaRegistry := None |}.

Definition awsStatus (enabled : bool) : controlplanev1beta2.AWSPrivateLinkStatus.t :=
  {| controlplanev1beta2.AWSPrivateLinkStatus.Enabled := enabled;
     controlplanev1beta2.AWSPrivateLinkStatus.AllowedPrincipals := Some [];
     controlplanev1beta2.AWSPrivateLinkStatus.ConnectConsole := false |}.

Definition azureStatus (enabled : bool) : controlplanev1beta2.AzurePrivateLinkStatus.t :=
  {| controlplanev1beta2.AzurePrivateLinkStatus.Enabled := enabled;
     controlplanev1beta2.AzurePrivateLinkStatus.AllowedSubscriptions := None;
     controlplanev1beta2.AzurePrivateLinkStatus.ConnectConsole := false |}.

Definition synonym : dataplanev1alpha1.Topic_Configuration_ConfigSynonym.t :=
  {| dataplanev1alpha1.Topic_Configuration_ConfigSynonym.Name := "log.cleanup.policy";
     dataplanev1alpha1.Topic_Configuration_ConfigSynonym.Value := "delete";
     dataplanev1alpha1.Topic_Configuration_ConfigSynonym.Source :=
       dataplanev1alpha1.Topic_Configuration_SOURCE_DEFAULT_CONFIG |}.

Definition topicConfiguration : dataplanev1alpha1.Topic_Configuration.t :=
  {| dataplanev1alpha1.Topic_Configuration.Name := "cleanup.policy";
     dataplanev1alpha1.Topic_Configuration.Type_ := "STRING";
     dataplanev1alpha1.Topic_Configuration.Value := "delete";
     dataplanev1alpha1.Topic_Configuration.Source :=
       dataplanev1alpha1.Topic_Configuration_SOURCE_DEFAULT_CONFIG;
     dataplanev1alpha1.Topic_Configuration.IsReadOnly := false;
     dataplanev1alpha1.Topic_Configuration.IsSensitive := false;
     dataplanev1alpha1.Topic_Configuration.ConfigSynonyms := Some [synonym];
     dataplanev1alpha1.Topic_Configuration.Documentation := EmptyString |}.

(** A provider block that sets the client id and leaves the secret out. *)
Definition providerBlock : models.Redpanda.t :=
  {| models.Redpanda.ClientID := types.StringValue "id-from-config";
     models.Redpanda.ClientSecret := types.StringNull;
     models.Redpanda.CloudProvider := types.StringNull;
     models.Redpanda.Region := types.StringNull;
     models.Redpanda.Zones := types.ListNull |}.

Definition emptyProviderBlock : models.Redpanda.t :=
  {| models.Redpanda.ClientID := types.StringNull;
     models.Redpanda.ClientSecret := types.StringNull;
     models.Redpanda.CloudProvider := types.StringNull;
     models.Redpanda.Region := types.StringNull;
     models.Redpanda.Zones := types.ListNull |}.

Definition request (conf : models.Redpanda.t) : redpanda.ConfigureRequest.t :=
  {| redpanda.ConfigureRequest.Config_Get := ([], conf) |}.

Definition freshResponse : redpanda.ConfigureResponse.t :=
  {| redpanda.ConfigureResponse.Diagnostics_ := [];
     redpanda.ConfigureResponse.ResourceData := None;
     redpanda.ConfigureResponse.DataSourceData := None |}.

Definition environment : redpanda.Environ :=
  [("CLIENT_ID", "id-from-env"); ("CLIENT_SECRET", "secret-from-env")].

Definition provider : redpanda.Redpanda := {| redpanda.version := "dev" |}.

(** A stand-in for the case tables, never reached on ASCII input. *)
Definition unicode : strings.Unicode :=
  {| strings.Map_unicode_ToLower := fun s => s;
     strings.Map_unicode_ToUpper := fun s => s |}.

(** A client that knows one namespace, named default. *)
Definition namespaces : services.NamespaceServiceClient :=
  {| services.ListNamespaces := fun _ _ =>
       (Some {| cloudv1beta1.ListNamespacesResponse.Namespaces :=
                  Some [Some {| cloudv1beta1.Namespace.Id := "ns-1";
                                cloudv1beta1.Namespace.Name := "default" |}] |},
        None) |}.

Definition modelSynonym (source : string) : models.TopicConfigSynonym.t :=
  {| models.TopicConfigSynonym.Name := types.StringValue "log.cleanup.policy";
     models.TopicConfigSynonym.Value := types.StringValue "delete";
     models.TopicConfigSynonym.Source := types.StringValue source |}.

(** Stand-ins for the helpers of [generateClusterRequest]: parsers that
    know "aws" and "dedicated" only, and a map without tags. *)
Definition requestHelpers : cluster.RequestHelpers :=
  {| cluster.StringToCloudProviderOrError := fun s =>
       if String.eqb s "aws"
       then (cloudv1beta1.CloudProvider_CLOUD_PROVIDER_AWS, None)
       else (cloudv1beta1.CloudProvider_CLOUD_PROVIDER_UNSPECIFIED,
             Some (Go.errorString "provider not supported"));
     cluster.StringToClusterTypeOrError := fun s =>
       if String.eqb s "dedicated"
       then (cloudv1beta1.Cluster_TYPE_DEDICATED, None)
       else (cloudv1beta1.Cluster_TYPE_UNSPECIFIED,
             Some (Go.errorString "cluster type not supported"));
     cluster.TypeMapToStringMap := fun _ => [] |}.

(** A request whose provider block does not decode: the decoding reports
    an error and leaves the block empty. *)
Definition undecodedRequest : redpanda.ConfigureRequest.t :=
  {| redpanda.ConfigureRequest.Config_Get :=
       ([redpanda.NewErrorDiagnostic "Value Conversion Error"
           "the provider block could not be decoded"],
        emptyProviderBlock) |}.

End sample.

(* ================================================================= *)
(** ** Substring search *)

Lemma HasPrefix_spec (prefix s : string) :
  strings.HasPrefix s prefix = true <-> exists rest, s = (prefix ++ rest)%string.
Proof.
  revert s. induction prefix as [|p prefix IH]; intros s; simpl.
  - split; [intros _; now exists s | reflexivity].
  - destruct s as [|c s].
    + split; [discriminate | intros [rest H]; discriminate].
    + rewrite andb_true_iff, Ascii.eqb_eq, IH. split.
      * intros [-> [rest ->]]. now exists rest.
      * intros [rest H]. injection H as -> ->. split; [reflexivity | now exists rest].
Qed.

Lemma Contains_spec (sub s : string) :
  strings.Contains s sub = true <-> Substring sub s.
Proof.
  unfold Substring. induction s as [|c s IH].
  - simpl. rewrite orb_false_r, HasPrefix_spec. split.
    + intros [rest H]. now exists EmptyString, rest.
    + intros [before [after H]]. destruct before; [now exists after | discriminate].
  - cbn [strings.Contains]. rewrite orb_true_iff, HasPrefix_spec, IH. split.
    + intros [[rest H] | [before [after H]]].
      * now exists EmptyString, rest.
      * exists (String c before), after. simpl. now rewrite H.
    + intros [before [after H]]. destruct before as [|b before].
      * left. now exists after.
      * right. simpl in H. injection H as _ H. now exists before, after.
Qed.

(** C8.  [IsNotFound] answers true exactly for the errors whose message
    contains one of the three texts "not found", "NotFound" and "404"; it
    looks at the message only, so two errors with the same message are
    classified alike whatever their kind. *)
Theorem IsNotFound_is_substring_matching :
  (forall err : Go.error,
     utils.IsNotFound err = true <->
     Substring "not found" (Go.Error err)
     \/ Substring "NotFound" (Go.Error err)
     \/ Substring "404" (Go.Error err))
  /\ (forall err1 err2 : Go.error,
        Go.Error err1 = Go.Error err2 -> utils.IsNotFound err1 = utils.IsNotFound err2).
Proof.
  split.
  - intros err. unfold utils.IsNotFound.
    rewrite <- !Contains_spec.
    destruct (strings.Contains (Go.Error err) "not found");
      destruct (strings.Contains (Go.Error err) "NotFound");
      destruct (strings.Contains (Go.Error err) "404"); simpl; intuition congruence.
  - intros err1 err2 H. unfold utils.IsNotFound. now rewrite H.
Qed.

(* ================================================================= *)
(** ** The polling loop *)

(** An error that is not the timeout error of [AreWeDoneYet]. *)
Ltac not_the_timeout :=
  let H := fresh in
  intros H; unfold utils.timeout_reached, utils.operation_failed in H;
  cbn in H; discriminate H.

Section Polling.

Import runtime.
Local Open Scope Z_scope.

Variable ctx : Context.
Variable op : option cloudv1beta1.Operation.t.
Variable timeout : Z.
Variable client : OperationServiceClient.
Variable startTime : Z.

Let req : cloudv1beta1.GetOperationRequest.t :=
  {| cloudv1beta1.GetOperationRequest.Id := cloudv1beta1.GetId op |}.

(** What one iteration of the loop does, by the answer of the client. *)
Lemma pollLoop_step (fuel : nat) (w : World) :
  utils.pollLoop (S fuel) ctx op timeout client startTime w =
  let w1 := snd (GetOperation client ctx req w) in
  match answer client (fetches w) ctx req with
  | (_, Some msg) => (utils.Returned (Some (Go.clientError msg)), w1)
  | (o, None) =>
      if utils.CheckOpsState o then
        match cloudv1beta1.GetError o with
        | Some st =>
            if utils.IsNotFound (Go.errors_New (cloudv1beta1.Status.Message st))
            then (utils.Returned (Some (utils.operation_failed
                                          (cloudv1beta1.Status.Message st))), w1)
            else (utils.Returned None, w1)
        | None => (utils.Returned None, w1)
        end
      else if timeout <? clock w1 - startTime
           then (utils.Returned (Some utils.timeout_reached), w1)
           else utils.pollLoop fuel ctx op timeout client startTime
                  (snd (time_Sleep utils.pollInterval w1))
  end.
Proof.
  cbn [utils.pollLoop]. unfold bind, GetOperation. fold req.
  destruct (answer client (fetches w) ctx req) as [o [msg|]]; [reflexivity|].
  cbn [option_map snd].
  destruct (utils.CheckOpsState o).
  - destruct (cloudv1beta1.GetError o) as [st|]; [|reflexivity].
    cbn [cloudv1beta1.GetMessage].
    destruct (utils.IsNotFound _); reflexivity.
  - unfold time_Since. cbn [clock].
    destruct (timeout <? _); reflexivity.
Qed.

(** A loop that has returned did so after a paced run of requests.  When
    it returned the timeout error, every check but the last found the
    elapsed time within [timeout], the last one found it beyond, and the
    last answer of the client was an operation that had not settled. *)
Lemma pollLoop_returned (fuel : nat) :
  forall (w : World) (r : option Go.error) (w' : World),
    utils.pollLoop fuel ctx op timeout client startTime w = (utils.Returned r, w') ->
    exists evs,
      history w' = history w ++ evs
      /\ paced (cloudv1beta1.GetId op) evs
      /\ lag w' = lag w
      /\ (r = Some utils.timeout_reached ->
          exists ts o,
            fetch_times evs = ts ++ [clock w']
            /\ Forall (fun t => t - startTime <= timeout) ts
            /\ timeout < clock w' - startTime
            /\ answer client (pred (fetches w')) ctx req = (o, None)
            /\ utils.CheckOpsState o = false).
Proof.
  induction fuel as [|fuel IH]; intros w r w' Hrun.
  - cbn in Hrun. unfold ret in Hrun. discriminate Hrun.
  - rewrite pollLoop_step in Hrun. cbv zeta in Hrun.
    assert (Hone : forall r0,
               (r0 = Some utils.timeout_reached -> False) ->
               (utils.Returned r0, snd (GetOperation client ctx req w)) = (utils.Returned r, w') ->
               exists evs,
                 history w' = history w ++ evs
                 /\ paced (cloudv1beta1.GetId op) evs
                 /\ lag w' = lag w
                 /\ (r = Some utils.timeout_reached ->
                     exists ts o,
                       fetch_times evs = ts ++ [clock w']
                       /\ Forall (fun t => t - startTime <= timeout) ts
                       /\ timeout < clock w' - startTime
                       /\ answer client (pred (fetches w')) ctx req = (o, None)
                       /\ utils.CheckOpsState o = false)).
    { intros r0 Hr0 Heq. injection Heq as <- <-.
      unfold GetOperation. destruct (answer client (fetches w) ctx req) as [o' f'].
      cbn. eexists. split; [reflexivity|]. repeat split.
      intros Habs. destruct (Hr0 Habs). }
    destruct (answer client (fetches w) ctx req) as [o [msg|]] eqn:Hans.
    + refine (Hone _ _ Hrun); not_the_timeout.
    + destruct (utils.CheckOpsState o) eqn:Hstate.
      * destruct (cloudv1beta1.GetError o) as [st|].
        -- destruct (utils.IsNotFound _).
           ++ refine (Hone _ _ Hrun); not_the_timeout.
           ++ refine (Hone _ _ Hrun); not_the_timeout.
        -- refine (Hone _ _ Hrun); not_the_timeout.
      * destruct (timeout <? _) eqn:Hlate.
        -- injection Hrun as <- <-. apply Z.ltb_lt in Hlate.
           unfold GetOperation in *. rewrite Hans in *. cbn in *.
           eexists. split; [reflexivity|]. repeat split.
           intros _. exists [], o. cbn. repeat split; auto.
        -- apply Z.ltb_ge in Hlate.
           destruct (IH _ _ _ Hrun) as (evs & Hh & Hp & Hl & Ht).
           unfold GetOperation in *. rewrite Hans in *. cbn in *.
           exists (EvFetch (cloudv1beta1.GetId op) (clock w + latency client (fetches w))
                   :: EvSleep utils.pollInterval :: evs).
           split; [rewrite Hh, <- !app_assoc; reflexivity|].
           split; [cbn; destruct evs; [destruct Hp|]; repeat split; exact Hp|].
           split; [exact Hl|].
           intros Hr. destruct (Ht Hr) as (ts & o' & Hft & Hall & Hlt & Ha & Hc).
           exists (clock w + latency client (fetches w) :: ts), o'.
           cbn. rewrite Hft. repeat split; auto.
Qed.

(** More fuel does not change what a loop that has returned returns. *)
Lemma pollLoop_more_fuel (fuel : nat) :
  forall (w : World) (r : option Go.error) (w' : World),
    utils.pollLoop fuel ctx op timeout client startTime w = (utils.Returned r, w') ->
    forall fuel', (fuel <= fuel')%nat ->
      utils.pollLoop fuel' ctx op timeout client startTime w = (utils.Returned r, w').
Proof.
  induction fuel as [|fuel IH]; intros w r w' Hrun fuel' Hle.
  - cbn in Hrun. unfold ret in Hrun. discriminate Hrun.
  - destruct fuel' as [|fuel']; [lia|].
    rewrite pollLoop_step in *. cbv zeta in *.
    destruct (answer client (fetches w) ctx req) as [o [msg|]]; [exact Hrun|].
    destruct (utils.CheckOpsState o); [exact Hrun|].
    destruct (timeout <? _); [exact Hrun|].
    apply IH; [exact Hrun | lia].
Qed.

(** As long as the client keeps answering with an operation that has not
    settled, and time does not run backwards, the loop gives up with the
    timeout error: each round adds at least the polling interval to the
    elapsed time. *)
Lemma pollLoop_times_out :
  (forall n, exists o, answer client n ctx req = (o, None) /\ utils.CheckOpsState o = false) ->
  (forall n, 0 <= latency client n) ->
  forall (k : nat) (w : World),
    (forall n, 0 <= lag w n) ->
    timeout - (clock w - startTime) < Z.of_nat k * utils.pollInterval ->
    exists w',
      utils.pollLoop (S k) ctx op timeout client startTime w
      = (utils.Returned (Some utils.timeout_reached), w').
Proof.
  intros Hans Hlat. induction k as [|k IH]; intros w Hlag Hbudget.
  - rewrite pollLoop_step. cbv zeta.
    destruct (Hans (fetches w)) as (o & -> & ->).
    unfold GetOperation. destruct (answer client (fetches w) ctx req) as [o' f'].
    cbn [snd clock].
    specialize (Hlat (fetches w)).
    destruct (Z.ltb_spec timeout (clock w + latency client (fetches w) - startTime)).
    + eexists. reflexivity.
    + lia.
  - rewrite pollLoop_step. cbv zeta.
    destruct (Hans (fetches w)) as (o & -> & ->).
    destruct (timeout <? _); [eexists; reflexivity|].
    apply IH.
    + intros n. unfold GetOperation.
      destruct (answer client (fetches w) ctx req) as [o' f']. cbn. apply Hlag.
    + rewrite Nat2Z.inj_succ in Hbudget. unfold GetOperation.
      destruct (answer client (fetches w) ctx req) as [o' f'].
      cbn [snd time_Sleep clock sleeps lag].
      specialize (Hlat (fetches w)). specialize (Hlag (sleeps w)). lia.
Qed.

End Polling.

(* ================================================================= *)
(** ** AreWeDoneYet *)

(** An iteration whose fetch brings back a settled operation with an error
    payload ends the wait there: with the operation-failed error when
    [IsNotFound] accepts the message, with success when it does not. *)
Lemma pollLoop_settled_with_error
    (fuel : nat) (ctx : runtime.Context) (op : option cloudv1beta1.Operation.t)
    (timeout : Z) (client : runtime.OperationServiceClient) (startTime : Z)
    (w : runtime.World) (o : option cloudv1beta1.Operation.t) (st : cloudv1beta1.Status.t) :
  runtime.answer client (runtime.fetches w) ctx
    {| cloudv1beta1.GetOperationRequest.Id := cloudv1beta1.GetId op |} = (o, None) ->
  utils.CheckOpsState o = true ->
  cloudv1beta1.GetError o = Some st ->
  fst (utils.pollLoop (S fuel) ctx op timeout client startTime w) =
  utils.Returned
    (if utils.IsNotFound (Go.errors_New (cloudv1beta1.Status.Message st))
     then Some (utils.operation_failed (cloudv1beta1.Status.Message st))
     else None).
Proof.
  intros Hans Hstate Herr. rewrite pollLoop_step. cbv zeta.
  rewrite Hans, Hstate, Herr.
  destruct (utils.IsNotFound _); reflexivity.
Qed.

(** C1.  What the loop does with a settled operation that carries an error
    payload, on a first fetch: a FAILED operation whose message is "disk
    quota exceeded", which [IsNotFound] rejects, ends the wait with success;
    a FAILED operation whose message is "cluster not found", which
    [IsNotFound] accepts, ends it with the operation-failed error. *)
Theorem AreWeDoneYet_poll_error_outcomes :
  utils.IsNotFound (Go.errors_New "disk quota exceeded") = false
  /\ fst (utils.AreWeDoneYet 1 sample.ctx sample.running (15 * runtime.Minute)
            (sample.answering
               (sample.operation cloudv1beta1.Operation_STATE_FAILED
                  (Some "disk quota exceeded")))
            sample.idle)
     = utils.Returned None
  /\ utils.IsNotFound (Go.errors_New "cluster not found") = true
  /\ fst (utils.AreWeDoneYet 1 sample.ctx sample.running (15 * runtime.Minute)
            (sample.answering
               (sample.operation cloudv1beta1.Operation_STATE_FAILED
                  (Some "cluster not found")))
            sample.idle)
     = utils.Returned (Some (Go.errorString "operation failed: cluster not found")).
Proof.
  repeat split; vm_compute; reflexivity.
Qed.

(** C4.  An operation that is already COMPLETED or FAILED when it is handed
    to [AreWeDoneYet] is resolved on the spot: the world is left as it was
    (no fetch, no sleep), the result is success when the operation is
    COMPLETED and has no error payload, and it is the operation-failed error
    with the message of the payload when there is one. *)
Theorem AreWeDoneYet_settled_needs_no_fetch
    (fuel : nat) (ctx : runtime.Context) (op : option cloudv1beta1.Operation.t)
    (timeout : Z) (client : runtime.OperationServiceClient) (w : runtime.World) :
  terminal (cloudv1beta1.GetState op) ->
  exists r : option Go.error,
    utils.AreWeDoneYet fuel ctx op timeout client w = (utils.Returned r, w)
    /\ (cloudv1beta1.GetState op = cloudv1beta1.Operation_STATE_COMPLETED ->
        cloudv1beta1.GetError op = None -> r = None)
    /\ (forall st, cloudv1beta1.GetError op = Some st ->
        r = Some (Go.errorString
                    ("operation failed: " ++ cloudv1beta1.Status.Message st)%string)).
Proof.
  intros Hterm. unfold utils.AreWeDoneYet.
  assert (Hstate : utils.CheckOpsState op = true).
  { unfold utils.CheckOpsState. destruct Hterm as [-> | ->]; reflexivity. }
  rewrite Hstate.
  destruct (cloudv1beta1.GetError op) as [st|] eqn:Herr.
  - eexists. split; [reflexivity|]. split.
    + intros _ Habs. discriminate Habs.
    + intros st' Hst. injection Hst as <-. reflexivity.
  - exists None. split; [reflexivity|]. split.
    + reflexivity.
    + intros st' Hst. discriminate Hst.
Qed.

Lemma AreWeDoneYet_settled_needs_no_fetch_witness :
  terminal (cloudv1beta1.GetState
              (sample.operation cloudv1beta1.Operation_STATE_COMPLETED None))
  /\ exists r : option Go.error,
       utils.AreWeDoneYet 0 sample.ctx
         (sample.operation cloudv1beta1.Operation_STATE_COMPLETED None)
         (15 * runtime.Minute) (sample.answering sample.running) sample.idle
       = (utils.Returned r, sample.idle)
       /\ r = None.
Proof.
  assert (H : terminal (cloudv1beta1.GetState
                (sample.operation cloudv1beta1.Operation_STATE_COMPLETED None))).
  { left. reflexivity. }
  split; [exact H|].
  destruct (AreWeDoneYet_settled_needs_no_fetch 0 sample.ctx _ (15 * runtime.Minute)
              (sample.answering sample.running) sample.idle H) as (r & Hrun & Hok & _).
  exists r. split; [exact Hrun | apply Hok; reflexivity].
Defined.

(** C5.  A wait on an operation that has not settled yet.
    - If the client keeps answering with an operation that has not settled
      (and neither the fetches nor the sleeps take a negative time), the call
      returns the timeout error, and it does so with more than [timeout]
      elapsed since the wait began.
    - Whenever the call returns the timeout error, the elapsed time was
      within [timeout] at every check but the last and beyond it at the last,
      and the last answer of the client was an operation that had not
      settled: no timeout is reported on a settled operation.
    - Whatever the call returns, its requests are paced: one sleep of ten
      seconds between any two successive fetches. *)
Theorem AreWeDoneYet_timeout
    (ctx : runtime.Context) (op : option cloudv1beta1.Operation.t)
    (timeout : Z) (client : runtime.OperationServiceClient) (w : runtime.World) :
  utils.CheckOpsState op = false ->
  ((forall n, exists o,
       runtime.answer client n ctx
         {| cloudv1beta1.GetOperationRequest.Id := cloudv1beta1.GetId op |} = (o, None)
       /\ utils.CheckOpsState o = false) ->
   (forall n, (0 <= runtime.latency client n)%Z) ->
   (forall n, (0 <= runtime.lag w n)%Z) ->
   exists fuel w',
     (forall fuel', fuel <= fuel' ->
        utils.AreWeDoneYet fuel' ctx op timeout client w
        = (utils.Returned (Some utils.timeout_reached), w'))
     /\ (timeout < runtime.clock w' - runtime.clock w)%Z)
  /\ (forall fuel w',
        utils.AreWeDoneYet fuel ctx op timeout client w
        = (utils.Returned (Some utils.timeout_reached), w') ->
        exists evs ts o,
          runtime.history w' = runtime.history w ++ evs
          /\ fetch_times evs = ts ++ [runtime.clock w']
          /\ Forall (fun t => (t - runtime.clock w <= timeout)%Z) ts
          /\ (timeout < runtime.clock w' - runtime.clock w)%Z
          /\ runtime.answer client (pred (runtime.fetches w')) ctx
               {| cloudv1beta1.GetOperationRequest.Id := cloudv1beta1.GetId op |} = (o, None)
          /\ utils.CheckOpsState o = false)
  /\ (forall fuel r w',
        utils.AreWeDoneYet fuel ctx op timeout client w = (utils.Returned r, w') ->
        exists evs,
          runtime.history w' = runtime.history w ++ evs
          /\ paced (cloudv1beta1.GetId op) evs).
Proof.
  intros Hpending.
  assert (Hrun : forall fuel,
             utils.AreWeDoneYet fuel ctx op timeout client w
             = utils.pollLoop fuel ctx op timeout client (runtime.clock w) w).
  { intros fuel. unfold utils.AreWeDoneYet. rewrite Hpending. reflexivity. }
  split; [|split].
  - intros Hans Hlat Hlag.
    set (k := Z.to_nat (Z.max 0 (timeout / utils.pollInterval + 1))).
    destruct (pollLoop_times_out ctx op timeout client (runtime.clock w) Hans Hlat k w Hlag)
      as [w' Hw'].
    { subst k. rewrite Z2Nat.id by lia.
      assert (HP : (0 < utils.pollInterval)%Z) by reflexivity.
      pose proof (Z.div_mod timeout utils.pollInterval ltac:(lia)) as Hdm.
      pose proof (Z.mod_pos_bound timeout utils.pollInterval HP) as Hmod.
      nia. }
    exists (S k), w'. split.
    + intros fuel' Hle. rewrite Hrun.
      apply (pollLoop_more_fuel _ _ _ _ _ _ _ _ _ Hw' _ Hle).
    + destruct (pollLoop_returned _ _ _ _ _ _ _ _ _ Hw') as (evs & _ & _ & _ & Ht).
      destruct (Ht eq_refl) as (ts & o & _ & _ & Hlt & _). exact Hlt.
  - intros fuel w' Hret. rewrite Hrun in Hret.
    destruct (pollLoop_returned _ _ _ _ _ _ _ _ _ Hret) as (evs & Hh & _ & _ & Ht).
    destruct (Ht eq_refl) as (ts & o & Hft & Hall & Hlt & Ha & Hc).
    exists evs, ts, o. repeat split; assumption.
  - intros fuel r w' Hret. rewrite Hrun in Hret.
    destruct (pollLoop_returned _ _ _ _ _ _ _ _ _ Hret) as (evs & Hh & Hp & _).
    exists evs. split; assumption.
Qed.

(** A wait of 25 seconds on an operation that stays in progress, each fetch
    taking one second: the fourth check, at 34 seconds, reports the timeout. *)
Example AreWeDoneYet_gives_up_after_25s :
  fst (utils.AreWeDoneYet 4 sample.ctx sample.running (25 * runtime.Second)
         (sample.answering sample.running) sample.idle)
  = utils.Returned (Some (Go.errorString "timeout reached"))
  /\ fetch_times
       (runtime.history
          (snd (utils.AreWeDoneYet 4 sample.ctx sample.running (25 * runtime.Second)
                  (sample.answering sample.running) sample.idle)))
     = [1000000000; 12000000000; 23000000000; 34000000000]%Z.
Proof.
  split; vm_compute; reflexivity.
Qed.

Lemma AreWeDoneYet_timeout_witness :
  utils.CheckOpsState sample.running = false
  /\ exists fuel w',
       (forall fuel', fuel <= fuel' ->
          utils.AreWeDoneYet fuel' sample.ctx sample.running (25 * runtime.Second)
            (sample.answering sample.running) sample.idle
          = (utils.Returned (Some utils.timeout_reached), w'))
       /\ (25 * runtime.Second < runtime.clock w' - runtime.clock sample.idle)%Z.
Proof.
  assert (H : utils.CheckOpsState sample.running = false) by reflexivity.
  split; [exact H|].
  apply (proj1 (AreWeDoneYet_timeout sample.ctx sample.running (25 * runtime.Second)
                  (sample.answering sample.running) sample.idle H)).
  - intros n. exists sample.running. split; reflexivity.
  - intros n. cbn. unfold runtime.Second. lia.
  - intros n. cbn. lia.
Defined.

(* ================================================================= *)
(** ** Slices built with make and append *)

(** Appending the image of every element of [l] to a slice that is not nil. *)
Lemma range_append {A B : Type} (f : A -> B) (l : list A) (start : list B) :
  fold_left (fun output v => Go.append output (f v)) l (Some start)
  = Some (start ++ map f l).
Proof.
  revert start. induction l as [|v l IH]; intros start; simpl.
  - now rewrite app_nil_r.
  - unfold Go.append at 2. simpl. rewrite IH, <- app_assoc. reflexivity.
Qed.

Lemma make_then_append {A B : Type} (f : A -> B) (s : Go.slice A) :
  Go.range s (fun output v => Go.append output (Some (f v))) (Go.make None (Go.len s))
  = Some (repeat None (Go.len s) ++ map (fun v => Some (f v)) (Go.elems s)).
Proof.
  unfold Go.range, Go.make. apply (range_append (fun v => Some (f v))).
Qed.

Lemma nil_prefix_shape {B : Type} (n : nat) (tail : list (option B)) :
  length tail = n ->
  length (repeat None n ++ tail) = 2 * n
  /\ firstn n (repeat None n ++ tail) = repeat None n
  /\ skipn n (repeat None n ++ tail) = tail.
Proof.
  intros Hlen.
  assert (Hrep : length (repeat (@None B) n) = n) by apply repeat_length.
  split; [rewrite length_app, Hrep, Hlen; lia|]. split.
  - rewrite firstn_app, Hrep, Nat.sub_diag. simpl.
    rewrite app_nil_r. rewrite <- Hrep at 1. apply firstn_all.
  - rewrite skipn_app, Hrep, Nat.sub_diag. simpl.
    rewrite <- Hrep at 1. rewrite skipn_all. reflexivity.
Qed.

(** C10.  On a slice of [n > 0] entries, [TopicConfigurationToSlice] returns
    a slice of [2 n] entries: [n] nil pointers, which [make] put there,
    followed by the [n] converted entries, which [append] added after them.
    The same holds of [ConfigSynonymsToSlice]. *)
Theorem ToSlice_doubles_the_length :
  (forall cfg : Go.slice dataplanev1alpha1.Topic_Configuration.t,
     0 < Go.len cfg ->
     exists out,
       utils.TopicConfigurationToSlice cfg = Some out
       /\ length out = 2 * Go.len cfg
       /\ firstn (Go.len cfg) out = repeat None (Go.len cfg)
       /\ skipn (Go.len cfg) out
          = map (fun v => Some (utils.toTopicConfiguration v)) (Go.elems cfg))
  /\ (forall synonyms : Go.slice dataplanev1alpha1.Topic_Configuration_ConfigSynonym.t,
        0 < Go.len synonyms ->
        exists out,
          utils.ConfigSynonymsToSlice synonyms = Some out
          /\ length out = 2 * Go.len synonyms
          /\ firstn (Go.len synonyms) out = repeat None (Go.len synonyms)
          /\ skipn (Go.len synonyms) out
             = map (fun v => Some (utils.toTopicConfigSynonym v)) (Go.elems synonyms)).
Proof.
  split.
  - intros cfg _. unfold utils.TopicConfigurationToSlice. cbv zeta.
    rewrite make_then_append. eexists. split; [reflexivity|].
    apply nil_prefix_shape. unfold Go.len. apply length_map.
  - intros synonyms _. unfold utils.ConfigSynonymsToSlice. cbv zeta.
    rewrite make_then_append. eexists. split; [reflexivity|].
    apply nil_prefix_shape. unfold Go.len. apply length_map.
Qed.

Example TopicConfigurationToSlice_of_one :
  utils.TopicConfigurationToSlice (Some [sample.topicConfiguration])
  = Some [None; Some (utils.toTopicConfiguration sample.topicConfiguration)]
  /\ models.TopicConfiguration.ConfigSynonyms
       (utils.toTopicConfiguration sample.topicConfiguration)
     = Some [None; Some (utils.toTopicConfigSynonym sample.synonym)].
Proof.
  split; reflexivity.
Qed.

Lemma ToSlice_doubles_the_length_witness :
  0 < Go.len (Some [sample.topicConfiguration])
  /\ exists out,
       utils.TopicConfigurationToSlice (Some [sample.topicConfiguration]) = Some out
       /\ length out = 2
       /\ firstn 1 out = [None].
Proof.
  assert (H : 0 < Go.len (Some [sample.topicConfiguration])) by (unfold Go.len; simpl; lia).
  split; [exact H|].
  destruct (proj1 ToSlice_doubles_the_length (Some [sample.topicConfiguration]) H)
    as (out & Hout & Hlen & Hfirst & _).
  exists out. repeat split; assumption.
Defined.

(* ================================================================= *)
(** ** Optional blocks in cluster.go *)

Section Blocks.

Context `{Collaborators}.

Lemma unlessNil_nil {A B : Type} (isNil : option A -> bool) (block : option A)
    (build : A -> B) :
  isNil block = true -> cluster.unlessNil isNil block build = None.
Proof.
  intros Hnil. unfold cluster.unlessNil. now rewrite Hnil.
Qed.

Lemma unlessNil_kept {A B : Type} (isNil : option A -> bool) (b : A) (build : A -> B) :
  isNil (Some b) = false -> cluster.unlessNil isNil (Some b) build = Some (build b).
Proof.
  intros Hnil. unfold cluster.unlessNil. now rewrite Hnil.
Qed.

Lemma unlessNil_inv {A B : Type} (isNil : option A -> bool) (block : option A)
    (build : A -> B) (m : B) :
  cluster.unlessNil isNil block build = Some m ->
  exists b, block = Some b /\ isNil block = false /\ m = build b.
Proof.
  unfold cluster.unlessNil. destruct (isNil block); [discriminate|].
  destruct block as [b|]; [|discriminate].
  intros Heq. injection Heq as <-. now exists b.
Qed.

Lemma nonNullList_not_null (s : Go.slice string) :
  types.IsNull (cluster.nonNullList s) = false.
Proof.
  unfold cluster.nonNullList. cbv zeta.
  destruct (types.IsNull (StringSliceToTypeList s)) eqn:Hnull; [reflexivity | exact Hnull].
Qed.

Lemma nonNullList_of_empty (s : Go.slice string) :
  StringSliceToTypeList s = types.ListNull \/ StringSliceToTypeList s = types.ListValue [] ->
  cluster.nonNullList s = types.ListValue [].
Proof.
  unfold cluster.nonNullList. cbv zeta. intros [-> | ->]; reflexivity.
Qed.

(** The paths that one step of the diff can add to the mask. *)
Lemma diffField_path {A : Type} (eqb : A -> A -> bool) (path : string) (zero x y : A)
    (p : string) :
  In p (snd (utils.diffField eqb path zero x y)) -> p = path.
Proof.
  unfold utils.diffField. destruct (eqb x y); simpl; [tauto|].
  intros [<- | []]. reflexivity.
Qed.

End Blocks.

(** C2.  For the state model that [generateModel] builds, an
    [aws_private_link] block that the backend reports with enabled false,
    connect_console false and no allowed principal is the same as no block:
    the two models are equal and neither has the block.  A block reported with
    enabled true is kept, with enabled true. *)
Theorem generateModel_aws_private_link_collapse `{Collaborators}
    (cfg : models.Cluster.t) (c : controlplanev1beta2.Cluster.t)
    (b : controlplanev1beta2.AWSPrivateLinkStatus.t) :
  (controlplanev1beta2.AWSPrivateLinkStatus.Enabled b = false ->
   controlplanev1beta2.AWSPrivateLinkStatus.ConnectConsole b = false ->
   Go.len (controlplanev1beta2.AWSPrivateLinkStatus.AllowedPrincipals b) = 0 ->
   cluster.generateModel cfg (controlplanev1beta2.Cluster.with_AwsPrivateLink (Some b) c)
   = cluster.generateModel cfg (controlplanev1beta2.Cluster.with_AwsPrivateLink None c)
   /\ models.Cluster.AwsPrivateLink
        (fst (cluster.generateModel cfg
                (controlplanev1beta2.Cluster.with_AwsPrivateLink (Some b) c)))
      = None)
  /\ (controlplanev1beta2.AWSPrivateLinkStatus.Enabled b = true ->
      exists m,
        models.Cluster.AwsPrivateLink
          (fst (cluster.generateModel cfg
                  (controlplanev1beta2.Cluster.with_AwsPrivateLink (Some b) c)))
        = Some m
        /\ models.AwsPrivateLink.Enabled m = types.BoolValue true).
Proof.
  split.
  - intros Hen Hcc Hlen.
    assert (Hnil : cluster.isAwsPrivateLinkSpecNil (Some b) = true).
    { unfold cluster.isAwsPrivateLinkSpecNil. now rewrite Hen, Hcc, Hlen. }
    unfold cluster.generateModel. cbn [controlplanev1beta2.Cluster.with_AwsPrivateLink
      controlplanev1beta2.Cluster.AwsPrivateLink fst models.Cluster.AwsPrivateLink].
    rewrite (unlessNil_nil _ (Some b) _ Hnil).
    rewrite (unlessNil_nil _ None _ eq_refl).
    split; reflexivity.
  - intros Hen.
    assert (Hnil : cluster.isAwsPrivateLinkSpecNil (Some b) = false).
    { unfold cluster.isAwsPrivateLinkSpecNil. now rewrite Hen. }
    unfold cluster.generateModel. cbn [controlplanev1beta2.Cluster.with_AwsPrivateLink
      controlplanev1beta2.Cluster.AwsPrivateLink fst models.Cluster.AwsPrivateLink].
    rewrite (unlessNil_kept _ b _ Hnil).
    eexists. split; [reflexivity|]. cbn. now rewrite Hen.
Qed.

Lemma generateModel_aws_private_link_collapse_witness :
  @cluster.generateModel sample.collaborators (sample.model None)
    (controlplanev1beta2.Cluster.with_AwsPrivateLink (Some (sample.awsStatus false))
       (sample.backend None None))
  = @cluster.generateModel sample.collaborators (sample.model None)
      (controlplanev1beta2.Cluster.with_AwsPrivateLink None (sample.backend None None))
  /\ exists m,
       models.Cluster.AwsPrivateLink
         (fst (@cluster.generateModel sample.collaborators (sample.model None)
                 (controlplanev1beta2.Cluster.with_AwsPrivateLink
                    (Some (sample.awsStatus true)) (sample.backend None None))))
       = Some m
       /\ models.AwsPrivateLink.Enabled m = types.BoolValue true.
Proof.
  split.
  - apply (proj1 (@generateModel_aws_private_link_collapse sample.collaborators
                    (sample.model None) (sample.backend None None) (sample.awsStatus false)));
      reflexivity.
  - apply (proj2 (@generateModel_aws_private_link_collapse sample.collaborators
                    (sample.model None) (sample.backend None None) (sample.awsStatus true)));
      reflexivity.
Defined.

(** C3, as stated, fails: the model whose [aws_private_link] block has every
    leaf set to its default (enabled false, connect_console false, an empty
    list, none of them null) gets an update that carries the block. *)
Lemma generateClusterUpdate_sends_default_block :
  models.AwsPrivateLink.Enabled sample.defaultAwsPrivateLink = types.BoolValue false
  /\ models.AwsPrivateLink.ConnectConsole sample.defaultAwsPrivateLink = types.BoolValue false
  /\ models.AwsPrivateLink.AllowedPrincipals sample.defaultAwsPrivateLink = types.ListValue []
  /\ controlplanev1beta2.ClusterUpdate.AwsPrivateLink
       (@cluster.generateClusterUpdate sample.collaborators
          (sample.model (Some sample.defaultAwsPrivateLink)))
     <> None.
Proof.
  repeat split. vm_compute. discriminate.
Qed.

(** C3, amended.  [generateClusterUpdate] leaves the [AwsPrivateLink] block
    out of the update when the model has no block or a block whose leaves
    are all null.  A block whose leaves are set to their defaults (enabled
    false, connect_console false, an empty list) is kept: the update carries
    a block with enabled false, connect_console false and no allowed
    principal. *)
Theorem generateClusterUpdate_aws_private_link `{Collaborators} (m : models.Cluster.t) :
  (models.Cluster.AwsPrivateLink m = None ->
   controlplanev1beta2.ClusterUpdate.AwsPrivateLink (cluster.generateClusterUpdate m) = None)
  /\ (forall b,
        models.Cluster.AwsPrivateLink m = Some b ->
        types.IsNull (models.AwsPrivateLink.Enabled b) = true ->
        types.IsNull (models.AwsPrivateLink.ConnectConsole b) = true ->
        types.IsNull (models.AwsPrivateLink.AllowedPrincipals b) = true ->
        controlplanev1beta2.ClusterUpdate.AwsPrivateLink (cluster.generateClusterUpdate m)
        = None)
  /\ (forall b,
        models.Cluster.AwsPrivateLink m = Some b ->
        models.AwsPrivateLink.Enabled b = types.BoolValue false ->
        models.AwsPrivateLink.ConnectConsole b = types.BoolValue false ->
        models.AwsPrivateLink.AllowedPrincipals b = types.ListValue [] ->
        controlplanev1beta2.ClusterUpdate.AwsPrivateLink (cluster.generateClusterUpdate m)
        = Some {| controlplanev1beta2.AWSPrivateLinkSpec.Enabled := false;
                  controlplanev1beta2.AWSPrivateLinkSpec.AllowedPrincipals := None;
                  controlplanev1beta2.AWSPrivateLinkSpec.ConnectConsole := false |}).
Proof.
  unfold cluster.generateClusterUpdate.
  cbn [controlplanev1beta2.ClusterUpdate.AwsPrivateLink].
  split; [|split].
  - intros ->. reflexivity.
  - intros b -> Hen Hcc Hap. apply unlessNil_nil.
    unfold cluster.isAwsPrivateLinkStructNil. now rewrite Hen, Hcc, Hap.
  - intros b -> Hen Hcc Hap. rewrite unlessNil_kept.
    + rewrite Hen, Hcc, Hap. reflexivity.
    + unfold cluster.isAwsPrivateLinkStructNil. rewrite Hen. reflexivity.
Qed.

Lemma generateClusterUpdate_aws_private_link_witness :
  controlplanev1beta2.ClusterUpdate.AwsPrivateLink
    (@cluster.generateClusterUpdate sample.collaborators
       (sample.model (Some sample.nullAwsPrivateLink)))
  = None
  /\ controlplanev1beta2.ClusterUpdate.AwsPrivateLink
       (@cluster.generateClusterUpdate sample.collaborators
          (sample.model (Some sample.defaultAwsPrivateLink)))
     = Some {| controlplanev1beta2.AWSPrivateLinkSpec.Enabled := false;
               controlplanev1beta2.AWSPrivateLinkSpec.AllowedPrincipals := None;
               controlplanev1beta2.AWSPrivateLinkSpec.ConnectConsole := false |}.
Proof.
  split.
  - apply (proj1 (proj2 (@generateClusterUpdate_aws_private_link sample.collaborators
                           (sample.model (Some sample.nullAwsPrivateLink))))
             sample.nullAwsPrivateLink); reflexivity.
  - apply (proj2 (proj2 (@generateClusterUpdate_aws_private_link sample.collaborators
                           (sample.model (Some sample.defaultAwsPrivateLink))))
             sample.defaultAwsPrivateLink); reflexivity.
Defined.

(** C6.  The request that [generateUpdateRequest] builds carries the
    identifier of the plan in its cluster payload, whatever the plan and the
    state are, and the path of the identifier is not in its update mask. *)
Theorem generateUpdateRequest_identifier `{Collaborators} (plan state : models.Cluster.t) :
  exists update mask,
    controlplanev1beta2.UpdateClusterRequest.Cluster
      (cluster.generateUpdateRequest plan state) = Some update
    /\ controlplanev1beta2.UpdateClusterRequest.UpdateMask
         (cluster.generateUpdateRequest plan state) = Some mask
    /\ controlplanev1beta2.ClusterUpdate.Id update
       = types.ValueString (models.Cluster.ID plan)
    /\ ~ In "id" (controlplanev1beta2.FieldMask.Paths mask).
Proof.
  unfold cluster.generateUpdateRequest. cbv zeta.
  destruct (utils.GenerateProtobufDiffAndUpdateMask
              (cluster.generateClusterUpdate plan) (cluster.generateClusterUpdate state))
    as [update mask] eqn:Hdiff.
  eexists. eexists. split; [reflexivity|]. split; [reflexivity|]. split.
  - reflexivity.
  - unfold utils.GenerateProtobufDiffAndUpdateMask in Hdiff. cbv zeta in Hdiff.
    injection Hdiff as _ <-. cbn [controlplanev1beta2.FieldMask.Paths].
    rewrite !in_app_iff.
    intros Hin.
    repeat (destruct Hin as [Hin | Hin];
            [apply diffField_path in Hin; discriminate Hin|]).
    apply diffField_path in Hin. discriminate Hin.
Qed.

Example generateUpdateRequest_drops_block :
  @cluster.generateUpdateRequest sample.collaborators
    (sample.model None)
    (sample.model (Some {| models.AwsPrivateLink.Enabled := types.BoolValue true;
                           models.AwsPrivateLink.ConnectConsole := types.BoolValue true;
                           models.AwsPrivateLink.AllowedPrincipals :=
                             types.ListValue [types.StringValue "123"] |}))
  = {| controlplanev1beta2.UpdateClusterRequest.Cluster :=
         Some {| controlplanev1beta2.ClusterUpdate.Id := "cluster-1";
                 controlplanev1beta2.ClusterUpdate.Name := EmptyString;
                 controlplanev1beta2.ClusterUpdate.ReadReplicaClusterIds := None;
                 controlplanev1beta2.ClusterUpdate.AwsPrivateLink := None;
                 controlplanev1beta2.ClusterUpdate.AzurePrivateLink := None;
                 controlplanev1beta2.ClusterUpdate.GcpPrivateServiceConnect := None;
                 controlplanev1beta2.ClusterUpdate.KafkaApi := None;
                 controlplanev1beta2.ClusterUpdate.HttpProxy := None;
                 controlplanev1beta2.ClusterUpdate.SchemaRegistry := None |};
       controlplanev1beta2.UpdateClusterRequest.UpdateMask :=
         Some {| controlplanev1beta2.FieldMask.Paths := ["aws_private_link"] |} |}.
Proof.
  vm_compute. reflexivity.
Qed.

(** C7.  In the model that [generateModel] builds, the allowed-principals
    list of a kept [aws_private_link] block is never null, and it is the
    explicit empty list when the backend reports no principal, whether
    [StringSliceToTypeList] renders a slice without elements as the null list
    or as the empty list.  The same holds of the allowed-subscriptions list
    of a kept [azure_private_link] block. *)
Theorem generateModel_allowed_lists_not_null `{Collaborators}
    (cfg : models.Cluster.t) (c : controlplanev1beta2.Cluster.t) :
  (forall m,
     models.Cluster.AwsPrivateLink (fst (cluster.generateModel cfg c)) = Some m ->
     types.IsNull (models.AwsPrivateLink.AllowedPrincipals m) = false
     /\ exists b,
          controlplanev1beta2.Cluster.AwsPrivateLink c = Some b
          /\ (Go.len (controlplanev1beta2.AWSPrivateLinkStatus.AllowedPrincipals b) = 0 ->
              StringSliceToTypeList (controlplanev1beta2.AWSPrivateLinkStatus.AllowedPrincipals b)
                = types.ListNull
              \/ StringSliceToTypeList
                   (controlplanev1beta2.AWSPrivateLinkStatus.AllowedPrincipals b)
                 = types.ListValue [] ->
              models.AwsPrivateLink.AllowedPrincipals m = types.ListValue []))
  /\ (forall m,
        models.Cluster.AzurePrivateLink (fst (cluster.generateModel cfg c)) = Some m ->
        types.IsNull (models.AzurePrivateLink.AllowedSubscriptions m) = false
        /\ exists b,
             controlplanev1beta2.Cluster.AzurePrivateLink c = Some b
             /\ (Go.len (controlplanev1beta2.AzurePrivateLinkStatus.AllowedSubscriptions b) = 0 ->
                 StringSliceToTypeList
                   (controlplanev1beta2.AzurePrivateLinkStatus.AllowedSubscriptions b)
                   = types.ListNull
                 \/ StringSliceToTypeList
                      (controlplanev1beta2.AzurePrivateLinkStatus.AllowedSubscriptions b)
                    = types.ListValue [] ->
                 models.AzurePrivateLink.AllowedSubscriptions m = types.ListValue [])).
Proof.
  unfold cluster.generateModel.
  cbn [fst models.Cluster.AwsPrivateLink models.Cluster.AzurePrivateLink].
  split.
  - intros m Hm. apply unlessNil_inv in Hm. destruct Hm as (b & Hb & _ & ->).
    cbn [models.AwsPrivateLink.AllowedPrincipals]. split.
    + apply nonNullList_not_null.
    + exists b. split; [exact Hb|]. intros _. apply nonNullList_of_empty.
  - intros m Hm. apply unlessNil_inv in Hm. destruct Hm as (b & Hb & _ & ->).
    cbn [models.AzurePrivateLink.AllowedSubscriptions]. split.
    + apply nonNullList_not_null.
    + exists b. split; [exact Hb|]. intros _. apply nonNullList_of_empty.
Qed.

Lemma generateModel_allowed_lists_not_null_witness :
  models.Cluster.AwsPrivateLink
    (fst (@cluster.generateModel sample.collaborators (sample.model None)
            (sample.backend (Some (sample.awsStatus true)) (Some (sample.azureStatus true)))))
  = Some {| models.AwsPrivateLink.Enabled := types.BoolValue true;
            models.AwsPrivateLink.ConnectConsole := types.BoolValue false;
            models.AwsPrivateLink.AllowedPrincipals := types.ListValue [] |}
  /\ types.IsNull (types.ListValue []) = false.
Proof.
  assert (Hm : models.Cluster.AwsPrivateLink
                 (fst (@cluster.generateModel sample.collaborators (sample.model None)
                         (sample.backend (Some (sample.awsStatus true))
                                         (Some (sample.azureStatus true)))))
               = Some {| models.AwsPrivateLink.Enabled := types.BoolValue true;
                         models.AwsPrivateLink.ConnectConsole := types.BoolValue false;
                         models.AwsPrivateLink.AllowedPrincipals := types.ListValue [] |})
    by reflexivity.
  split; [exact Hm|].
  apply (proj1 (proj1 (@generateModel_allowed_lists_not_null sample.collaborators
                         (sample.model None)
                         (sample.backend (Some (sample.awsStatus true))
                                         (Some (sample.azureStatus true)))) _ Hm)).
Defined.

(* ================================================================= *)
(** ** Credentials of the provider *)

Lemma Diagnostic_eqb_eq (x y : redpanda.Diagnostic.t) :
  redpanda.Diagnostic.eqb x y = true -> x = y.
Proof.
  destruct x as [sx mx dx], y as [sy my dy]. unfold redpanda.Diagnostic.eqb. cbn.
  rewrite !andb_true_iff, !String.eqb_eq. intros [[Hs ->] ->].
  destruct sx, sy; try discriminate Hs; reflexivity.
Qed.

Lemma Append_keeps (more : list redpanda.Diagnostic.t) :
  forall (diags : redpanda.Diagnostics) (d : redpanda.Diagnostic.t),
    In d diags -> In d (redpanda.Append diags more).
Proof.
  unfold redpanda.Append.
  induction more as [|x more IH]; intros diags d Hin; simpl; [exact Hin|].
  apply IH. destruct (redpanda.Contains diags x); [exact Hin|].
  apply in_or_app. now left.
Qed.

Lemma AddError_adds (diags : redpanda.Diagnostics) (summary detail : string) :
  In (redpanda.NewErrorDiagnostic summary detail) (redpanda.AddError diags summary detail).
Proof.
  unfold redpanda.AddError, redpanda.Append. simpl.
  destruct (redpanda.Contains diags _) eqn:Hc.
  - unfold redpanda.Contains in Hc. apply existsb_exists in Hc.
    destruct Hc as (x & Hin & Heq). apply Diagnostic_eqb_eq in Heq. now subst x.
  - apply in_or_app. right. now left.
Qed.

(** What one [switch] of [Configure] chooses. *)
Lemma pickCredential_spec (cfg env summary detail : string) (diags : redpanda.Diagnostics) :
  (cfg <> EmptyString ->
   redpanda.pickCredential cfg env summary detail diags = (cfg, diags))
  /\ (cfg = EmptyString -> env <> EmptyString ->
      redpanda.pickCredential cfg env summary detail diags = (env, diags))
  /\ (cfg = EmptyString -> env = EmptyString ->
      redpanda.pickCredential cfg env summary detail diags
      = (EmptyString, redpanda.AddError diags summary detail)).
Proof.
  unfold redpanda.pickCredential.
  destruct (String.eqb_spec cfg EmptyString) as [-> | Hcfg];
    destruct (String.eqb_spec env EmptyString) as [-> | Henv]; cbn;
    repeat split; intros; congruence.
Qed.

(** C9, as stated, fails: when decoding the provider block reports an
    error, [Configure] returns before it looks at any credential.  With the
    client id empty in the block and in the environment, no error diagnostic
    is added for it and nothing is handed to the resources. *)
Lemma Configure_stops_on_a_decoding_error :
  types.ValueString
    (models.Redpanda.ClientID (snd (redpanda.ConfigureRequest.Config_Get
                                      sample.undecodedRequest))) = EmptyString
  /\ redpanda.os_Getenv [] "CLIENT_ID" = EmptyString
  /\ ~ In (redpanda.NewErrorDiagnostic "no client id" "no client id found")
         (redpanda.ConfigureResponse.Diagnostics_
            (redpanda.Configure sample.provider [] sample.undecodedRequest
               sample.freshResponse))
  /\ redpanda.ConfigureResponse.ResourceData
       (redpanda.Configure sample.provider [] sample.undecodedRequest sample.freshResponse)
     = None.
Proof.
  split; [reflexivity|]. split; [reflexivity|]. split; [|reflexivity].
  vm_compute. intros [Heq | []]. discriminate Heq.
Qed.

(** C9, amended.  When the response holds no error diagnostic once those
    of decoding the provider block are appended to it, [Configure] hands to
    the resources, for the client id and for the client secret
    separately: the configured value when it is not empty, whatever the
    environment holds; the value of the environment variable (CLIENT_ID,
    CLIENT_SECRET) when the configured value is empty; and when both are
    empty the response holds the error diagnostic of that credential. *)
Theorem Configure_credentials
    (r : redpanda.Redpanda) (env : redpanda.Environ)
    (request : redpanda.ConfigureRequest.t) (response : redpanda.ConfigureResponse.t)
    (getDiags : redpanda.Diagnostics) (conf : models.Redpanda.t) :
  redpanda.ConfigureRequest.Config_Get request = (getDiags, conf) ->
  redpanda.HasError
    (redpanda.Append (redpanda.ConfigureResponse.Diagnostics_ response) getDiags) = false ->
  let cfgID := types.ValueString (models.Redpanda.ClientID conf) in
  let envID := redpanda.os_Getenv env "CLIENT_ID" in
  let cfgSec := types.ValueString (models.Redpanda.ClientSecret conf) in
  let envSec := redpanda.os_Getenv env "CLIENT_SECRET" in
  let out := redpanda.Configure r env request response in
  exists data,
    redpanda.ConfigureResponse.ResourceData out = Some data
    /\ (cfgID <> EmptyString -> utils.ResourceData.ClientID data = cfgID)
    /\ (cfgID = EmptyString -> utils.ResourceData.ClientID data = envID)
    /\ (cfgID = EmptyString -> envID = EmptyString ->
        In (redpanda.NewErrorDiagnostic "no client id" "no client id found")
           (redpanda.ConfigureResponse.Diagnostics_ out))
    /\ (cfgSec <> EmptyString -> utils.ResourceData.ClientSecret data = cfgSec)
    /\ (cfgSec = EmptyString -> utils.ResourceData.ClientSecret data = envSec)
    /\ (cfgSec = EmptyString -> envSec = EmptyString ->
        In (redpanda.NewErrorDiagnostic "no client secret" "no client secret found")
           (redpanda.ConfigureResponse.Diagnostics_ out)).
Proof.
  intros Hget Hok cfgID envID cfgSec envSec out.
  subst out. unfold redpanda.Configure. rewrite Hget, Hok.
  fold cfgID envID cfgSec envSec.
  set (d0 := redpanda.Append (redpanda.ConfigureResponse.Diagnostics_ response) getDiags).
  destruct (redpanda.pickCredential cfgID envID "no client id" "no client id found" d0)
    as [id d1] eqn:Hid.
  destruct (redpanda.pickCredential cfgSec envSec "no client secret"
              "no client secret found" d1) as [sec d2] eqn:Hsec.
  destruct (pickCredential_spec cfgID envID "no client id" "no client id found" d0)
    as (Hi1 & Hi2 & Hi3).
  destruct (pickCredential_spec cfgSec envSec "no client secret" "no client secret found" d1)
    as (Hs1 & Hs2 & Hs3).
  rewrite Hid in Hi1, Hi2, Hi3. rewrite Hsec in Hs1, Hs2, Hs3.
  eexists. split; [reflexivity|].
  cbn [utils.ResourceData.ClientID utils.ResourceData.ClientSecret
       redpanda.ConfigureResponse.Diagnostics_].
  repeat split.
  - intros Hc. specialize (Hi1 Hc). congruence.
  - intros Hc. destruct (string_dec envID EmptyString) as [He | He].
    + specialize (Hi3 Hc He). congruence.
    + specialize (Hi2 Hc He). congruence.
  - intros Hc He. specialize (Hi3 Hc He). injection Hi3 as _ Hd1.
    assert (Hin : In (redpanda.NewErrorDiagnostic "no client id" "no client id found") d1).
    { rewrite Hd1. apply AddError_adds. }
    destruct (string_dec cfgSec EmptyString) as [Hcs | Hcs].
    + destruct (string_dec envSec EmptyString) as [Hes | Hes].
      * specialize (Hs3 Hcs Hes). injection Hs3 as _ ->.
        unfold redpanda.AddError. now apply Append_keeps.
      * specialize (Hs2 Hcs Hes). injection Hs2 as _ ->. exact Hin.
    + specialize (Hs1 Hcs). injection Hs1 as _ ->. exact Hin.
  - intros Hc. specialize (Hs1 Hc). congruence.
  - intros Hc. destruct (string_dec envSec EmptyString) as [He | He].
    + specialize (Hs3 Hc He). congruence.
    + specialize (Hs2 Hc He). congruence.
  - intros Hc He. specialize (Hs3 Hc He). injection Hs3 as _ ->.
    apply AddError_adds.
Qed.

Example Configure_without_credentials :
  redpanda.Configure sample.provider [] (sample.request sample.emptyProviderBlock)
    sample.freshResponse
  = {| redpanda.ConfigureResponse.Diagnostics_ :=
         [redpanda.NewErrorDiagnostic "no client id" "no client id found";
          redpanda.NewErrorDiagnostic "no client secret" "no client secret found"];
       redpanda.ConfigureResponse.ResourceData :=
         Some {| utils.ResourceData.ClientID := EmptyString;
                 utils.ResourceData.ClientSecret := EmptyString;
                 utils.ResourceData.Version := "dev" |};
       redpanda.ConfigureResponse.DataSourceData :=
         Some {| utils.DatasourceData.ClientID := EmptyString;
                 utils.DatasourceData.ClientSecret := EmptyString;
                 utils.DatasourceData.Version := "dev" |} |}.
Proof.
  reflexivity.
Qed.

Lemma Configure_credentials_witness :
  exists data,
    redpanda.ConfigureResponse.ResourceData
      (redpanda.Configure sample.provider sample.environment
         (sample.request sample.providerBlock) sample.freshResponse)
    = Some data
    /\ utils.ResourceData.ClientID data = "id-from-config"
    /\ utils.ResourceData.ClientSecret data = "secret-from-env".
Proof.
  destruct (Configure_credentials sample.provider sample.environment
              (sample.request sample.providerBlock) sample.freshResponse
              [] sample.providerBlock eq_refl eq_refl)
    as (data & Hdata & Hid & _ & _ & _ & Hsec & _).
  exists data. split; [exact Hdata|]. split.
  - apply Hid. discriminate.
  - apply Hsec. reflexivity.
Defined.

(* ================================================================= *)
(** ** Trimming quotes *)

Lemma TrimLeft_spec (cutset s : string) :
  exists l,
    s = (l ++ strings.TrimLeft s cutset)%string
    /\ allBytesIn cutset l
    /\ (forall c, firstByte (strings.TrimLeft s cutset) = Some c ->
        strings.ContainsByte cutset c = false).
Proof.
  induction s as [|c s IH]; simpl.
  - exists EmptyString. repeat split. intros c H. discriminate H.
  - destruct (strings.ContainsByte cutset c) eqn:Hc.
    + destruct IH as (l & Hs & Hl & Hf).
      exists (String c l). simpl. rewrite <- Hs. repeat split; assumption.
    + exists EmptyString. repeat split. simpl. intros c' H. injection H as <-. exact Hc.
Qed.

Lemma TrimRight_spec (cutset s : string) :
  exists r,
    s = (strings.TrimRight s cutset ++ r)%string
    /\ allBytesIn cutset r
    /\ (forall c, lastByte (strings.TrimRight s cutset) = Some c ->
        strings.ContainsByte cutset c = false)
    /\ (forall c, firstByte (strings.TrimRight s cutset) = Some c -> firstByte s = Some c).
Proof.
  induction s as [|c s IH].
  - exists EmptyString. simpl. repeat split; intros c H; discriminate H.
  - destruct IH as (r & Hs & Hr & Hl & Hf). cbn [strings.TrimRight].
    destruct (strings.TrimRight s cutset) as [|d t] eqn:Ht.
    + simpl in Hs. subst r.
      destruct (strings.ContainsByte cutset c) eqn:Hc.
      * exists (String c s). simpl. repeat split; try assumption; intros c' H; discriminate H.
      * exists s. simpl. repeat split; try assumption.
        -- intros c' H. injection H as <-. exact Hc.
        -- intros c' H. exact H.
    + exists r. simpl. rewrite Hs at 1. simpl. repeat split; try assumption.
      intros c' H. exact H.
Qed.

(** [strings.Trim] takes off a run of cutset bytes at each end and nothing
    else, and what is left neither begins nor ends with a cutset byte. *)
Lemma Trim_spec (cutset s : string) :
  exists l r,
    s = (l ++ strings.Trim s cutset ++ r)%string
    /\ allBytesIn cutset l
    /\ allBytesIn cutset r
    /\ edgesOutside cutset (strings.Trim s cutset).
Proof.
  unfold strings.Trim.
  destruct (TrimLeft_spec cutset s) as (l & Hs & Hl & Hf).
  destruct (TrimRight_spec cutset (strings.TrimLeft s cutset)) as (r & Ht & Hr & Hlast & Hfirst).
  exists l, r. split; [|split; [exact Hl | split; [exact Hr|]]].
  - rewrite Hs at 1. rewrite Ht at 1. reflexivity.
  - split; [|exact Hlast]. intros c Hc. apply Hf, Hfirst, Hc.
Qed.

(** X1.  [TrimmedStringValue] always yields a known string, got from its
    argument by taking off double quotes at both ends and nothing else: the
    argument is a run of double quotes, then the value, then a run of double
    quotes, and the value neither begins nor ends with a double quote. *)
Theorem TrimmedStringValue_strips_the_quotes (s : string) :
  exists v l r,
    utils.TrimmedStringValue s = types.StringValue v
    /\ s = (l ++ v ++ r)%string
    /\ allBytesIn utils.dquote l
    /\ allBytesIn utils.dquote r
    /\ edgesOutside utils.dquote v.
Proof.
  destruct (Trim_spec utils.dquote s) as (l & r & Hs & Hl & Hr & He).
  exists (strings.Trim s utils.dquote), l, r. repeat split; try assumption; apply He.
Qed.

Lemma TypeListToStringSlice_fold `{Collaborators} (l : list types.String) :
  forall acc : Go.slice string,
    fold_left (fun s v => Go.append s (strings.Trim (String_String v) utils.dquote)) l acc
    = match l with
      | [] => acc
      | _ => Some (Go.elems acc
                   ++ map (fun v => strings.Trim (String_String v) utils.dquote) l)
      end.
Proof.
  induction l as [|v l IH]; intros acc; [reflexivity|].
  cbn [fold_left]. rewrite IH. destruct l as [|v' l].
  - reflexivity.
  - unfold Go.append. cbn [Go.elems map]. rewrite <- app_assoc. reflexivity.
Qed.

(** X2.  [TypeListToStringSlice] returns nil, not an empty slice, for a
    list without elements (null, unknown or empty); otherwise it returns as
    many strings as the list has elements, in order, each one the rendering
    of its element with the double quotes at both ends taken off. *)
Theorem TypeListToStringSlice_elements `{Collaborators} (t : types.List) :
  Go.elems (utils.TypeListToStringSlice t)
  = map (fun v => strings.Trim (String_String v) utils.dquote) (types.Elements t)
  /\ (utils.TypeListToStringSlice t = None <-> types.Elements t = [])
  /\ Go.len (utils.TypeListToStringSlice t) = length (types.Elements t)
  /\ (forall x, In x (Go.elems (utils.TypeListToStringSlice t)) ->
      edgesOutside utils.dquote x).
Proof.
  unfold utils.TypeListToStringSlice. rewrite TypeListToStringSlice_fold.
  assert (Helems : Go.elems
            match types.Elements t with
            | [] => None
            | _ :: _ => Some (Go.elems None
                ++ map (fun v => strings.Trim (String_String v) utils.dquote) (types.Elements t))
            end
          = map (fun v => strings.Trim (String_String v) utils.dquote) (types.Elements t)).
  { destruct (types.Elements t); reflexivity. }
  split; [exact Helems|]. split; [|split].
  - destruct (types.Elements t); split; intros Heq; try reflexivity; discriminate Heq.
  - unfold Go.len. rewrite Helems. apply length_map.
  - intros x Hx. rewrite Helems in Hx. apply in_map_iff in Hx.
    destruct Hx as (v & <- & _).
    destruct (Trim_spec utils.dquote (String_String v)) as (l & r & _ & _ & _ & He).
    exact He.
Qed.

(* ================================================================= *)
(** ** Names of enumeration values *)

Lemma switch_result {A : Type} (x : string) (cases : list (string * A)) (default v : A) :
  Go.switch x cases default = v -> In (x, v) cases \/ v = default.
Proof.
  induction cases as [|[k a] cases IH]; simpl; intros Hv.
  - right. now symmetry.
  - destruct (String.eqb_spec x k) as [-> | _].
    + left. left. now rewrite Hv.
    + destruct (IH Hv) as [Hin | Hd]; [left; right; exact Hin | right; exact Hd].
Qed.

(** The cases of a parser whose table is [cases]: every case that succeeds
    is a pair of a printed name and its value. *)
Ltac by_cases Hparse :=
  apply switch_result in Hparse; cbn [In] in Hparse;
  repeat (destruct Hparse as [Hparse | Hparse]);
  try discriminate Hparse; try contradiction;
  try (injection Hparse as <- <-; split; [reflexivity | intros n Hn; discriminate Hn]).

Ltac refused Hparse :=
  apply switch_result in Hparse; cbn [In] in Hparse;
  repeat (destruct Hparse as [Hparse | Hparse]);
  try discriminate Hparse; try contradiction;
  injection Hparse as -> ->; split; reflexivity.

Ltac print_parse parser :=
  unfold printParse; split; [| split; [| split]];
  [ let e := fresh "e" in
    let He := fresh "He" in
    intros e He; destruct e; try reflexivity; exfalso; eapply He; reflexivity
  | intros ?; reflexivity
  | let Hp := fresh "Hp" in
    intros ? ? Hp; unfold parser in Hp; by_cases Hp
  | let Hp := fresh "Hp" in
    intros ? ? ? Hp; unfold parser in Hp; refused Hp ].

(** X3.  For cloud provider, cluster type and connection type: the text
    that the printer produces for a named value parses back to that value; a
    value without a name prints as "unspecified", which parses to
    UNSPECIFIED, so such a value does not come back.  A text that the parser
    does not know is read as UNSPECIFIED, so that printing what was parsed
    gives either the lower-case form of the text or "unspecified". *)
Theorem cluster_setting_names_round_trip `{strings.Unicode} :
  (forall p, (forall n, p <> cloudv1beta1.CloudProvider_other n) ->
     utils.StringToCloudProvider (utils.CloudProviderToString p) = p)
  /\ (forall n,
        utils.CloudProviderToString (cloudv1beta1.CloudProvider_other n) = "unspecified"
        /\ utils.StringToCloudProvider
             (utils.CloudProviderToString (cloudv1beta1.CloudProvider_other n))
           = cloudv1beta1.CloudProvider_CLOUD_PROVIDER_UNSPECIFIED)
  /\ (forall t, (forall n, t <> cloudv1beta1.Cluster_TYPE_other n) ->
        utils.StringToClusterType (utils.ClusterTypeToString t) = t)
  /\ (forall n,
        utils.ClusterTypeToString (cloudv1beta1.Cluster_TYPE_other n) = "unspecified"
        /\ utils.StringToClusterType
             (utils.ClusterTypeToString (cloudv1beta1.Cluster_TYPE_other n))
           = cloudv1beta1.Cluster_TYPE_UNSPECIFIED)
  /\ (forall t, (forall n, t <> cloudv1beta1.Cluster_CONNECTION_TYPE_other n) ->
        utils.StringToConnectionType (utils.ConnectionTypeToString t) = t)
  /\ (forall n,
        utils.ConnectionTypeToString (cloudv1beta1.Cluster_CONNECTION_TYPE_other n)
        = "unspecified"
        /\ utils.StringToConnectionType
             (utils.ConnectionTypeToString (cloudv1beta1.Cluster_CONNECTION_TYPE_other n))
           = cloudv1beta1.Cluster_CONNECTION_TYPE_UNSPECIFIED)
  /\ (forall s,
        utils.CloudProviderToString (utils.StringToCloudProvider s) = strings.ToLower s
        \/ utils.CloudProviderToString (utils.StringToCloudProvider s) = "unspecified")
  /\ (forall s,
        utils.ClusterTypeToString (utils.StringToClusterType s) = strings.ToLower s
        \/ utils.ClusterTypeToString (utils.StringToClusterType s) = "unspecified")
  /\ (forall s,
        utils.ConnectionTypeToString (utils.StringToConnectionType s) = strings.ToLower s
        \/ utils.ConnectionTypeToString (utils.StringToConnectionType s) = "unspecified").
Proof.
  split; [|split; [|split; [|split; [|split; [|split; [|split; [|split]]]]]]].
  - intros p Hp. destruct p; try reflexivity. exfalso. eapply Hp. reflexivity.
  - intros n. split; reflexivity.
  - intros t Ht. destruct t; try reflexivity. exfalso. eapply Ht. reflexivity.
  - intros n. split; reflexivity.
  - intros t Ht. destruct t; try reflexivity. exfalso. eapply Ht. reflexivity.
  - intros n. split; reflexivity.
  - intros s. unfold utils.StringToCloudProvider. cbn [Go.switch].
    destruct (String.eqb_spec (strings.ToLower s) "aws") as [-> | _]; [now left|].
    destruct (String.eqb_spec (strings.ToLower s) "gcp") as [-> | _]; [now left | now right].
  - intros s. unfold utils.StringToClusterType. cbn [Go.switch].
    destruct (String.eqb_spec (strings.ToLower s) "dedicated") as [-> | _]; [now left|].
    destruct (String.eqb_spec (strings.ToLower s) "cloud") as [-> | _]; [now left | now right].
  - intros s. unfold utils.StringToConnectionType. cbn [Go.switch].
    destruct (String.eqb_spec (strings.ToLower s) "public") as [-> | _]; [now left|].
    destruct (String.eqb_spec (strings.ToLower s) "private") as [-> | _]; [now left | now right].
Qed.

Lemma cluster_setting_names_round_trip_witness :
  @utils.StringToClusterType sample.unicode
    (utils.ClusterTypeToString cloudv1beta1.Cluster_TYPE_BYOC)
  = cloudv1beta1.Cluster_TYPE_BYOC.
Proof.
  apply (proj1 (proj2 (proj2 (@cluster_setting_names_round_trip sample.unicode)))
           cloudv1beta1.Cluster_TYPE_BYOC).
  intros n. discriminate.
Defined.

(** X4.  The SASL mechanism that [StringToUserMechanism] reads from the
    text that [UserMechanismToString] prints for a named mechanism is that
    mechanism; a mechanism without a name prints as "unspecified", which
    reads as UNSPECIFIED; [UserMechanismToString] panics on a nil pointer. *)
Theorem user_mechanism_round_trip `{strings.Unicode} :
  (forall m, (forall n, m <> dataplanev1alpha1.SASLMechanism_SASL_MECHANISM_other n) ->
     exists text,
       utils.UserMechanismToString (Some m) = Go.Done text
       /\ utils.StringToUserMechanism text = m)
  /\ (forall n,
        utils.UserMechanismToString
          (Some (dataplanev1alpha1.SASLMechanism_SASL_MECHANISM_other n))
        = Go.Done "unspecified"
        /\ utils.StringToUserMechanism "unspecified"
           = dataplanev1alpha1.SASLMechanism_SASL_MECHANISM_UNSPECIFIED)
  /\ utils.UserMechanismToString None = Go.Panic.
Proof.
  split; [|split; [|reflexivity]].
  - intros m Hm. destruct m; try (eexists; split; reflexivity).
    exfalso. eapply Hm. reflexivity.
  - intros n. split; reflexivity.
Qed.

Lemma user_mechanism_round_trip_witness :
  exists text,
    utils.UserMechanismToString
      (Some dataplanev1alpha1.SASLMechanism_SASL_MECHANISM_SCRAM_SHA_512) = Go.Done text
    /\ @utils.StringToUserMechanism sample.unicode text
       = dataplanev1alpha1.SASLMechanism_SASL_MECHANISM_SCRAM_SHA_512.
Proof.
  apply (proj1 (@user_mechanism_round_trip sample.unicode)
           dataplanev1alpha1.SASLMechanism_SASL_MECHANISM_SCRAM_SHA_512).
  intros n. discriminate.
Defined.

(** X5.  Parser and printer agree for each of the four ACL enumerations:
    resource type, resource pattern type, operation and permission type. *)
Theorem ACL_names_round_trip `{strings.Unicode} :
  printParse utils.StringToACLResourceType utils.ACLResourceTypeToString
    dataplanev1alpha1.ACL_RESOURCE_TYPE_other "ACL_ResourceType"
  /\ printParse utils.StringToACLResourcePatternType utils.ACLResourcePatternTypeToString
       dataplanev1alpha1.ACL_RESOURCE_PATTERN_TYPE_other "ACL_ResourcePatternType"
  /\ printParse utils.StringToACLOperation utils.ACLOperationToString
       dataplanev1alpha1.ACL_OPERATION_other "ACL_Operation"
  /\ printParse utils.StringToACLPermissionType utils.ACLPermissionTypeToString
       dataplanev1alpha1.ACL_PERMISSION_TYPE_other "ACL_PermissionType".
Proof.
  split; [|split; [|split]].
  - print_parse @utils.StringToACLResourceType.
  - print_parse @utils.StringToACLResourcePatternType.
  - print_parse @utils.StringToACLOperation.
  - print_parse @utils.StringToACLPermissionType.
Qed.

Lemma ACL_names_round_trip_witness :
  @utils.StringToACLOperation sample.unicode "describe"
  = (dataplanev1alpha1.ACL_OPERATION_DESCRIBE, None)
  /\ utils.ACLOperationToString dataplanev1alpha1.ACL_OPERATION_DESCRIBE
     = @strings.ToUpper sample.unicode "describe".
Proof.
  assert (Hp : @utils.StringToACLOperation sample.unicode "describe"
               = (dataplanev1alpha1.ACL_OPERATION_DESCRIBE, None)) by reflexivity.
  split; [exact Hp|].
  destruct (@ACL_names_round_trip sample.unicode) as (_ & _ & (_ & _ & Hback & _) & _).
  exact (proj1 (Hback "describe" dataplanev1alpha1.ACL_OPERATION_DESCRIBE Hp)).
Defined.

(** X6.  Parser and printer of the source of a topic configuration agree. *)
Theorem TopicConfigurationSource_round_trip `{strings.Unicode} :
  printParse utils.StringToTopicConfigurationSource utils.TopicConfigurationSourceToString
    dataplanev1alpha1.Topic_Configuration_SOURCE_other "Topic_Configuration_Source".
Proof.
  print_parse @utils.StringToTopicConfigurationSource.
Qed.

Lemma TopicConfigurationSource_round_trip_witness :
  @utils.StringToTopicConfigurationSource sample.unicode "default_config"
  = (dataplanev1alpha1.Topic_Configuration_SOURCE_DEFAULT_CONFIG, None)
  /\ utils.TopicConfigurationSourceToString
       dataplanev1alpha1.Topic_Configuration_SOURCE_DEFAULT_CONFIG
     = @strings.ToUpper sample.unicode "default_config".
Proof.
  assert (Hp : @utils.StringToTopicConfigurationSource sample.unicode "default_config"
               = (dataplanev1alpha1.Topic_Configuration_SOURCE_DEFAULT_CONFIG, None))
    by reflexivity.
  split; [exact Hp|].
  destruct (@TopicConfigurationSource_round_trip sample.unicode) as (_ & _ & Hback & _).
  exact (proj1 (Hback "default_config"
                  dataplanev1alpha1.Topic_Configuration_SOURCE_DEFAULT_CONFIG Hp)).
Defined.

(* ================================================================= *)
(** ** Lookups by name *)

Lemma string_app_assoc (a b c : string) :
  ((a ++ b) ++ c)%string = (a ++ b ++ c)%string.
Proof.
  induction a as [|x a IH]; simpl; [reflexivity | now rewrite IH].
Qed.

Lemma string_app_nil_r (a : string) : (a ++ EmptyString)%string = a.
Proof.
  induction a as [|x a IH]; simpl; [reflexivity | now rewrite IH].
Qed.

(** A message that ends with "not found" is one that [IsNotFound] accepts. *)
Lemma IsNotFound_suffix (before : string) :
  utils.IsNotFound (Go.errorString (before ++ "not found")%string) = true.
Proof.
  unfold utils.IsNotFound. cbn [Go.Error].
  assert (Hc : strings.Contains (before ++ "not found")%string "not found" = true).
  { apply Contains_spec. exists before, EmptyString. reflexivity. }
  now rewrite Hc.
Qed.

Lemma firstNamed_found {A : Type} (GetName : option A -> string) (n : string)
    (l : list (option A)) (v : option A) :
  utils.firstNamed GetName n l = Some v ->
  exists before after,
    l = before ++ v :: after
    /\ GetName v = n
    /\ Forall (fun x => GetName x <> n) before.
Proof.
  induction l as [|x l IH]; simpl; [discriminate|].
  destruct (String.eqb_spec (GetName x) n) as [Heq | Hne].
  - intros Hv. injection Hv as <-. exists [], l. repeat split; [exact Heq | constructor].
  - intros Hv. destruct (IH Hv) as (before & after & -> & Hn & Hall).
    exists (x :: before), after. repeat split; [exact Hn | constructor; assumption].
Qed.

Lemma firstNamed_missing {A : Type} (GetName : option A -> string) (n : string)
    (l : list (option A)) :
  utils.firstNamed GetName n l = None <-> Forall (fun x => GetName x <> n) l.
Proof.
  induction l as [|x l IH]; simpl.
  - split; [constructor | reflexivity].
  - destruct (String.eqb_spec (GetName x) n) as [Heq | Hne]; split.
    + discriminate.
    + intros Hall. inversion Hall; subst. contradiction.
    + intros Hnone. constructor; [exact Hne | now apply IH].
    + intros Hall. inversion Hall; subst. now apply IH.
Qed.

(** X7.  [FindNamespaceByName] hands back the error of the client as it
    is.  When the client gives no error, the result is the first namespace of
    the answer whose name is [n], with a nil error; and when no namespace of
    the answer has that name, the result is nil with the error
    "namespace <n> not found". *)
Theorem FindNamespaceByName_first_match
    (ctx : runtime.Context) (n : string) (client : services.NamespaceServiceClient)
    (ns : option cloudv1beta1.ListNamespacesResponse.t) (err : option Go.error) :
  services.ListNamespaces client ctx
    {| cloudv1beta1.ListNamespacesRequest.Filter_ :=
         Some {| cloudv1beta1.Filter.Name := n |} |} = (ns, err) ->
  (forall e, err = Some e -> utils.FindNamespaceByName ctx n client = (None, Some e))
  /\ (err = None ->
      (exists v before after,
          utils.FindNamespaceByName ctx n client = (v, None)
          /\ Go.elems (cloudv1beta1.GetNamespaces ns) = before ++ v :: after
          /\ cloudv1beta1.Namespace_GetName v = n
          /\ Forall (fun x => cloudv1beta1.Namespace_GetName x <> n) before)
      \/ (Forall (fun x => cloudv1beta1.Namespace_GetName x <> n)
            (Go.elems (cloudv1beta1.GetNamespaces ns))
          /\ utils.FindNamespaceByName ctx n client
             = (None, Some (Go.errorString ("namespace " ++ n ++ " not found")%string)))).
Proof.
  intros Hreply. unfold utils.FindNamespaceByName. rewrite Hreply. split.
  - intros e ->. reflexivity.
  - intros ->.
    destruct (utils.firstNamed cloudv1beta1.Namespace_GetName n
                (Go.elems (cloudv1beta1.GetNamespaces ns))) as [v|] eqn:Hfind.
    + left. destruct (firstNamed_found _ _ _ _ Hfind) as (before & after & Hl & Hn & Hall).
      exists v, before, after. repeat split; assumption.
    + right. split; [now apply firstNamed_missing | reflexivity].
Qed.

Lemma FindNamespaceByName_first_match_witness :
  utils.FindNamespaceByName sample.ctx "prod" sample.namespaces
  = (None, Some (Go.errorString "namespace prod not found")).
Proof.
  destruct (FindNamespaceByName_first_match sample.ctx "prod" sample.namespaces _ _ eq_refl)
    as [_ H].
  destruct (H eq_refl) as [(v & before & after & _ & Hl & Hn & _) | [_ Hres]].
  - exfalso. destruct before as [|x [|y before]]; cbn in Hl;
      injection Hl as Hv Hrest; try discriminate Hrest.
    subst v. discriminate Hn.
  - exact Hres.
Defined.

(** X8.  When the client answers without an error and nothing in the
    answer bears the name that is looked up, each of the five lookups returns
    nil with an error that [IsNotFound] accepts. *)
Theorem lookups_miss_with_a_not_found_error (ctx : runtime.Context) (n : string) :
  (forall client ns,
     services.ListNamespaces client ctx
       {| cloudv1beta1.ListNamespacesRequest.Filter_ :=
            Some {| cloudv1beta1.Filter.Name := n |} |} = (ns, None) ->
     Forall (fun x => cloudv1beta1.Namespace_GetName x <> n)
       (Go.elems (cloudv1beta1.GetNamespaces ns)) ->
     exists e, utils.FindNamespaceByName ctx n client = (None, Some e)
               /\ utils.IsNotFound e = true)
  /\ (forall client ns,
        services.ListNetworks client ctx
          {| cloudv1beta1.ListNetworksRequest.Filter_ :=
               Some {| cloudv1beta1.Filter.Name := n |} |} = (ns, None) ->
        Forall (fun x => cloudv1beta1.Network_GetName x <> n)
          (Go.elems (cloudv1beta1.GetNetworks ns)) ->
        exists e, utils.FindNetworkByName ctx n client = (None, Some e)
                  /\ utils.IsNotFound e = true)
  /\ (forall client ns,
        services.ListClusters client ctx
          {| cloudv1beta1.ListClustersRequest.Filter_ :=
               Some {| cloudv1beta1.Filter.Name := n |} |} = (ns, None) ->
        Forall (fun x => cloudv1beta1.Cluster_GetName x <> n)
          (Go.elems (cloudv1beta1.GetClusters ns)) ->
        exists e, utils.FindClusterByName ctx n client = (None, Some e)
                  /\ utils.IsNotFound e = true)
  /\ (forall client usrs,
        services.ListUsers client ctx
          {| dataplanev1alpha1.ListUsersRequest.Name := Some n |} = (usrs, None) ->
        Forall (fun x => dataplanev1alpha1.User_GetName x <> n)
          (Go.elems (dataplanev1alpha1.GetUsers usrs)) ->
        exists e, utils.FindUserByName ctx n client = (None, Some e)
                  /\ utils.IsNotFound e = true)
  /\ (forall client topics,
        services.ListTopics client ctx
          {| dataplanev1alpha1.ListTopicsRequest.Filter_ :=
               Some {| dataplanev1alpha1.ListTopicsRequest_Filter.Name := n |} |}
        = (topics, None) ->
        Forall (fun x => dataplanev1alpha1.Topic_GetName x <> n)
          (Go.elems (dataplanev1alpha1.GetTopics topics)) ->
        exists e, utils.FindTopicByName ctx n client = (None, Some e)
                  /\ utils.IsNotFound e = true).
Proof.
  split; [|split; [|split; [|split]]].
  - intros client ns Hreply Hmiss. unfold utils.FindNamespaceByName. rewrite Hreply.
    apply firstNamed_missing in Hmiss. rewrite Hmiss.
    eexists. split; [reflexivity|].
    replace ("namespace " ++ n ++ " not found")%string
      with (("namespace " ++ n ++ " ") ++ "not found")%string
      by (rewrite !string_app_assoc; reflexivity).
    apply IsNotFound_suffix.
  - intros client ns Hreply Hmiss. unfold utils.FindNetworkByName. rewrite Hreply.
    apply firstNamed_missing in Hmiss. rewrite Hmiss.
    eexists. split; [reflexivity|]. apply (IsNotFound_suffix "network ").
  - intros client ns Hreply Hmiss. unfold utils.FindClusterByName. rewrite Hreply.
    apply firstNamed_missing in Hmiss. rewrite Hmiss.
    eexists. split; [reflexivity|]. apply (IsNotFound_suffix "cluster ").
  - intros client usrs Hreply Hmiss. unfold utils.FindUserByName, utils.StringToStringPointer.
    rewrite Hreply. apply firstNamed_missing in Hmiss. rewrite Hmiss.
    eexists. split; [reflexivity|]. apply (IsNotFound_suffix "user ").
  - intros client topics Hreply Hmiss. unfold utils.FindTopicByName. rewrite Hreply.
    apply firstNamed_missing in Hmiss. rewrite Hmiss.
    eexists. split; [reflexivity|].
    replace ("topic " ++ n ++ " not found")%string
      with (("topic " ++ n ++ " ") ++ "not found")%string
      by (rewrite !string_app_assoc; reflexivity).
    apply IsNotFound_suffix.
Qed.

Lemma lookups_miss_with_a_not_found_error_witness :
  exists e,
    utils.FindNamespaceByName sample.ctx "prod" sample.namespaces = (None, Some e)
    /\ utils.IsNotFound e = true.
Proof.
  apply (proj1 (lookups_miss_with_a_not_found_error sample.ctx "prod") sample.namespaces _
           eq_refl).
  repeat constructor. discriminate.
Defined.

(* ================================================================= *)
(** ** From the model back to configuration synonyms *)

Lemma source_refused `{strings.Unicode} (s : string) (err : Go.error) :
  snd (utils.StringToTopicConfigurationSource s) = Some err ->
  err = utils.unknownError "Topic_Configuration_Source" s.
Proof.
  destruct (utils.StringToTopicConfigurationSource s) as [e o] eqn:Hp.
  cbn [snd]. intros ->. unfold utils.StringToTopicConfigurationSource in Hp.
  assert (Hboth : e = dataplanev1alpha1.Topic_Configuration_SOURCE_other (-1)
                  /\ err = utils.unknownError "Topic_Configuration_Source" s)
    by (refused Hp).
  apply Hboth.
Qed.

Lemma appendConfigSynonyms_all `{strings.Unicode} (l : list models.TopicConfigSynonym.t) :
  Forall sourceParses l ->
  forall acc,
    utils.appendConfigSynonyms (map Some l) (Some acc)
    = Go.Done (Some (acc ++ map (fun v => Some (toConfigSynonym v)) l), None).
Proof.
  induction 1 as [|v l Hv _ IH]; intros acc; cbn [map utils.appendConfigSynonyms].
  - now rewrite app_nil_r.
  - unfold sourceParses in Hv. unfold toConfigSynonym at 1.
    destruct (utils.StringToTopicConfigurationSource
                (types.ValueString (models.TopicConfigSynonym.Source v))) as [src o].
    cbn [snd] in Hv. subst o. unfold Go.append. cbn [Go.elems fst].
    rewrite IH, <- app_assoc. reflexivity.
Qed.

Lemma appendConfigSynonyms_stops `{strings.Unicode}
    (before : list models.TopicConfigSynonym.t) (v : models.TopicConfigSynonym.t)
    (after : list models.TopicConfigSynonym.t) :
  Forall sourceParses before ->
  ~ sourceParses v ->
  forall acc,
    utils.appendConfigSynonyms (map Some (before ++ v :: after)) (Some acc)
    = Go.Done (None,
               Some (utils.unknownError "Topic_Configuration_Source"
                       (types.ValueString (models.TopicConfigSynonym.Source v)))).
Proof.
  intros Hbefore Hv.
  induction Hbefore as [|x before Hx _ IH]; intros acc;
    cbn [app map utils.appendConfigSynonyms].
  - unfold sourceParses in Hv.
    destruct (utils.StringToTopicConfigurationSource
                (types.ValueString (models.TopicConfigSynonym.Source v))) as [src [err|]] eqn:Hp.
    + rewrite (source_refused (types.ValueString (models.TopicConfigSynonym.Source v)) err);
        [reflexivity | now rewrite Hp].
    + exfalso. apply Hv. reflexivity.
  - unfold sourceParses in Hx.
    destruct (utils.StringToTopicConfigurationSource
                (types.ValueString (models.TopicConfigSynonym.Source x))) as [src o].
    cbn [snd] in Hx. subst o. unfold Go.append. apply IH.
Qed.

(** X9.  Feeding the result of [ConfigSynonymsToSlice] to
    [SliceToConfigSynonyms] panics as soon as there is one synonym: the
    slice begins with the nil pointers that [make] left, and the loop reads
    the source of each entry without a nil test.  Without any synonym the
    result is an empty slice and no error. *)
Theorem SliceToConfigSynonyms_after_ConfigSynonymsToSlice `{strings.Unicode}
    (synonyms : Go.slice dataplanev1alpha1.Topic_Configuration_ConfigSynonym.t) :
  (0 < Go.len synonyms ->
   utils.SliceToConfigSynonyms (utils.ConfigSynonymsToSlice synonyms) = Go.Panic)
  /\ (Go.len synonyms = 0 ->
      utils.SliceToConfigSynonyms (utils.ConfigSynonymsToSlice synonyms)
      = Go.Done (Some [], None)).
Proof.
  unfold utils.ConfigSynonymsToSlice. cbv zeta. rewrite make_then_append.
  unfold utils.SliceToConfigSynonyms. cbn [Go.elems]. split; intros Hlen.
  - destruct (Go.len synonyms) as [|n]; [lia|]. reflexivity.
  - unfold Go.len in *. rewrite Hlen.
    destruct (Go.elems synonyms); [reflexivity | discriminate Hlen].
Qed.

Lemma SliceToConfigSynonyms_after_ConfigSynonymsToSlice_witness :
  0 < Go.len (Some [sample.synonym])
  /\ @utils.SliceToConfigSynonyms sample.unicode
       (utils.ConfigSynonymsToSlice (Some [sample.synonym])) = Go.Panic.
Proof.
  assert (H : 0 < Go.len (Some [sample.synonym])) by (unfold Go.len; simpl; lia).
  split; [exact H|].
  apply (proj1 (@SliceToConfigSynonyms_after_ConfigSynonymsToSlice sample.unicode
                  (Some [sample.synonym])) H).
Defined.

(** X10.  On a slice of [n] synonyms, none of them nil:
    when every source is one that the parser knows, [SliceToConfigSynonyms]
    returns no error and a slice of [2 n] entries, [n] nil pointers followed
    by the [n] converted synonyms; otherwise it returns a nil slice and the
    error of the first source that the parser does not know. *)
Theorem SliceToConfigSynonyms_result `{strings.Unicode}
    (l : list models.TopicConfigSynonym.t) :
  (Forall sourceParses l ->
   utils.SliceToConfigSynonyms (Some (map Some l))
   = Go.Done (Some (repeat None (length l) ++ map (fun v => Some (toConfigSynonym v)) l),
              None))
  /\ (forall before v after,
        l = before ++ v :: after ->
        Forall sourceParses before ->
        ~ sourceParses v ->
        utils.SliceToConfigSynonyms (Some (map Some l))
        = Go.Done (None,
                   Some (utils.unknownError "Topic_Configuration_Source"
                           (types.ValueString (models.TopicConfigSynonym.Source v))))).
Proof.
  unfold utils.SliceToConfigSynonyms, Go.make, Go.len. cbn [Go.elems].
  rewrite length_map. split.
  - intros Hall. apply appendConfigSynonyms_all. exact Hall.
  - intros before v after -> Hbefore Hv. apply appendConfigSynonyms_stops; assumption.
Qed.

Lemma SliceToConfigSynonyms_result_witness :
  @utils.SliceToConfigSynonyms sample.unicode
    (Some [Some (sample.modelSynonym "default_config")])
  = Go.Done (Some [None; Some (@toConfigSynonym sample.unicode
                                 (sample.modelSynonym "default_config"))], None)
  /\ @utils.SliceToConfigSynonyms sample.unicode
       (Some [Some (sample.modelSynonym "default_config");
              Some (sample.modelSynonym "from the broker")])
     = Go.Done (None, Some (Go.errorString
                              "unknown Topic_Configuration_Source: from the broker")).
Proof.
  split.
  - apply (proj1 (@SliceToConfigSynonyms_result sample.unicode
                    [sample.modelSynonym "default_config"])).
    repeat constructor.
  - apply (proj2 (@SliceToConfigSynonyms_result sample.unicode
                    [sample.modelSynonym "default_config";
                     sample.modelSynonym "from the broker"])
             [sample.modelSynonym "default_config"]
             (sample.modelSynonym "from the broker") [] eq_refl).
    + repeat constructor.
    + unfold sourceParses. vm_compute. discriminate.
Defined.

(* ================================================================= *)
(** ** Conversions in cluster.go *)

Lemma range_append_any {A B : Type} (f : A -> B) (l : list A) :
  forall acc : Go.slice B,
    fold_left (fun output v => Go.append output (f v)) l acc
    = match l with
      | [] => acc
      | _ => Some (Go.elems acc ++ map f l)
      end.
Proof.
  induction l as [|v l IH]; intros acc; [reflexivity|].
  cbn [fold_left]. rewrite IH. destruct l as [|v' l].
  - reflexivity.
  - unfold Go.append. cbn [Go.elems map]. rewrite <- app_assoc. reflexivity.
Qed.

Lemma gcp_struct_of_model_elems
    (accept : Go.slice controlplanev1beta2.GCPPrivateServiceConnectConsumer.t) :
  Go.elems (cluster.gcpConnectConsumerModelToStruct
              (cluster.gcpConnectConsumerStructToModel accept))
  = Go.elems accept.
Proof.
  unfold cluster.gcpConnectConsumerStructToModel, cluster.gcpConnectConsumerModelToStruct,
    Go.range.
  rewrite !range_append_any.
  destruct (Go.elems accept) as [|a l] eqn:Ha; [reflexivity|].
  cbn [Go.elems app]. rewrite map_map.
  transitivity (map (fun x => x) (a :: l)); [|apply map_id].
  apply map_ext. intros [src]. reflexivity.
Qed.

(** X11.  The two conversions of a GCP consumer accept list are inverse
    of each other on the entries.  Towards the model the result is never nil;
    towards the message it is nil exactly when there is no entry. *)
Theorem gcpConnectConsumer_round_trip :
  (forall accept,
     Go.elems (cluster.gcpConnectConsumerStructToModel
                 (cluster.gcpConnectConsumerModelToStruct accept))
     = Go.elems accept)
  /\ (forall accept,
        Go.elems (cluster.gcpConnectConsumerModelToStruct
                    (cluster.gcpConnectConsumerStructToModel accept))
        = Go.elems accept)
  /\ (forall accept, cluster.gcpConnectConsumerStructToModel accept <> None)
  /\ (forall accept,
        cluster.gcpConnectConsumerModelToStruct accept = None <-> Go.elems accept = []).
Proof.
  unfold cluster.gcpConnectConsumerStructToModel, cluster.gcpConnectConsumerModelToStruct,
    Go.range.
  repeat split.
  - intros accept. rewrite !range_append_any.
    destruct (Go.elems accept) as [|a l] eqn:Ha; [reflexivity|].
    cbn [Go.elems app]. rewrite map_map.
    transitivity (map (fun x => x) (a :: l)); [|apply map_id].
    apply map_ext. intros [src]. reflexivity.
  - intros accept. apply gcp_struct_of_model_elems.
  - intros accept. rewrite range_append_any. destruct (Go.elems accept); discriminate.
  - rewrite range_append_any. destruct (Go.elems accept); [reflexivity | discriminate].
  - intros Hnil. rewrite range_append_any, Hnil. reflexivity.
Qed.

(** X12.  [toMtlsSpec] never returns nil.  For an absent mTLS block, or
    one whose three leaves are null, it returns the disabled block with two
    empty lists, which [toMtlsModel] reads back as absent.  A block that
    [toMtlsModel] keeps has a known enabled flag, the one of the message. *)
Theorem mtls_conversions `{Collaborators} :
  (forall m, cluster.toMtlsSpec m <> None)
  /\ (forall m, cluster.isMtlsStructNil m = true ->
        cluster.toMtlsSpec m
        = Some {| controlplanev1beta2.MTLSSpec.Enabled := false;
                  controlplanev1beta2.MTLSSpec.CaCertificatesPem := Some [];
                  controlplanev1beta2.MTLSSpec.PrincipalMappingRules := Some [] |}
        /\ cluster.toMtlsModel (cluster.toMtlsSpec m) = None)
  /\ (forall spec m, cluster.toMtlsModel spec = Some m ->
        exists s, spec = Some s
                  /\ models.Mtls.Enabled m
                     = types.BoolValue (controlplanev1beta2.MTLSSpec.Enabled s)
                  /\ cluster.isMtlsStructNil (Some m) = false).
Proof.
  split; [|split].
  - intros m. unfold cluster.toMtlsSpec.
    destruct (cluster.isMtlsStructNil m) eqn:Hnil; [discriminate|].
    destruct m; [discriminate | discriminate Hnil].
  - intros m Hnil. unfold cluster.toMtlsSpec. rewrite Hnil. split; reflexivity.
  - intros spec m. unfold cluster.toMtlsModel.
    destruct (cluster.isMtlsSpecNil spec); [discriminate|].
    destruct spec as [s|]; [|discriminate].
    intros Hm. injection Hm as <-. exists s. repeat split.
Qed.

Lemma mtls_conversions_witness :
  @cluster.toMtlsModel sample.collaborators (@cluster.toMtlsSpec sample.collaborators None)
  = None.
Proof.
  apply (proj1 (proj2 (@mtls_conversions sample.collaborators)) None eq_refl).
Defined.

Section StateToUpdate.

Context `{Collaborators}.

Lemma unlessNil_twice {A B C : Type} (isNilA : option A -> bool) (isNilB : option B -> bool)
    (block : option A) (build : A -> B) (send : B -> C) :
  isNilA None = true ->
  isNilB None = true ->
  (forall a, isNilB (Some (build a)) = false) ->
  cluster.unlessNil isNilB (cluster.unlessNil isNilA block build) send
  = cluster.unlessNil isNilA block (fun a => send (build a)).
Proof.
  intros HA HB Hkept. unfold cluster.unlessNil at 2 3.
  destruct (isNilA block) eqn:Hnil; cbn [negb].
  - apply unlessNil_nil. exact HB.
  - destruct block as [a|].
    + apply unlessNil_kept. apply Hkept.
    + rewrite HA in Hnil. discriminate Hnil.
Qed.

Lemma wrapMtls_isMtlsNil {A : Type} `{cluster.MtlsContainer A}
    (wrap : option models.Mtls.t -> A) (spec : option controlplanev1beta2.MTLSSpec.t) :
  (forall m, cluster.FieldByName_Mtls (wrap m) = m) ->
  cluster.isMtlsNil (cluster.wrapMtls wrap (cluster.toMtlsModel spec))
  = cluster.isMtlsSpecNil spec.
Proof.
  intros Hfield. unfold cluster.toMtlsModel.
  destruct (cluster.isMtlsSpecNil spec) eqn:Hnil; [reflexivity|].
  destruct spec as [s|]; [|discriminate Hnil].
  cbn [cluster.wrapMtls cluster.isMtlsNil]. rewrite Hfield. reflexivity.
Qed.

Lemma endpoint_sent {A B : Type} `{cluster.MtlsContainer A}
    (wrap : option models.Mtls.t -> A) (send : A -> B)
    (spec : option controlplanev1beta2.MTLSSpec.t) :
  (forall m, cluster.FieldByName_Mtls (wrap m) = m) ->
  cluster.unlessNil cluster.isMtlsNil (cluster.wrapMtls wrap (cluster.toMtlsModel spec)) send
  = None
  <-> cluster.isMtlsSpecNil spec = true.
Proof.
  intros Hfield. unfold cluster.unlessNil. rewrite (wrapMtls_isMtlsNil wrap spec Hfield).
  unfold cluster.toMtlsModel.
  destruct (cluster.isMtlsSpecNil spec) eqn:Hnil; cbn [negb].
  - split; reflexivity.
  - destruct spec as [s|]; [|discriminate Hnil].
    cbn [cluster.wrapMtls]. split; discriminate.
Qed.

End StateToUpdate.

(** X13.  The state model that [generateModel] builds from a cluster of
    the backend, turned into an update by [generateClusterUpdate]: each of
    the three private-link blocks is in the update exactly when the nil test
    on the block of the backend fails, and then with the flags of the backend
    (and, for GCP, its consumer accept list); each of the three endpoint
    blocks is in the update exactly when the backend reports an mTLS block
    that is not all-default. *)
Theorem update_of_generated_model `{Collaborators}
    (cfg : models.Cluster.t) (c : controlplanev1beta2.Cluster.t) :
  let update := cluster.generateClusterUpdate (fst (cluster.generateModel cfg c)) in
  controlplanev1beta2.ClusterUpdate.Id update = controlplanev1beta2.Cluster.Id c
  /\ controlplanev1beta2.ClusterUpdate.Name update = controlplanev1beta2.Cluster.Name c
  /\ controlplanev1beta2.ClusterUpdate.AwsPrivateLink update
     = cluster.unlessNil cluster.isAwsPrivateLinkSpecNil
         (controlplanev1beta2.Cluster.AwsPrivateLink c)
         (fun b =>
            {| controlplanev1beta2.AWSPrivateLinkSpec.Enabled :=
                 controlplanev1beta2.AWSPrivateLinkStatus.Enabled b;
               controlplanev1beta2.AWSPrivateLinkSpec.AllowedPrincipals :=
                 utils.TypeListToStringSlice
                   (cluster.nonNullList
                      (controlplanev1beta2.AWSPrivateLinkStatus.AllowedPrincipals b));
               controlplanev1beta2.AWSPrivateLinkSpec.ConnectConsole :=
                 controlplanev1beta2.AWSPrivateLinkStatus.ConnectConsole b |})
  /\ controlplanev1beta2.ClusterUpdate.AzurePrivateLink update
     = cluster.unlessNil cluster.isAzurePrivateLinkSpecNil
         (controlplanev1beta2.Cluster.AzurePrivateLink c)
         (fun b =>
            {| controlplanev1beta2.AzurePrivateLinkSpec.Enabled :=
                 controlplanev1beta2.AzurePrivateLinkStatus.Enabled b;
               controlplanev1beta2.AzurePrivateLinkSpec.AllowedSubscriptions :=
                 utils.TypeListToStringSlice
                   (cluster.nonNullList
                      (controlplanev1beta2.AzurePrivateLinkStatus.AllowedSubscriptions b));
               controlplanev1beta2.AzurePrivateLinkSpec.ConnectConsole :=
                 controlplanev1beta2.AzurePrivateLinkStatus.ConnectConsole b |})
  /\ (forall g,
        controlplanev1beta2.ClusterUpdate.GcpPrivateServiceConnect update = Some g ->
        exists b,
          controlplanev1beta2.Cluster.GcpPrivateServiceConnect c = Some b
          /\ cluster.isGcpPrivateServiceConnectSpecNil (Some b) = false
          /\ controlplanev1beta2.GCPPrivateServiceConnectSpec.Enabled g
             = controlplanev1beta2.GCPPrivateServiceConnectStatus.Enabled b
          /\ controlplanev1beta2.GCPPrivateServiceConnectSpec.GlobalAccessEnabled g
             = controlplanev1beta2.GCPPrivateServiceConnectStatus.GlobalAccessEnabled b
          /\ Go.elems (controlplanev1beta2.GCPPrivateServiceConnectSpec.ConsumerAcceptList g)
             = Go.elems (controlplanev1beta2.GCPPrivateServiceConnectStatus.ConsumerAcceptList b))
  /\ (controlplanev1beta2.ClusterUpdate.GcpPrivateServiceConnect update = None <->
      cluster.isGcpPrivateServiceConnectSpecNil
        (controlplanev1beta2.Cluster.GcpPrivateServiceConnect c) = true)
  /\ (controlplanev1beta2.ClusterUpdate.KafkaApi update = None <->
      cluster.isMtlsSpecNil
        (controlplanev1beta2.KafkaApi_GetMtls (controlplanev1beta2.Cluster.KafkaApi c)) = true)
  /\ (controlplanev1beta2.ClusterUpdate.HttpProxy update = None <->
      cluster.isMtlsSpecNil
        (controlplanev1beta2.HttpProxy_GetMtls (controlplanev1beta2.Cluster.HttpProxy c)) = true)
  /\ (controlplanev1beta2.ClusterUpdate.SchemaRegistry update = None <->
      cluster.isMtlsSpecNil
        (controlplanev1beta2.SchemaRegistry_GetMtls
           (controlplanev1beta2.Cluster.SchemaRegistry c)) = true).
Proof.
  cbv zeta. unfold cluster.generateModel, cluster.generateClusterUpdate.
  cbn [fst models.Cluster.ID models.Cluster.Name models.Cluster.AwsPrivateLink
       models.Cluster.AzurePrivateLink models.Cluster.GcpPrivateServiceConnect
       models.Cluster.KafkaAPI models.Cluster.HTTPProxy models.Cluster.SchemaRegistry
       controlplanev1beta2.ClusterUpdate.Id controlplanev1beta2.ClusterUpdate.Name
       controlplanev1beta2.ClusterUpdate.AwsPrivateLink
       controlplanev1beta2.ClusterUpdate.AzurePrivateLink
       controlplanev1beta2.ClusterUpdate.GcpPrivateServiceConnect
       controlplanev1beta2.ClusterUpdate.KafkaApi controlplanev1beta2.ClusterUpdate.HttpProxy
       controlplanev1beta2.ClusterUpdate.SchemaRegistry types.ValueString].
  split; [reflexivity|]. split; [reflexivity|].
  split; [apply unlessNil_twice; reflexivity|].
  split; [apply unlessNil_twice; reflexivity|].
  split; [|split].
  - intros g. rewrite unlessNil_twice by reflexivity. intros Hg.
    apply unlessNil_inv in Hg. destruct Hg as (b & Hb & Hnil & ->).
    exists b. rewrite <- Hb. repeat split; try assumption.
    cbn. apply gcp_struct_of_model_elems.
  - rewrite unlessNil_twice by reflexivity. unfold cluster.unlessNil.
    destruct (cluster.isGcpPrivateServiceConnectSpecNil _) eqn:Hnil; cbn [negb].
    + split; reflexivity.
    + destruct (controlplanev1beta2.Cluster.GcpPrivateServiceConnect c);
        [split; discriminate | discriminate Hnil].
  - split; [|split]; apply endpoint_sent; reflexivity.
Qed.

Lemma update_of_generated_model_witness :
  controlplanev1beta2.ClusterUpdate.GcpPrivateServiceConnect
    (@cluster.generateClusterUpdate sample.collaborators
       (fst (@cluster.generateModel sample.collaborators (sample.model None)
               (sample.backend (Some (sample.awsStatus true)) None))))
  = None.
Proof.
  apply (proj1 (proj2 (proj2 (proj2 (proj2 (proj2
           (@update_of_generated_model sample.collaborators (sample.model None)
              (sample.backend (Some (sample.awsStatus true)) None)))))))).
  reflexivity.
Defined.

(** X14.  [generateClusterRequest] fails exactly when one of the two
    parsers fails: on the cloud provider first, with the error "unable to
    parse cloud provider: " followed by the message of the parser, then on
    the cluster type, with "unable to parse cluster type: " and the message.
    When both parse it returns a request and a nil error. *)
Theorem generateClusterRequest_errors
    `{Collaborators} `{strings.Unicode} `{cluster.RequestHelpers} (model : models.Cluster.t) :
  (forall p e,
     cluster.StringToCloudProviderOrError
       (types.ValueString (models.Cluster.CloudProvider model)) = (p, Some e) ->
     cluster.generateClusterRequest model
     = (None, Some (Go.errorString ("unable to parse cloud provider: " ++ Go.Error e)%string)))
  /\ (forall p t e,
        cluster.StringToCloudProviderOrError
          (types.ValueString (models.Cluster.CloudProvider model)) = (p, None) ->
        cluster.StringToClusterTypeOrError
          (types.ValueString (models.Cluster.ClusterType model)) = (t, Some e) ->
        cluster.generateClusterRequest model
        = (None, Some (Go.errorString ("unable to parse cluster type: " ++ Go.Error e)%string)))
  /\ (forall p t,
        cluster.StringToCloudProviderOrError
          (types.ValueString (models.Cluster.CloudProvider model)) = (p, None) ->
        cluster.StringToClusterTypeOrError
          (types.ValueString (models.Cluster.ClusterType model)) = (t, None) ->
        exists request,
          cluster.generateClusterRequest model = (Some request, None)
          /\ controlplanev1beta2.ClusterCreate.CloudProvider request = p
          /\ controlplanev1beta2.ClusterCreate.Type_ request = t).
Proof.
  unfold cluster.generateClusterRequest. split; [|split].
  - intros p e ->. reflexivity.
  - intros p t e -> ->. reflexivity.
  - intros p t -> ->. eexists. split; [reflexivity|]. split; reflexivity.
Qed.

Lemma generateClusterRequest_errors_witness :
  @cluster.generateClusterRequest sample.collaborators sample.unicode sample.requestHelpers
    (cluster.generateMinimalModel "cluster-1")
  = (None, Some (Go.errorString "unable to parse cloud provider: provider not supported")).
Proof.
  apply (proj1 (@generateClusterRequest_errors sample.collaborators sample.unicode
                  sample.requestHelpers (cluster.generateMinimalModel "cluster-1"))
           cloudv1beta1.CloudProvider_CLOUD_PROVIDER_UNSPECIFIED
           (Go.errorString "provider not supported") eq_refl).
Defined.

(** X15.  A create request and an update built from the same model carry
    the same name and the same three private-link blocks.  They differ on
    the endpoint blocks: the create request has a Kafka API block whenever
    the model has one, with an mTLS block in it, while the update has one
    only if the nil test on the mTLS leaves of the model fails; a block that
    the update has is the block of the create request. *)
Theorem create_request_and_update_agree
    `{Collaborators} `{strings.Unicode} `{cluster.RequestHelpers}
    (model : models.Cluster.t) (request : controlplanev1beta2.ClusterCreate.t) :
  cluster.generateClusterRequest model = (Some request, None) ->
  let update := cluster.generateClusterUpdate model in
  controlplanev1beta2.ClusterCreate.Name request
  = controlplanev1beta2.ClusterUpdate.Name update
  /\ controlplanev1beta2.ClusterCreate.AwsPrivateLink request
     = controlplanev1beta2.ClusterUpdate.AwsPrivateLink update
  /\ controlplanev1beta2.ClusterCreate.AzurePrivateLink request
     = controlplanev1beta2.ClusterUpdate.AzurePrivateLink update
  /\ controlplanev1beta2.ClusterCreate.GcpPrivateServiceConnect request
     = controlplanev1beta2.ClusterUpdate.GcpPrivateServiceConnect update
  /\ (forall k, models.Cluster.KafkaAPI model = Some k ->
        exists spec mtls,
          controlplanev1beta2.ClusterCreate.KafkaApi request = Some spec
          /\ controlplanev1beta2.KafkaAPISpec.Mtls spec = Some mtls)
  /\ (forall k, controlplanev1beta2.ClusterUpdate.KafkaApi update = Some k ->
        controlplanev1beta2.ClusterCreate.KafkaApi request = Some k)
  /\ (forall k, controlplanev1beta2.ClusterUpdate.HttpProxy update = Some k ->
        controlplanev1beta2.ClusterCreate.HttpProxy request = Some k)
  /\ (forall k, controlplanev1beta2.ClusterUpdate.SchemaRegistry update = Some k ->
        controlplanev1beta2.ClusterCreate.SchemaRegistry request = Some k).
Proof.
  unfold cluster.generateClusterRequest.
  destruct (cluster.StringToCloudProviderOrError _) as [p [e|]]; [discriminate|].
  destruct (cluster.StringToClusterTypeOrError _) as [t [e|]]; [discriminate|].
  intros Hreq. injection Hreq as <-. cbv zeta. unfold cluster.generateClusterUpdate.
  cbn [controlplanev1beta2.ClusterCreate.Name controlplanev1beta2.ClusterUpdate.Name
       controlplanev1beta2.ClusterCreate.AwsPrivateLink
       controlplanev1beta2.ClusterUpdate.AwsPrivateLink
       controlplanev1beta2.ClusterCreate.AzurePrivateLink
       controlplanev1beta2.ClusterUpdate.AzurePrivateLink
       controlplanev1beta2.ClusterCreate.GcpPrivateServiceConnect
       controlplanev1beta2.ClusterUpdate.GcpPrivateServiceConnect
       controlplanev1beta2.ClusterCreate.KafkaApi controlplanev1beta2.ClusterUpdate.KafkaApi
       controlplanev1beta2.ClusterCreate.HttpProxy controlplanev1beta2.ClusterUpdate.HttpProxy
       controlplanev1beta2.ClusterCreate.SchemaRegistry
       controlplanev1beta2.ClusterUpdate.SchemaRegistry].
  repeat (split; [reflexivity|]).
  split; [|split; [|split]].
  - intros k ->.
    destruct (cluster.toMtlsSpec (models.KafkaAPI.Mtls k)) as [mtls|] eqn:Hm.
    + eexists. exists mtls. split; reflexivity.
    + exfalso. revert Hm. unfold cluster.toMtlsSpec.
      destruct (cluster.isMtlsStructNil _) eqn:Hnil; [discriminate|].
      destruct (models.KafkaAPI.Mtls k); [discriminate | discriminate Hnil].
  - intros k Hk. apply unlessNil_inv in Hk. destruct Hk as (b & -> & _ & ->). reflexivity.
  - intros k Hk. apply unlessNil_inv in Hk. destruct Hk as (b & -> & _ & ->). reflexivity.
  - intros k Hk. apply unlessNil_inv in Hk. destruct Hk as (b & -> & _ & ->). reflexivity.
Qed.

Lemma create_request_and_update_agree_witness :
  exists request,
    @cluster.generateClusterRequest sample.collaborators sample.unicode sample.requestHelpers
      (sample.model (Some sample.defaultAwsPrivateLink)) = (Some request, None)
    /\ controlplanev1beta2.ClusterCreate.AwsPrivateLink request
       = controlplanev1beta2.ClusterUpdate.AwsPrivateLink
           (@cluster.generateClusterUpdate sample.collaborators
              (sample.model (Some sample.defaultAwsPrivateLink))).
Proof.
  eexists. split; [reflexivity|].
  apply (proj1 (proj2 (@create_request_and_update_agree sample.collaborators sample.unicode
                         sample.requestHelpers
                         (sample.model (Some sample.defaultAwsPrivateLink)) _ eq_refl))).
Defined.

(* ================================================================= *)
(** ** Diagnostics of the provider *)

Lemma HasError_Append (more : list redpanda.Diagnostic.t) :
  forall diags : redpanda.Diagnostics,
    redpanda.HasError (redpanda.Append diags more)
    = redpanda.HasError diags || redpanda.HasError more.
Proof.
  unfold redpanda.Append.
  induction more as [|x more IH]; intros diags; cbn [fold_left].
  - unfold redpanda.HasError at 3. simpl. now rewrite orb_false_r.
  - rewrite IH.
    assert (Hstep : redpanda.HasError
                      (if redpanda.Contains diags x then diags else diags ++ [x])
                    = redpanda.HasError diags || redpanda.HasError [x]).
    { destruct (redpanda.Contains diags x) eqn:Hc.
      - destruct (redpanda.HasError [x]) eqn:Hx; [|now rewrite orb_false_r].
        rewrite orb_true_r. unfold redpanda.Contains in Hc.
        apply existsb_exists in Hc. destruct Hc as (y & Hin & Heq).
        apply Diagnostic_eqb_eq in Heq. subst y.
        unfold redpanda.HasError in *. apply existsb_exists. exists x. split; [exact Hin|].
        simpl in Hx. now rewrite orb_false_r in Hx.
      - unfold redpanda.HasError. apply existsb_app. }
    rewrite Hstep, <- orb_assoc. f_equal.
    unfold redpanda.HasError. simpl. now rewrite orb_false_r.
Qed.

Lemma pickCredential_HasError (cfg env summary detail : string) (diags : redpanda.Diagnostics) :
  redpanda.HasError (snd (redpanda.pickCredential cfg env summary detail diags))
  = redpanda.HasError diags || (String.eqb cfg EmptyString && String.eqb env EmptyString).
Proof.
  unfold redpanda.pickCredential.
  destruct (String.eqb cfg EmptyString), (String.eqb env EmptyString); cbn [andb negb snd];
    try (now rewrite orb_false_r).
  unfold redpanda.AddError. rewrite HasError_Append. reflexivity.
Qed.

(** X16.  After [Configure] the response holds an error diagnostic
    exactly when it held one before, or decoding the provider block raised
    one, or the client id is missing (empty in the block and in CLIENT_ID),
    or the client secret is missing (empty in the block and in
    CLIENT_SECRET). *)
Theorem Configure_reports_an_error_iff
    (r : redpanda.Redpanda) (env : redpanda.Environ)
    (request : redpanda.ConfigureRequest.t) (response : redpanda.ConfigureResponse.t)
    (getDiags : redpanda.Diagnostics) (conf : models.Redpanda.t) :
  redpanda.ConfigureRequest.Config_Get request = (getDiags, conf) ->
  redpanda.HasError
    (redpanda.ConfigureResponse.Diagnostics_ (redpanda.Configure r env request response))
  = true
  <-> redpanda.HasError (redpanda.ConfigureResponse.Diagnostics_ response) = true
      \/ redpanda.HasError getDiags = true
      \/ (types.ValueString (models.Redpanda.ClientID conf) = EmptyString
          /\ redpanda.os_Getenv env "CLIENT_ID" = EmptyString)
      \/ (types.ValueString (models.Redpanda.ClientSecret conf) = EmptyString
          /\ redpanda.os_Getenv env "CLIENT_SECRET" = EmptyString).
Proof.
  intros Hget. unfold redpanda.Configure. rewrite Hget.
  set (d0 := redpanda.Append (redpanda.ConfigureResponse.Diagnostics_ response) getDiags).
  assert (Hd0 : redpanda.HasError d0
                = redpanda.HasError (redpanda.ConfigureResponse.Diagnostics_ response)
                  || redpanda.HasError getDiags) by apply HasError_Append.
  destruct (redpanda.HasError d0) eqn:Herr.
  - cbn [redpanda.ConfigureResponse.Diagnostics_]. rewrite Herr.
    symmetry in Hd0. apply orb_true_iff in Hd0. split; [intros _|reflexivity].
    destruct Hd0 as [Hd | Hd]; [left | right; left]; exact Hd.
  - symmetry in Hd0. apply orb_false_iff in Hd0. destruct Hd0 as [Hresp Hdec].
    set (cfgID := types.ValueString (models.Redpanda.ClientID conf)).
    set (envID := redpanda.os_Getenv env "CLIENT_ID").
    set (cfgSec := types.ValueString (models.Redpanda.ClientSecret conf)).
    set (envSec := redpanda.os_Getenv env "CLIENT_SECRET").
    pose proof (pickCredential_HasError cfgID envID "no client id" "no client id found" d0)
      as Hid.
    destruct (redpanda.pickCredential cfgID envID "no client id" "no client id found" d0)
      as [id d1].
    pose proof (pickCredential_HasError cfgSec envSec "no client secret"
                  "no client secret found" d1) as Hsec.
    destruct (redpanda.pickCredential cfgSec envSec "no client secret"
                "no client secret found" d1) as [sec d2].
    cbn [snd] in Hid, Hsec. cbn [redpanda.ConfigureResponse.Diagnostics_].
    rewrite Hsec, Hid, Herr, Hresp, Hdec. cbn [orb].
    rewrite orb_true_iff, !andb_true_iff, !String.eqb_eq.
    intuition discriminate.
Qed.

Lemma Configure_reports_an_error_iff_witness :
  redpanda.HasError
    (redpanda.ConfigureResponse.Diagnostics_
       (redpanda.Configure sample.provider [("CLIENT_ID", "id-from-env")]
          (sample.request sample.providerBlock) sample.freshResponse))
  = true.
Proof.
  apply (proj2 (Configure_reports_an_error_iff sample.provider [("CLIENT_ID", "id-from-env")]
                  (sample.request sample.providerBlock) sample.freshResponse
                  [] sample.providerBlock eq_refl)).
  right. right. right. split; reflexivity.
Defined.

(** X17.  What [Configure] hands to the data sources does not depend on
    the environment: when the provider block decodes without an error it is
    the client id and the client secret of the block as they are, also
    where the resources get the value of an environment variable.  When
    decoding raised an error, [Configure] sets nothing: both data fields of
    the response stay as they were and the diagnostics are those of the
    response followed by those of the decoding. *)
Theorem Configure_data_source_credentials
    (r : redpanda.Redpanda) (request : redpanda.ConfigureRequest.t)
    (response : redpanda.ConfigureResponse.t)
    (getDiags : redpanda.Diagnostics) (conf : models.Redpanda.t) :
  redpanda.ConfigureRequest.Config_Get request = (getDiags, conf) ->
  (forall env1 env2,
     redpanda.ConfigureResponse.DataSourceData (redpanda.Configure r env1 request response)
     = redpanda.ConfigureResponse.DataSourceData (redpanda.Configure r env2 request response))
  /\ (redpanda.HasError
        (redpanda.Append (redpanda.ConfigureResponse.Diagnostics_ response) getDiags) = false ->
      forall env,
        redpanda.ConfigureResponse.DataSourceData (redpanda.Configure r env request response)
        = Some {| utils.DatasourceData.ClientID :=
                    types.ValueString (models.Redpanda.ClientID conf);
                  utils.DatasourceData.ClientSecret :=
                    types.ValueString (models.Redpanda.ClientSecret conf);
                  utils.DatasourceData.Version := redpanda.version r |})
  /\ (redpanda.HasError
        (redpanda.Append (redpanda.ConfigureResponse.Diagnostics_ response) getDiags) = true ->
      forall env,
        redpanda.Configure r env request response
        = {| redpanda.ConfigureResponse.Diagnostics_ :=
               redpanda.Append (redpanda.ConfigureResponse.Diagnostics_ response) getDiags;
             redpanda.ConfigureResponse.ResourceData :=
               redpanda.ConfigureResponse.ResourceData response;
             redpanda.ConfigureResponse.DataSourceData :=
               redpanda.ConfigureResponse.DataSourceData response |}).
Proof.
  intros Hget.
  assert (Hok : redpanda.HasError
                  (redpanda.Append (redpanda.ConfigureResponse.Diagnostics_ response) getDiags)
                = false ->
                forall env,
                  redpanda.ConfigureResponse.DataSourceData
                    (redpanda.Configure r env request response)
                  = Some {| utils.DatasourceData.ClientID :=
                              types.ValueString (models.Redpanda.ClientID conf);
                            utils.DatasourceData.ClientSecret :=
                              types.ValueString (models.Redpanda.ClientSecret conf);
                            utils.DatasourceData.Version := redpanda.version r |}).
  { intros Hclean env. unfold redpanda.Configure. rewrite Hget, Hclean.
    destruct (redpanda.pickCredential _ _ "no client id" _ _) as [id d1].
    destruct (redpanda.pickCredential _ _ "no client secret" _ _) as [sec d2].
    reflexivity. }
  assert (Hbad : redpanda.HasError
                   (redpanda.Append (redpanda.ConfigureResponse.Diagnostics_ response) getDiags)
                 = true ->
                 forall env,
                   redpanda.Configure r env request response
                   = {| redpanda.ConfigureResponse.Diagnostics_ :=
                          redpanda.Append (redpanda.ConfigureResponse.Diagnostics_ response)
                            getDiags;
                        redpanda.ConfigureResponse.ResourceData :=
                          redpanda.ConfigureResponse.ResourceData response;
                        redpanda.ConfigureResponse.DataSourceData :=
                          redpanda.ConfigureResponse.DataSourceData response |}).
  { intros Herr env. unfold redpanda.Configure. rewrite Hget, Herr. reflexivity. }
  split; [|split; assumption].
  intros env1 env2.
  destruct (redpanda.HasError
              (redpanda.Append (redpanda.ConfigureResponse.Diagnostics_ response) getDiags))
    eqn:Hd.
  - rewrite (Hbad eq_refl env1), (Hbad eq_refl env2). reflexivity.
  - rewrite (Hok eq_refl env1), (Hok eq_refl env2). reflexivity.
Qed.

Lemma Configure_data_source_credentials_witness :
  redpanda.ConfigureResponse.DataSourceData
    (redpanda.Configure sample.provider sample.environment
       (sample.request sample.emptyProviderBlock) sample.freshResponse)
  = Some {| utils.DatasourceData.ClientID := EmptyString;
            utils.DatasourceData.ClientSecret := EmptyString;
            utils.DatasourceData.Version := "dev" |}
  /\ option_map utils.ResourceData.ClientID
       (redpanda.ConfigureResponse.ResourceData
          (redpanda.Configure sample.provider sample.environment
             (sample.request sample.emptyProviderBlock) sample.freshResponse))
     = Some "id-from-env".
Proof.
  split; [|reflexivity].
  apply (proj1 (proj2 (Configure_data_source_credentials sample.provider
                         (sample.request sample.emptyProviderBlock) sample.freshResponse
                         [] sample.emptyProviderBlock eq_refl)) eq_refl sample.environment).
Defined.

(* ================================================================= *)
(** ** How long a wait lasts and what decides its result *)

Section Waiting.

Import runtime.
Local Open Scope Z_scope.

Variable ctx : Context.
Variable op : option cloudv1beta1.Operation.t.
Variable timeout : Z.
Variable client : OperationServiceClient.
Variable startTime : Z.
Variable maxLatency : Z.
Variable maxLag : Z.

Hypothesis latency_bounded : forall n, latency client n <= maxLatency.

Let req : cloudv1beta1.GetOperationRequest.t :=
  {| cloudv1beta1.GetOperationRequest.Id := cloudv1beta1.GetId op |}.

Lemma pollLoop_elapsed (fuel : nat) :
  forall (w : World) (r : option Go.error) (w' : World),
    (forall n, lag w n <= maxLag) ->
    clock w - startTime <= timeout + utils.pollInterval + maxLag ->
    utils.pollLoop fuel ctx op timeout client startTime w = (utils.Returned r, w') ->
    clock w' - startTime <= timeout + utils.pollInterval + maxLag + maxLatency.
Proof.
  induction fuel as [|fuel IH]; intros w r w' Hlag Hentry Hrun.
  - cbn in Hrun. unfold ret in Hrun. discriminate Hrun.
  - rewrite pollLoop_step in Hrun. cbv zeta in Hrun.
    assert (Hfetch : clock (snd (GetOperation client ctx req w)) - startTime
                     <= timeout + utils.pollInterval + maxLag + maxLatency).
    { unfold GetOperation. destruct (answer client (fetches w) ctx req) as [o' f'].
      cbn [snd clock]. specialize (latency_bounded (fetches w)). lia. }
    fold req in Hrun.
    destruct (answer client (fetches w) ctx req) as [o [msg|]] eqn:Hans.
    + injection Hrun as _ <-. exact Hfetch.
    + destruct (utils.CheckOpsState o).
      * destruct (cloudv1beta1.GetError o) as [st|];
          [destruct (utils.IsNotFound _)|]; injection Hrun as _ <-; exact Hfetch.
      * destruct (Z.ltb_spec timeout (clock (snd (GetOperation client ctx req w)) - startTime))
          as [Hlate | Hearly].
        -- injection Hrun as _ <-. exact Hfetch.
        -- apply (IH _ _ _) in Hrun; [exact Hrun | |].
           ++ intros n. unfold GetOperation. rewrite Hans. cbn. apply Hlag.
           ++ revert Hearly. unfold GetOperation. rewrite Hans.
              cbn [snd time_Sleep clock sleeps lag]. intros Hearly.
              specialize (Hlag (sleeps w)). lia.
Qed.

End Waiting.

(** X18.  A wait with a timeout that is not negative returns at the
    latest when the timeout, one polling interval, the longest oversleep
    and the longest fetch have gone by since it began. *)
Theorem AreWeDoneYet_returns_in_time
    (ctx : runtime.Context) (op : option cloudv1beta1.Operation.t) (timeout : Z)
    (client : runtime.OperationServiceClient) (w : runtime.World)
    (maxLatency maxLag : Z) :
  (0 <= timeout)%Z ->
  (0 <= maxLatency)%Z ->
  (0 <= maxLag)%Z ->
  (forall n, (runtime.latency client n <= maxLatency)%Z) ->
  (forall n, (runtime.lag w n <= maxLag)%Z) ->
  forall fuel r w',
    utils.AreWeDoneYet fuel ctx op timeout client w = (utils.Returned r, w') ->
    (runtime.clock w' - runtime.clock w
     <= timeout + 10 * runtime.Second + maxLag + maxLatency)%Z.
Proof.
  intros Htimeout Hlat0 Hlag0 Hlat Hlag fuel r w'. unfold utils.AreWeDoneYet.
  destruct (utils.CheckOpsState op).
  - destruct (cloudv1beta1.GetError op); intros Hrun; injection Hrun as _ <-;
      unfold runtime.Second; lia.
  - intros Hrun.
    apply (pollLoop_elapsed ctx op timeout client (runtime.clock w) maxLatency maxLag
             Hlat fuel w r w' Hlag); [|exact Hrun].
    unfold utils.pollInterval, runtime.Second. lia.
Qed.

Lemma AreWeDoneYet_returns_in_time_witness :
  (runtime.clock
     (snd (utils.AreWeDoneYet 4 sample.ctx sample.running (25 * runtime.Second)
             (sample.answering sample.running) sample.idle))
   - runtime.clock sample.idle
   <= 25 * runtime.Second + 10 * runtime.Second + 0 + runtime.Second)%Z.
Proof.
  apply (AreWeDoneYet_returns_in_time sample.ctx sample.running (25 * runtime.Second)
           (sample.answering sample.running) sample.idle runtime.Second 0
           ltac:(unfold runtime.Second; lia) ltac:(unfold runtime.Second; lia) ltac:(lia)
           ltac:(intros n; cbn; lia) ltac:(intros n; cbn; lia)
           4 (Some utils.timeout_reached)).
  vm_compute. reflexivity.
Defined.

Lemma verdict_undecided (a : option cloudv1beta1.Operation.t * option string) :
  decisive a = false -> verdict a = Some utils.timeout_reached.
Proof.
  destruct a as [o [msg|]]; cbn [decisive verdict]; [discriminate|].
  intros ->. reflexivity.
Qed.

(** A run of the loop, whether or not it has returned when the fuel is
    used up: every answer but the last one fetched did not end the wait; a
    run that is still polling has made one fetch per unit of fuel, none of
    them ending the wait; a run that has returned has made a fetch, and
    returns what its last answer commands. *)
Lemma pollLoop_run
    (ctx : runtime.Context) (op : option cloudv1beta1.Operation.t) (timeout : Z)
    (client : runtime.OperationServiceClient) (startTime : Z) (fuel : nat) :
  forall (w : runtime.World) (out : utils.outcome) (w' : runtime.World),
    utils.pollLoop fuel ctx op timeout client startTime w = (out, w') ->
    (forall i, runtime.fetches w <= i -> S i < runtime.fetches w' ->
       decisive (runtime.answer client i ctx
                   {| cloudv1beta1.GetOperationRequest.Id := cloudv1beta1.GetId op |}) = false)
    /\ (out = utils.StillPolling ->
        runtime.fetches w' = runtime.fetches w + fuel
        /\ forall i, runtime.fetches w <= i -> i < runtime.fetches w' ->
             decisive (runtime.answer client i ctx
                         {| cloudv1beta1.GetOperationRequest.Id := cloudv1beta1.GetId op |})
             = false)
    /\ (forall r, out = utils.Returned r ->
        runtime.fetches w < runtime.fetches w'
        /\ r = verdict (runtime.answer client (pred (runtime.fetches w')) ctx
                          {| cloudv1beta1.GetOperationRequest.Id := cloudv1beta1.GetId op |})).
Proof.
  set (req := {| cloudv1beta1.GetOperationRequest.Id := cloudv1beta1.GetId op |}).
  induction fuel as [|fuel IH]; intros w out w' Hrun.
  - cbn in Hrun. unfold runtime.ret in Hrun. injection Hrun as <- <-.
    split; [intros i Hlo Hhi; lia|]. split.
    + intros _. split; [lia | intros i Hlo Hhi; lia].
    + intros r Hr. discriminate Hr.
  - rewrite pollLoop_step in Hrun. cbv zeta in Hrun. fold req in Hrun.
    assert (Hfetched : runtime.fetches (snd (runtime.GetOperation client ctx req w))
                       = S (runtime.fetches w)).
    { unfold runtime.GetOperation.
      destruct (runtime.answer client (runtime.fetches w) ctx req). reflexivity. }
    assert (Hends : forall r0,
               r0 = verdict (runtime.answer client (runtime.fetches w) ctx req) ->
               (utils.Returned r0, snd (runtime.GetOperation client ctx req w)) = (out, w') ->
               (forall i, runtime.fetches w <= i -> S i < runtime.fetches w' ->
                  decisive (runtime.answer client i ctx req) = false)
               /\ (out = utils.StillPolling ->
                   runtime.fetches w' = runtime.fetches w + S fuel
                   /\ forall i, runtime.fetches w <= i -> i < runtime.fetches w' ->
                        decisive (runtime.answer client i ctx req) = false)
               /\ (forall r, out = utils.Returned r ->
                   runtime.fetches w < runtime.fetches w'
                   /\ r = verdict (runtime.answer client (pred (runtime.fetches w')) ctx req))).
    { intros r0 Hr0 Heq. injection Heq as <- <-. rewrite Hfetched.
      split; [intros i Hlo Hhi; lia|]. split.
      - intros Hout. discriminate Hout.
      - intros r Hr. injection Hr as <-. split; [lia | exact Hr0]. }
    destruct (runtime.answer client (runtime.fetches w) ctx req) as [o [msg|]] eqn:Hans.
    + apply (Hends _ eq_refl Hrun).
    + unfold verdict in Hends.
      destruct (utils.CheckOpsState o) eqn:Hstate.
      * destruct (cloudv1beta1.GetError o) as [st|];
          [destruct (utils.IsNotFound _)|]; apply (Hends _ eq_refl Hrun).
      * destruct (_ <? _)%Z.
        -- apply (Hends _ eq_refl Hrun).
        -- assert (Hslept : runtime.fetches
                              (snd (runtime.time_Sleep utils.pollInterval
                                      (snd (runtime.GetOperation client ctx req w))))
                            = S (runtime.fetches w)).
           { cbn [runtime.time_Sleep snd runtime.fetches]. exact Hfetched. }
           assert (Hfirst : decisive (runtime.answer client (runtime.fetches w) ctx req)
                            = false).
           { rewrite Hans. exact Hstate. }
           destruct (IH _ _ _ Hrun) as (HA & HB & HC). rewrite Hslept in HA, HB, HC.
           split; [|split].
           ++ intros i Hlo Hhi. destruct (Nat.eq_dec i (runtime.fetches w)) as [-> | Hne];
                [exact Hfirst | apply HA; lia].
           ++ intros Hout. destruct (HB Hout) as [Hn Hall]. split; [lia|].
              intros i Hlo Hhi. destruct (Nat.eq_dec i (runtime.fetches w)) as [-> | Hne];
                [exact Hfirst | apply Hall; lia].
           ++ intros r Hr. destruct (HC r Hr) as [Hlt Hv]. split; [lia | exact Hv].
Qed.

(** X19.  A wait on an operation that has not settled, whatever the fuel
    granted to the loop.  With any fuel at all it makes a fetch.  No answer
    before the last one fetched ends the wait; a run that is still polling
    when the fuel is used up has made one fetch per unit of fuel, none of
    which ends the wait; a run that has returned returns what its last
    answer alone commands: the error of the client with its message
    unchanged, the result of a settled operation, or the timeout error on an
    operation that has not settled.  And the wait does end: when the answer
    number [k] is the first that is an error or a settled operation, a run
    with more than [k] units of fuel returns, either at that answer with
    what it commands, also after the timeout has passed, or earlier with the
    timeout error. *)
Theorem AreWeDoneYet_last_answer_decides
    (ctx : runtime.Context) (op : option cloudv1beta1.Operation.t) (timeout : Z)
    (client : runtime.OperationServiceClient) (w : runtime.World) (fuel : nat) :
  utils.CheckOpsState op = false ->
  let run := utils.AreWeDoneYet fuel ctx op timeout client w in
  let answered := fun i =>
    runtime.answer client i ctx
      {| cloudv1beta1.GetOperationRequest.Id := cloudv1beta1.GetId op |} in
  (0 < fuel -> runtime.fetches w < runtime.fetches (snd run))
  /\ (forall i, runtime.fetches w <= i -> S i < runtime.fetches (snd run) ->
        decisive (answered i) = false)
  /\ (fst run = utils.StillPolling ->
      runtime.fetches (snd run) = runtime.fetches w + fuel
      /\ forall i, runtime.fetches w <= i -> i < runtime.fetches (snd run) ->
           decisive (answered i) = false)
  /\ (forall r, fst run = utils.Returned r ->
      runtime.fetches w < runtime.fetches (snd run)
      /\ r = verdict (answered (pred (runtime.fetches (snd run)))))
  /\ (forall k,
        k < fuel ->
        (forall i, runtime.fetches w <= i -> i < runtime.fetches w + k ->
           decisive (answered i) = false) ->
        decisive (answered (runtime.fetches w + k)) = true ->
        exists r,
          fst run = utils.Returned r
          /\ runtime.fetches w < runtime.fetches (snd run)
          /\ runtime.fetches (snd run) <= runtime.fetches w + k + 1
          /\ (runtime.fetches (snd run) = runtime.fetches w + k + 1 ->
              r = verdict (answered (runtime.fetches w + k)))
          /\ (runtime.fetches (snd run) < runtime.fetches w + k + 1 ->
              r = Some utils.timeout_reached)).
Proof.
  intros Hpending run answered. subst answered. cbv beta.
  assert (Hrun : run = utils.pollLoop fuel ctx op timeout client (runtime.clock w) w).
  { subst run. unfold utils.AreWeDoneYet. rewrite Hpending. reflexivity. }
  destruct run as [out w'] eqn:Hout. symmetry in Hrun.
  destruct (pollLoop_run ctx op timeout client (runtime.clock w) fuel w out w' Hrun)
    as (HA & HB & HC).
  cbn [fst snd].
  split; [|split; [exact HA | split; [exact HB | split; [exact HC|]]]].
  - intros Hfuel. destruct out as [r|].
    + apply (HC r eq_refl).
    + destruct (HB eq_refl) as [Hn _]. lia.
  - intros k Hk Hbefore Hat. destruct out as [r|].
    + destruct (HC r eq_refl) as [Hlt Hr]. exists r.
      assert (Hle : runtime.fetches w' <= runtime.fetches w + k + 1).
      { destruct (Nat.le_gt_cases (runtime.fetches w') (runtime.fetches w + k + 1))
          as [Hle | Hgt]; [exact Hle|].
        rewrite (HA (runtime.fetches w + k)) in Hat by lia. discriminate Hat. }
      split; [reflexivity|]. split; [exact Hlt|]. split; [exact Hle|]. split.
      * intros Heq. rewrite Hr. f_equal. f_equal. lia.
      * intros Hless. rewrite Hr. apply verdict_undecided. apply Hbefore; lia.
    + destruct (HB eq_refl) as [Hn Hall].
      rewrite (Hall (runtime.fetches w + k)) in Hat by lia. discriminate Hat.
Qed.

Lemma AreWeDoneYet_last_answer_decides_witness :
  utils.CheckOpsState sample.running = false
  /\ exists r,
       fst (utils.AreWeDoneYet 1 sample.ctx sample.running 0
              (sample.answering
                 (sample.operation cloudv1beta1.Operation_STATE_COMPLETED None))
              sample.idle)
       = utils.Returned r
       /\ r = None.
Proof.
  assert (H : utils.CheckOpsState sample.running = false) by reflexivity.
  split; [exact H|].
  destruct (proj2 (proj2 (proj2 (proj2
              (AreWeDoneYet_last_answer_decides sample.ctx sample.running 0
                 (sample.answering
                    (sample.operation cloudv1beta1.Operation_STATE_COMPLETED None))
                 sample.idle 1 H)))) 0 (le_n 1))
    as (r & Hr & _ & _ & Hat & _).
  - intros i Hlo Hhi. cbn in Hlo, Hhi. lia.
  - reflexivity.
  - exists r. split; [exact Hr|]. rewrite Hat; reflexivity.
Defined.

Lemma TypeListToStringSlice_elements_witness :
  Go.elems (@utils.TypeListToStringSlice sample.collaborators
              (types.ListValue [types.StringValue "123"; types.StringValue "456"]))
  = ["123"; "456"]
  /\ @utils.TypeListToStringSlice sample.collaborators (types.ListValue []) = None.
Proof.
  split.
  - apply (proj1 (@TypeListToStringSlice_elements sample.collaborators
                    (types.ListValue [types.StringValue "123"; types.StringValue "456"]))).
  - apply (proj2 (proj1 (proj2 (@TypeListToStringSlice_elements sample.collaborators
                                  (types.ListValue []))))).
    reflexivity.
Defined.

Lemma gcpConnectConsumer_round_trip_witness :
  cluster.gcpConnectConsumerModelToStruct (Some []) = None.
Proof.
  apply (proj2 (proj2 (proj2 (proj2 gcpConnectConsumer_round_trip)) (Some []))).
  reflexivity.
Defined.
